(** * Appointment booking agent: dialogue state machine and availability engine

    A shallow embedding of the Python sources

    - [app/models/schemas.py]          (records and enumerations),
    - [app/agent/state.py]             (session state),
    - [app/calendar/mock_calendar.py]  (in-memory calendar backend),
    - [app/calendar/google_calendar.py] (networked calendar backend),
    - [app/utils/validators.py]        (input validation),
    - [app/agent/nodes.py]             (dialogue handlers),

    followed by the properties of the specification that concern them. *)

From Stdlib Require Import ZArith List String Ascii Bool Lia.
From Stdlib Require Import DecimalString.
From Stdlib Require Import Sorted.
Import ListNotations.

Local Open Scope string_scope.
Local Open Scope Z_scope.

(** ** Python values and exceptions *)

(** Exceptions are values: a class and the text [str(e)] gives. *)
Inductive exn_class : Type :=
| AttributeError
| TypeError
| ValueError
| IndexError
| ValidationError
| HttpError
| RuntimeError.

Record exn : Type := mk_exn { exn_cls : exn_class; exn_str : string }.

(** A computation that returns or raises. *)
Inductive result (A : Type) : Type :=
| Ok (a : A)
| Raise (e : exn).

Arguments Ok {A} a.
Arguments Raise {A} e.

Definition bind {A B : Type} (r : result A) (k : A -> result B) : result B :=
  match r with
  | Ok a => k a
  | Raise e => Raise e
  end.

Notation "x <- r ;; k" := (bind r (fun x => k))
  (at level 61, r at next level, right associativity).

Definition is_ok {A : Type} (r : result A) : bool :=
  match r with Ok _ => true | Raise _ => false end.

(** [try: body except Exception as e: handler e]. *)
Definition try_except {A : Type} (body : result A) (handler : exn -> A) : A :=
  match body with
  | Ok a => a
  | Raise e => handler e
  end.

Module Py.

(** The double-quote character, for reply texts that quote examples. *)
Definition dq : string := String (ascii_of_nat 34) EmptyString.

(** [needle in hay] on strings. *)
Fixpoint contains (needle hay : string) : bool :=
  if String.prefix needle hay then true
  else match hay with
       | EmptyString => false
       | String _ rest => contains needle rest
       end.

Definition lower_ascii (c : ascii) : ascii :=
  let n := nat_of_ascii c in
  if andb (Nat.leb 65 n) (Nat.leb n 90) then ascii_of_nat (n + 32) else c.

(** [s.lower()], on the ASCII letters. *)
Fixpoint lower (s : string) : string :=
  match s with
  | EmptyString => EmptyString
  | String c rest => String (lower_ascii c) (lower rest)
  end.

(** [str(n)] for an [int]. *)
Definition str_int (n : Z) : string := NilZero.string_of_int (Z.to_int n).

(** [str(x)] for an [Optional[int]] and an [Optional[str]]. *)
Definition str_opt_int (o : option Z) : string :=
  match o with Some n => str_int n | None => "None" end.

Definition str_opt (o : option string) : string :=
  match o with Some s => s | None => "None" end.

(** Truthiness of an [Optional[int]], an [Optional[str]] and a list. *)
Definition truthy_int (o : option Z) : bool :=
  match o with Some n => negb (n =? 0) | None => false end.

Definition truthy_str (o : option string) : bool :=
  match o with
  | Some EmptyString => false
  | Some _ => true
  | None => false
  end.

Definition truthy_list {A : Type} (l : list A) : bool :=
  match l with [] => false | _ :: _ => true end.

(** [any(word in text for word in words)]. *)
Definition any_in (words : list string) (text : string) : bool :=
  existsb (fun w => contains w text) words.

(** [c.isspace()] for the characters below 256. *)
Definition isspace (c : ascii) : bool :=
  let n := nat_of_ascii c in
  (Nat.leb 9 n && Nat.leb n 13) || (Nat.leb 28 n && Nat.leb n 32)
  || Nat.eqb n 133 || Nat.eqb n 160.

(** [s.lstrip()], [s.rstrip()] and [s.strip()]. *)
Fixpoint lstrip (s : string) : string :=
  match s with
  | EmptyString => EmptyString
  | String c rest => if isspace c then lstrip rest else s
  end.

Fixpoint rstrip (s : string) : string :=
  match s with
  | EmptyString => EmptyString
  | String c rest =>
      match rstrip rest with
      | EmptyString => if isspace c then EmptyString else String c EmptyString
      | String c' rest' => String c (String c' rest')
      end
  end.

Definition strip (s : string) : string := rstrip (lstrip s).

(** [s.replace(c, '')] for a one-character [c]. *)
Fixpoint remove_char (c : ascii) (s : string) : string :=
  match s with
  | EmptyString => EmptyString
  | String x rest =>
      if Ascii.eqb x c then remove_char c rest else String x (remove_char c rest)
  end.

(** [s[:n]]. *)
Fixpoint take (n : nat) (s : string) : string :=
  match n, s with
  | O, _ => EmptyString
  | S n', EmptyString => EmptyString
  | S n', String c rest => String c (take n' rest)
  end.

(** [c in s] for a character. *)
Fixpoint has_char (c : ascii) (s : string) : bool :=
  match s with
  | EmptyString => false
  | String x rest => Ascii.eqb x c || has_char c rest
  end.

End Py.

(** ** Time

    The dialogue core only builds naive [datetime] values
    ([datetime.now()], [datetime.combine], the date parser).  A naive
    datetime is the number of microseconds since 0001-01-01 00:00, which
    is a Monday; a [date] is the number of days since that day and a
    [timedelta] a number of microseconds. *)

Definition datetime : Type := Z.
Definition date : Type := Z.
Definition timedelta : Type := Z.

Definition usec_per_minute : Z := 60000000.
Definition usec_per_day : Z := 1440 * usec_per_minute.

Definition timedelta_minutes (m : Z) : timedelta := m * usec_per_minute.
Definition timedelta_days (d : Z) : timedelta := d * usec_per_day.

(** [time(h, m)], as the offset from midnight. *)
Definition time_of (h m : Z) : timedelta := timedelta_minutes (h * 60 + m).

(** [dt.date()], [d.weekday()] (0 is Monday) and [datetime.combine]. *)
Definition date_of (dt : datetime) : date := dt / usec_per_day.
Definition time_of_day (dt : datetime) : timedelta := dt mod usec_per_day.
Definition weekday (d : date) : Z := d mod 7.
Definition combine (d : date) (t : timedelta) : datetime := d * usec_per_day + t.

(** [int(td.total_seconds() / 60)]: whole minutes, truncated towards zero. *)
Definition minutes_between (start_time end_time : datetime) : Z :=
  Z.quot (end_time - start_time) usec_per_minute.

(** ** app/models/schemas.py *)

Inductive ConversationStateEnum : Type :=
| INITIAL
| COLLECTING_DETAILS
| CHECKING_AVAILABILITY
| SUGGESTING_SLOTS
| CONFIRMING_BOOKING
| BOOKING_COMPLETE.

Inductive Role : Type := user | assistant.

Record Message : Type := mk_Message {
  role : Role;
  content : string;
  timestamp : datetime
}.

Record TimeSlot : Type := mk_TimeSlot {
  start_time : datetime;
  end_time : datetime;
  duration_minutes : Z
}.

(** [preferred_times] is never read or written and is left out. *)
Record AppointmentRequest : Type := mk_AppointmentRequest {
  title : option string;
  description : option string;
  start_date : option datetime;
  end_date : option datetime;
  ar_duration_minutes : option Z;
  attendees : list string
}.

Record ConversationState : Type := mk_ConversationState {
  current_state : ConversationStateEnum;
  appointment_request : option AppointmentRequest;
  available_slots : list TimeSlot;
  error_message : option string
}.

Record CalendarEvent : Type := mk_CalendarEvent {
  ev_id : string;
  ev_title : string;
  ev_description : option string;
  ev_start_time : datetime;
  ev_end_time : datetime;
  ev_attendees : list string
}.

(** [CalendarEvent(id=..., title=..., ...)]: [title] is a required [str],
    so the model's validation rejects [None]. *)
Definition new_CalendarEvent (id : string) (title : option string)
    (description : option string) (start_time end_time : datetime)
    (attendees : list string) : result CalendarEvent :=
  match title with
  | Some t => Ok (mk_CalendarEvent id t description start_time end_time attendees)
  | None => Raise (mk_exn ValidationError "1 validation error for CalendarEvent")
  end.

(** [error_code] and [event_details] are passed by the backends but are
    not fields of the model, so they are dropped on construction. *)
Record BookingResponse : Type := mk_BookingResponse {
  success : bool;
  message : string;
  event_id : option string
}.

Record AvailabilityResponse : Type := mk_AvailabilityResponse {
  resp_available_slots : list TimeSlot;
  requested_date : option datetime
}.

(** ** app/utils/date_parser.py

    The parsing grammar is outside the core: the handlers only consume
    what the parser returns for the utterance. *)
Record DateParser : Type := mk_DateParser {
  parse_time_range : string -> option (datetime * datetime);
  parse_date_time : string -> option datetime;
  parse_duration : string -> option Z;
  format_datetime : datetime -> string
}.

(** ** app/calendar/mock_calendar.py *)

Module MockCalendar.

(** [self.events]: a dictionary from event id to event, in insertion
    order.  The seeded events and the times the dialogue passes in are
    naive datetimes, so the comparisons below do not raise. *)
Definition t : Type := list (string * CalendarEvent).

Definition business_hours_start : timedelta := time_of 9 0.
Definition business_hours_end : timedelta := time_of 18 0.

(** [d[k] = v]: replaces the value in place when the key is present,
    appends otherwise. *)
Fixpoint dict_set (k : string) (v : CalendarEvent) (d : t) : t :=
  match d with
  | [] => [(k, v)]
  | (k', v') :: rest =>
      if String.eqb k' k then (k, v) :: rest else (k', v') :: dict_set k v rest
  end.

Definition dict_mem (k : string) (d : t) : bool :=
  existsb (fun kv => String.eqb (fst kv) k) d.

Definition dict_del (k : string) (d : t) : t :=
  filter (fun kv => negb (String.eqb (fst kv) k)) d.

Definition values (d : t) : list CalendarEvent := map snd d.
Definition keys (d : t) : list string := map fst d.

(** The four seeded events, relative to [today = datetime.now().date()]. *)
Definition mock_events (today : date) : list CalendarEvent :=
  [ mk_CalendarEvent "mock_event_0" "Team Meeting" (Some "Weekly team sync")
      (combine (today + 1) (time_of 10 0)) (combine (today + 1) (time_of 11 0)) [];
    mk_CalendarEvent "mock_event_1" "Client Call" (Some "Project discussion")
      (combine (today + 1) (time_of 14 0)) (combine (today + 1) (time_of 15 0)) [];
    mk_CalendarEvent "mock_event_2" "Lunch Break" (Some "Lunch with colleagues")
      (combine (today + 2) (time_of 12 0)) (combine (today + 2) (time_of 13 0)) [];
    mk_CalendarEvent "mock_event_3" "Product Review"
      (Some "Monthly product review meeting")
      (combine (today + 3) (time_of 9 0)) (combine (today + 3) (time_of 10 30)) [] ].

Definition _generate_mock_events (today : date) : t :=
  fold_left (fun d ev => dict_set (ev_id ev) ev d) (mock_events today) [].

(** The [while] loop of [_generate_day_slots]: one iteration per unit
    of [fuel]. *)
Fixpoint day_slots_loop (fuel : nat) (current_time end_datetime : datetime)
    (duration_minutes : Z) : list TimeSlot :=
  match fuel with
  | O => []
  | S fuel' =>
      if current_time + timedelta_minutes duration_minutes <=? end_datetime then
        let slot_end := current_time + timedelta_minutes duration_minutes in
        mk_TimeSlot current_time slot_end duration_minutes
        :: day_slots_loop fuel' (current_time + timedelta_minutes 30)
             end_datetime duration_minutes
      else []
  end.

(** The number of times the loop guard of [_generate_day_slots] holds. *)
Definition day_slots_count (duration_minutes : Z) : nat :=
  Z.to_nat
    ((business_hours_end - business_hours_start
      - timedelta_minutes duration_minutes) / timedelta_minutes 30 + 1).

Definition _generate_day_slots (date_obj : date) (duration_minutes : Z)
    : list TimeSlot :=
  let start_datetime := combine date_obj business_hours_start in
  let end_datetime := combine date_obj business_hours_end in
  day_slots_loop (day_slots_count duration_minutes)
    start_datetime end_datetime duration_minutes.

(** The inner loop of [_filter_conflicting_slots], with its [break]. *)
Fixpoint slot_is_available (slot : TimeSlot) (events : list CalendarEvent)
    : bool :=
  match events with
  | [] => true
  | event :: rest =>
      if (start_time slot <? ev_end_time event)
         && (end_time slot >? ev_start_time event)
      then false
      else slot_is_available slot rest
  end.

Definition _filter_conflicting_slots (self : t) (slots : list TimeSlot)
    : list TimeSlot :=
  filter (fun slot => slot_is_available slot (values self)) slots.

(** The [while current_date <= end_date_only] loop of
    [get_availability]. *)
Fixpoint availability_loop (self : t) (fuel : nat)
    (current_date end_date_only : date) (duration_minutes : Z)
    : list TimeSlot :=
  match fuel with
  | O => []
  | S fuel' =>
      if current_date <=? end_date_only then
        if weekday current_date >=? 5 then
          availability_loop self fuel' (current_date + 1) end_date_only
            duration_minutes
        else
          let day_slots := _generate_day_slots current_date duration_minutes in
          let available_day_slots := _filter_conflicting_slots self day_slots in
          available_day_slots
          ++ availability_loop self fuel' (current_date + 1) end_date_only
               duration_minutes
      else []
  end.

Definition get_availability (self : t) (start_date end_date : datetime)
    (duration_minutes : Z) : AvailabilityResponse :=
  let current_date := date_of start_date in
  let end_date_only := date_of end_date in
  let available_slots :=
    availability_loop self (Z.to_nat (end_date_only - current_date + 1))
      current_date end_date_only duration_minutes in
  mk_AvailabilityResponse available_slots (Some start_date).

Section Booking.

Variable date_parser : DateParser.

(** [now_ts] is [int(datetime.now().timestamp())] at the call. *)
Definition book_appointment (self : t) (now_ts : Z) (title : option string)
    (start_time end_time : datetime) (description : option string)
    (attendees : option (list string)) : BookingResponse * t :=
  try_except
    (if start_time >=? end_time then
       Ok (mk_BookingResponse false "Start time must be before end time" None,
           self)
     else
       let availability :=
         get_availability self start_time end_time
           (minutes_between start_time end_time) in
       if negb (Py.truthy_list (resp_available_slots availability)) then
         Ok (mk_BookingResponse false
               "The requested time slot is not available" None,
             self)
       else
         let event_id :=
           "event_" ++ Py.str_int (Z.of_nat (List.length self)) ++ "_"
           ++ Py.str_int now_ts in
         event <- new_CalendarEvent event_id title
                    (if Py.truthy_str description then description
                     else Some "Appointment booked via AI assistant")
                    start_time end_time
                    (match attendees with
                     | Some (a :: l) => a :: l
                     | _ => []
                     end) ;;
         Ok (mk_BookingResponse true
               ("Appointment '" ++ ev_title event
                ++ "' booked successfully for "
                ++ format_datetime date_parser start_time)
               (Some event_id),
             dict_set event_id event self))
    (fun e =>
       (mk_BookingResponse false
          ("Failed to book appointment: " ++ exn_str e) None,
        self)).

End Booking.

Definition delete_event (self : t) (event_id : string) : bool * t :=
  if dict_mem event_id self then (true, dict_del event_id self)
  else (false, self).

Definition get_events (self : t) (start_date end_date : datetime)
    : list CalendarEvent :=
  filter (fun event =>
            (ev_start_time event >=? start_date)
            && (ev_start_time event <=? end_date))
    (values self).

(** [now] is the reading of [datetime.now()]. *)
Definition get_next_available_slot (now : datetime) (self : t)
    (duration_minutes : Z) (preferred_date : option datetime)
    : option TimeSlot :=
  let start_date :=
    match preferred_date with
    | Some p => p
    | None => now
    end in
  let end_date := start_date + timedelta_days 7 in
  let availability := get_availability self start_date end_date duration_minutes in
  match resp_available_slots availability with
  | slot :: _ => Some slot
  | [] => None
  end.

Definition suggest_alternative_times (self : t) (requested_date : datetime)
    (duration_minutes : Z) : list TimeSlot :=
  let start_date := requested_date in
  let end_date := start_date + timedelta_days 5 in
  let availability := get_availability self start_date end_date duration_minutes in
  firstn 5 (resp_available_slots availability).

End MockCalendar.

(** ** app/utils/date_parser.py: the functions that need no grammar

    [now] is [self.now], read once when the parser is constructed. *)

Module DateParserCode.

Definition _parse_relative_date (now : datetime) (text : string)
    : option datetime :=
  let today := date_of now in
  if Py.contains "tomorrow" text then
    Some (combine (today + 1) (time_of 9 0))
  else if Py.contains "next day" text then
    Some (combine (today + 1) (time_of 9 0))
  else if Py.contains "next week" text then
    let next_week := today + 7 in
    let days_ahead := 7 - weekday next_week in
    let days_ahead := if days_ahead =? 7 then 0 else days_ahead in
    let next_monday := next_week + days_ahead in
    Some (combine next_monday (time_of 9 0))
  else if Py.contains "this week" text then
    let current_day := weekday today in
    let next_working_day :=
      if current_day >=? 5 then
        let days_ahead := 7 - current_day in
        today + days_ahead
      else today + 1 in
    Some (combine next_working_day (time_of 9 0))
  else if Py.contains "today" text then
    Some (combine today (time_of 9 0))
  else None.

(** The [while] loop of [get_business_hours_slots]. *)
Fixpoint business_slots_loop (fuel : nat) (current_time end_datetime : datetime)
    (duration_minutes : Z) : list (datetime * datetime) :=
  match fuel with
  | O => []
  | S fuel' =>
      if current_time + timedelta_minutes duration_minutes <=? end_datetime then
        let slot_end := current_time + timedelta_minutes duration_minutes in
        (current_time, slot_end)
        :: business_slots_loop fuel' (current_time + timedelta_minutes 30)
             end_datetime duration_minutes
      else []
  end.

Definition get_business_hours_slots (dt : datetime) (duration_minutes : Z)
    : list (datetime * datetime) :=
  let business_start := time_of 9 0 in
  let business_end := time_of 18 0 in
  if weekday (date_of dt) >=? 5 then []
  else
    let start_datetime := combine (date_of dt) business_start in
    let end_datetime := combine (date_of dt) business_end in
    business_slots_loop (MockCalendar.day_slots_count duration_minutes)
      start_datetime end_datetime duration_minutes.

Definition is_business_hours (dt : datetime) : bool :=
  let business_start := time_of 9 0 in
  let business_end := time_of 18 0 in
  if weekday (date_of dt) >=? 5 then false
  else
    let current_time := time_of_day dt in
    (business_start <=? current_time) && (current_time <? business_end).

End DateParserCode.

(** ** app/calendar/google_calendar.py *)

Module GoogleCalendar.

(** What [datetime.fromisoformat] builds from an API string: a wall
    clock reading and, when the string carries [Z] or an offset, a UTC
    offset in minutes (an aware datetime). *)
Record pydatetime : Type := mk_pydatetime {
  wall : datetime;
  utcoffset : option Z
}.

(** A time of an API event, that is the string
    [event['start'].get('dateTime', event['start'].get('date'))],
    by what the code reads from it. *)
Inductive api_time : Type :=
| AllDay (d : date)          (* the [date] form: no ['T'] in the string *)
| DateTime (p : pydatetime)  (* an ISO [dateTime] *)
| Malformed.                 (* has a ['T'] but [fromisoformat] rejects it *)

Record api_event : Type := mk_api_event {
  ae_start : api_time;
  ae_end : api_time
}.

Definition has_T (s : api_time) : bool :=
  match s with AllDay _ => false | DateTime _ => true | Malformed => true end.

(** [datetime.fromisoformat(s.replace('Z', '+00:00'))]. *)
Definition fromisoformat (s : api_time) : result pydatetime :=
  match s with
  | AllDay d => Ok (mk_pydatetime (combine d 0) None)
  | DateTime p => Ok p
  | Malformed => Raise (mk_exn ValueError "Invalid isoformat string")
  end.

(** [a < b] and [a > b] for a naive [a]: ordering a naive against an
    aware datetime raises. *)
Definition naive_lt (a : datetime) (b : pydatetime) : result bool :=
  match utcoffset b with
  | None => Ok (a <? wall b)
  | Some _ =>
      Raise (mk_exn TypeError
               "can't compare offset-naive and offset-aware datetimes")
  end.

Definition naive_gt (a : datetime) (b : pydatetime) : result bool :=
  match utcoffset b with
  | None => Ok (a >? wall b)
  | Some _ =>
      Raise (mk_exn TypeError
               "can't compare offset-naive and offset-aware datetimes")
  end.

(** [x and y], where [y] is only evaluated when [x] holds. *)
Definition and_then (x : result bool) (y : result bool) : result bool :=
  b <- x ;; if b then y else Ok false.

(** The calls made on [self.service]: [events().list(...).execute()]
    and [events().insert(...).execute()], the latter giving the id of
    the created event. *)
Record Service : Type := mk_Service {
  events_list : datetime -> datetime -> result (list api_event);
  events_insert :
    option string -> datetime -> datetime -> string -> option (list string) ->
    result string
}.

Record t : Type := mk_t { service : option Service }.

Definition business_hours_start : timedelta := time_of 9 0.
Definition business_hours_end : timedelta := time_of 18 0.

(** [try: body except HttpError as error: handler]; other exceptions
    propagate. *)
Definition except_HttpError {A : Type} (body : result A)
    (handler : exn -> result A) : result A :=
  match body with
  | Ok a => Ok a
  | Raise e =>
      match exn_cls e with
      | HttpError => handler e
      | _ => Raise e
      end
  end.

(** The [for event in events] loop of [is_time_available]. *)
Fixpoint check_conflicts (start_time end_time : datetime)
    (events : list api_event) : result bool :=
  match events with
  | [] => Ok true
  | event :: rest =>
      if has_T (ae_start event) then
        event_start <- fromisoformat (ae_start event) ;;
        event_end <- fromisoformat (ae_end event) ;;
        overlap <- and_then (naive_lt start_time event_end)
                     (naive_gt end_time event_start) ;;
        if overlap then Ok false else check_conflicts start_time end_time rest
      else check_conflicts start_time end_time rest
  end.

Definition is_time_available (self : t) (start_time end_time : datetime)
    : result bool :=
  match service self with
  | None => Ok true
  | Some svc =>
      except_HttpError
        (events <- events_list svc start_time end_time ;;
         check_conflicts start_time end_time events)
        (fun _ => Ok true)
  end.

Definition _generate_day_slots (date_obj : date) (duration_minutes : Z)
    : list TimeSlot :=
  let start_datetime := combine date_obj business_hours_start in
  let end_datetime := combine date_obj business_hours_end in
  MockCalendar.day_slots_loop (MockCalendar.day_slots_count duration_minutes)
    start_datetime end_datetime duration_minutes.

(** The day loop of [_generate_all_slots]. *)
Fixpoint all_slots_loop (fuel : nat) (current_date end_date_only : date)
    (duration_minutes : Z) : list TimeSlot :=
  match fuel with
  | O => []
  | S fuel' =>
      if current_date <=? end_date_only then
        if weekday current_date >=? 5 then
          all_slots_loop fuel' (current_date + 1) end_date_only duration_minutes
        else
          _generate_day_slots current_date duration_minutes
          ++ all_slots_loop fuel' (current_date + 1) end_date_only
               duration_minutes
      else []
  end.

Definition _generate_all_slots (start_date end_date : datetime)
    (duration_minutes : Z) : list TimeSlot :=
  let current_date := date_of start_date in
  let end_date_only := date_of end_date in
  all_slots_loop (Z.to_nat (end_date_only - current_date + 1))
    current_date end_date_only duration_minutes.

(** The inner loop of [_filter_conflicting_slots]: all-day events are
    skipped, and so is every event for which parsing or comparing
    raises (the bare [except: continue]). *)
Fixpoint slot_is_available (slot : TimeSlot) (events : list api_event)
    : bool :=
  match events with
  | [] => true
  | event :: rest =>
      if negb (has_T (ae_start event)) then slot_is_available slot rest
      else
        match
          (event_start <- fromisoformat (ae_start event) ;;
           event_end <- fromisoformat (ae_end event) ;;
           and_then (naive_lt (start_time slot) event_end)
             (naive_gt (end_time slot) event_start))
        with
        | Ok true => false
        | Ok false => slot_is_available slot rest
        | Raise _ => slot_is_available slot rest
        end
  end.

Definition _filter_conflicting_slots (slots : list TimeSlot)
    (events : list api_event) : list TimeSlot :=
  filter (fun slot => slot_is_available slot events) slots.

Definition get_availability (self : t) (start_date end_date : datetime)
    (duration_minutes : Z) : result AvailabilityResponse :=
  match service self with
  | None => Ok (mk_AvailabilityResponse [] (Some start_date))
  | Some svc =>
      except_HttpError
        (let all_slots :=
           _generate_all_slots start_date end_date duration_minutes in
         events <- events_list svc start_date end_date ;;
         let available_slots := _filter_conflicting_slots all_slots events in
         Ok (mk_AvailabilityResponse available_slots (Some start_date)))
        (fun _ => Ok (mk_AvailabilityResponse [] (Some start_date)))
  end.

Definition book_appointment (self : t) (title : option string)
    (start_time end_time : datetime) (description : option string)
    (attendees : option (list string)) : result BookingResponse :=
  match service self with
  | None =>
      Ok (mk_BookingResponse false "Google Calendar service not available"
            None)
  | Some svc =>
      except_HttpError
        (created_id <-
           events_insert svc title start_time end_time
             (if Py.truthy_str description then Py.str_opt description
              else "Appointment booked via AI assistant")
             attendees ;;
         Ok (mk_BookingResponse true
               ("Appointment '" ++ Py.str_opt title ++ "' booked successfully")
               (Some created_id)))
        (fun error =>
           Ok (mk_BookingResponse false
                 ("Failed to book appointment: " ++ exn_str error) None))
  end.

End GoogleCalendar.

(** ** The calendar service the handlers are configured with

    [get_calendar_service()] returns one of the two backends; the
    handlers call [is_time_available], [get_availability] and
    [book_appointment] on it.  A method the backend class does not define
    is [None] here: looking it up raises [AttributeError]. *)
Record CalendarService (B : Type) : Type := mk_CalendarService {
  class_name : string;
  svc_is_time_available : option (B -> datetime -> datetime -> result bool);
  svc_get_availability :
    B -> datetime -> datetime -> Z -> result AvailabilityResponse;
  svc_book_appointment :
    B -> Z -> option string -> datetime -> datetime -> option string ->
    option (list string) -> result (BookingResponse * B)
}.

Arguments class_name {B} _.
Arguments svc_is_time_available {B} _.
Arguments svc_get_availability {B} _.
Arguments svc_book_appointment {B} _.

(** [MockCalendar] defines no [is_time_available]. *)
Definition mock_calendar (date_parser : DateParser)
    : CalendarService MockCalendar.t :=
  {| class_name := "MockCalendar";
     svc_is_time_available := None;
     svc_get_availability := fun self s e d =>
       Ok (MockCalendar.get_availability self s e d);
     svc_book_appointment := fun self now_ts title s e descr att =>
       Ok (MockCalendar.book_appointment date_parser self now_ts title s e
             descr att) |}.

Definition google_calendar : CalendarService GoogleCalendar.t :=
  {| class_name := "GoogleCalendar";
     svc_is_time_available := Some GoogleCalendar.is_time_available;
     svc_get_availability := GoogleCalendar.get_availability;
     svc_book_appointment := fun self _ title s e descr att =>
       r <- GoogleCalendar.book_appointment self title s e descr att ;;
       Ok (r, self) |}.

(** Looking up a method on the service object. *)
Definition getattr_is_time_available {B : Type} (svc : CalendarService B)
    : result (B -> datetime -> datetime -> result bool) :=
  match svc_is_time_available svc with
  | Some f => Ok f
  | None =>
      Raise (mk_exn AttributeError
               ("'" ++ class_name svc
                ++ "' object has no attribute 'is_time_available'"))
  end.

(** ** app/utils/validators.py *)

Module InputValidator.

Definition min_duration : Z := 15.
Definition max_duration : Z := 240.
Definition max_days_ahead : Z := 90.

(** [now] is the reading of [datetime.now()]. *)
Definition validate_appointment_request (now : datetime)
    (request : AppointmentRequest) : bool * option string :=
  match start_date request, end_date request with
  | None, None =>
      (false, Some "Please specify a date and time for the appointment")
  | _, _ =>
      let date_range_checks :=
        match start_date request, end_date request with
        | Some s, Some e =>
            if s >=? e then (false, Some "Start time must be before end time")
            else if s >? now + timedelta_days max_days_ahead then
              (false,
               Some ("Cannot book appointments more than "
                     ++ Py.str_int max_days_ahead ++ " days in advance"))
            else if s <? now then
              (false, Some "Cannot book appointments in the past")
            else (true, None)
        | _, _ => (true, None)
        end in
      match ar_duration_minutes request with
      | Some d =>
          if negb (d =? 0) then
            if d <? min_duration then
              (false,
               Some ("Duration must be at least " ++ Py.str_int min_duration
                     ++ " minutes"))
            else if d >? max_duration then
              (false,
               Some ("Duration cannot exceed " ++ Py.str_int max_duration
                     ++ " minutes"))
            else date_range_checks
          else date_range_checks
      | None => date_range_checks
      end
  end.

Definition business_hours_start : Z := 9.
Definition business_hours_end : Z := 18.

(** [dt.hour]. *)
Definition hour_of (dt : datetime) : Z :=
  time_of_day dt / timedelta_minutes 60.

Definition validate_time_slot (now : datetime) (slot : TimeSlot)
    : bool * option string :=
  if duration_minutes slot <? min_duration then
    (false,
     Some ("Slot duration must be at least " ++ Py.str_int min_duration
           ++ " minutes"))
  else if duration_minutes slot >? max_duration then
    (false,
     Some ("Slot duration cannot exceed " ++ Py.str_int max_duration
           ++ " minutes"))
  else if start_time slot >=? end_time slot then
    (false, Some "Start time must be before end time")
  else if start_time slot <? now then
    (false, Some "Cannot book slots in the past")
  else if start_time slot >? now + timedelta_days max_days_ahead then
    (false,
     Some ("Cannot book slots more than " ++ Py.str_int max_days_ahead
           ++ " days in advance"))
  else (true, None).

Definition is_business_hours (dt : datetime) : bool :=
  if weekday (date_of dt) >=? 5 then false
  else
    let hour := hour_of dt in
    (business_hours_start <=? hour) && (hour <? business_hours_end).

Definition validate_date_range (now : datetime) (start_date end_date : datetime)
    : bool * option string :=
  if start_date >=? end_date then
    (false, Some "Start date must be before end date")
  else if start_date <? now then
    (false, Some "Start date cannot be in the past")
  else if start_date >? now + timedelta_days max_days_ahead then
    (false,
     Some ("Cannot check availability more than " ++ Py.str_int max_days_ahead
           ++ " days in advance"))
  else (true, None).

Definition dangerous_chars : list ascii :=
  [ "<"%char; ">"%char; ascii_of_nat 34; "'"%char; "&"%char; ";"%char;
    "("%char; ")"%char; "{"%char; "}"%char ].

Definition sanitize_input (text : string) : string :=
  let text := fold_left (fun t c => Py.remove_char c t) dangerous_chars text in
  let text :=
    if Nat.ltb 1000 (String.length text) then Py.take 1000 text else text in
  Py.strip text.

Definition get_validation_errors (now : datetime)
    (request : AppointmentRequest) : list string :=
  let errors : list string := [] in
  let errors :=
    match start_date request, end_date request with
    | None, None => (errors ++ ["Date and time are required"])%list
    | _, _ => errors
    end in
  let errors :=
    match ar_duration_minutes request with
    | Some d =>
        if negb (d =? 0) then
          if d <? min_duration then
            (errors
             ++ [("Duration must be at least " ++ Py.str_int min_duration
                  ++ " minutes")%string])%list
          else if d >? max_duration then
            (errors
             ++ [("Duration cannot exceed " ++ Py.str_int max_duration
                  ++ " minutes")%string])%list
          else errors
        else errors
    | None => errors
    end in
  match start_date request, end_date request with
  | Some s, Some e =>
      let errors :=
        if s >=? e then (errors ++ ["Start time must be before end time"])%list
        else errors in
      let errors :=
        if s <? now then
          (errors ++ ["Cannot book appointments in the past"])%list
        else errors in
      if s >? now + timedelta_days max_days_ahead then
        (errors
         ++ [("Cannot book appointments more than "
              ++ Py.str_int max_days_ahead ++ " days in advance")%string])%list
      else errors
  | _, _ => errors
  end.

End InputValidator.

(** ** app/agent/state.py *)

(** [intent_result] is only read when a message arrives in INITIAL,
    which the handlers below do not depend on; it is left out. *)
Record AgentState : Type := mk_AgentState {
  conversation_state : ConversationState;
  messages : list Message
}.

Definition new_AgentState : AgentState :=
  mk_AgentState (mk_ConversationState INITIAL None [] None) [].

Definition add_user_message (now : datetime) (text : string)
    (state : AgentState) : AgentState :=
  mk_AgentState (conversation_state state)
    (messages state ++ [mk_Message user text now]).

Definition add_assistant_message (now : datetime) (text : string)
    (state : AgentState) : AgentState :=
  mk_AgentState (conversation_state state)
    (messages state ++ [mk_Message assistant text now]).

Definition last_with_role (r : Role) (msgs : list Message) : option string :=
  match
    find (fun m => match role m, r with
                   | user, user | assistant, assistant => true
                   | _, _ => false
                   end) (rev msgs)
  with
  | Some m => Some (content m)
  | None => None
  end.

Definition get_last_user_message (state : AgentState) : option string :=
  last_with_role user (messages state).

Definition get_last_assistant_message (state : AgentState) : option string :=
  last_with_role assistant (messages state).

Definition update_state (new_state : ConversationStateEnum)
    (state : AgentState) : AgentState :=
  let cs := conversation_state state in
  mk_AgentState
    (mk_ConversationState new_state (appointment_request cs)
       (available_slots cs) (error_message cs))
    (messages state).

Definition set_appointment_request (request : AppointmentRequest)
    (state : AgentState) : AgentState :=
  let cs := conversation_state state in
  mk_AgentState
    (mk_ConversationState (current_state cs) (Some request)
       (available_slots cs) (error_message cs))
    (messages state).

Definition set_available_slots (slots : list TimeSlot) (state : AgentState)
    : AgentState :=
  let cs := conversation_state state in
  mk_AgentState
    (mk_ConversationState (current_state cs) (appointment_request cs) slots
       (error_message cs))
    (messages state).

Definition state_of (state : AgentState) : ConversationStateEnum :=
  current_state (conversation_state state).

Definition draft_of (state : AgentState) : option AppointmentRequest :=
  appointment_request (conversation_state state).

(** ** app/models/schemas.py: intents *)

Inductive IntentType : Type :=
| GREETING
| HELP
| BOOK_APPOINTMENT
| CHECK_AVAILABILITY
| UNKNOWN.

(** [confidence] is kept in hundredths; [entities] holds the flags the
    classifiers set.  Neither is read by the handlers. *)
Record IntentResult : Type := mk_IntentResult {
  intent : IntentType;
  confidence : Z;
  entities : list (string * bool)
}.

(** What the language model returns in a turn in which it is asked:
    the classification of [_classify_with_openai_enhanced] and the text of
    [handle_contextual_response]; each is [None] without a client, or
    when the call raises. *)
Record Collaborators : Type := mk_Collaborators {
  ai_intent : option IntentResult;
  ai_reply : option string
}.

(** ** app/agent/nodes.py *)

(** What the extraction collaborator returned for the turn, field by
    field as the handler reads it: a time is present when the JSON value
    is truthy and [datetime.fromisoformat] accepts it. *)
Record Extraction : Type := mk_Extraction {
  ex_start_time : option datetime;
  ex_end_time : option datetime;
  ex_duration : option Z;
  ex_title : option string;
  ex_description : option string
}.

(** The readings a turn takes from outside: the clock, and the
    extraction result ([None] without a client, or when the call or the
    decoding of its answer fails). *)
Record Env : Type := mk_Env {
  now : datetime;
  now_ts : Z;
  extraction : option Extraction
}.

(** Field assignments on the draft. *)
Definition with_title (v : option string) (r : AppointmentRequest) :=
  mk_AppointmentRequest v (description r) (start_date r) (end_date r)
    (ar_duration_minutes r) (attendees r).
Definition with_description (v : option string) (r : AppointmentRequest) :=
  mk_AppointmentRequest (title r) v (start_date r) (end_date r)
    (ar_duration_minutes r) (attendees r).
Definition with_start_date (v : option datetime) (r : AppointmentRequest) :=
  mk_AppointmentRequest (title r) (description r) v (end_date r)
    (ar_duration_minutes r) (attendees r).
Definition with_end_date (v : option datetime) (r : AppointmentRequest) :=
  mk_AppointmentRequest (title r) (description r) (start_date r) v
    (ar_duration_minutes r) (attendees r).
Definition with_duration_minutes (v : option Z) (r : AppointmentRequest) :=
  mk_AppointmentRequest (title r) (description r) (start_date r) (end_date r)
    v (attendees r).

(** [AppointmentRequest(duration_minutes=60)]. *)
Definition fresh_request : AppointmentRequest :=
  mk_AppointmentRequest None None None None (Some 60) [].

Definition nl : string := String (ascii_of_nat 10) EmptyString.

(** [timedelta(minutes=m)] for an [Optional[int]]. *)
Definition timedelta_minutes_opt (m : option Z) : result timedelta :=
  match m with
  | Some v => Ok (timedelta_minutes v)
  | None =>
      Raise (mk_exn TypeError
               "unsupported type for timedelta minutes component: NoneType")
  end.

(** [title.lower()] for an [Optional[str]]. *)
Definition title_lower (t : option string) : result string :=
  match t with
  | Some s => Ok (Py.lower s)
  | None =>
      Raise (mk_exn AttributeError
               "'NoneType' object has no attribute 'lower'")
  end.

(** What a handler that may let an exception escape leaves behind: the
    session object is mutated in place, so it is there in both cases. *)
Inductive outcome (S : Type) : Type :=
| Returned (s : S)
| Raised (e : exn) (s : S).

Arguments Returned {S} s.
Arguments Raised {S} e s.

Module ConversationNodes.

Section Handlers.

Variable date_parser : DateParser.
Variable B : Type.
Variable calendar_service : CalendarService B.

(** *** The draft merge of [collect_appointment_details_with_ai] *)

Definition apply_extraction (ex : option Extraction)
    (r : AppointmentRequest) : AppointmentRequest :=
  match ex with
  | None => r
  | Some info =>
      let r := match ex_start_time info with
               | Some s => with_start_date (Some s) r
               | None => r
               end in
      let r := match ex_end_time info with
               | Some e => with_end_date (Some e) r
               | None => r
               end in
      let r := if Py.truthy_int (ex_duration info)
               then with_duration_minutes (ex_duration info) r else r in
      let r := if Py.truthy_str (ex_title info)
               then with_title (ex_title info) r else r in
      if Py.truthy_str (ex_description info)
      then with_description (ex_description info) r else r
  end.

Definition fallback_times (user_message : string)
    (r : AppointmentRequest) : AppointmentRequest :=
  match start_date r with
  | Some _ => r
  | None =>
      match parse_time_range date_parser user_message with
      | Some (s, e) =>
          with_duration_minutes (Some (minutes_between s e))
            (with_end_date (Some e) (with_start_date (Some s) r))
      | None =>
          match parse_date_time date_parser user_message with
          | Some parsed_date => with_start_date (Some parsed_date) r
          | None => r
          end
      end
  end.

Definition fallback_duration (user_message : string)
    (r : AppointmentRequest) : AppointmentRequest :=
  if Py.truthy_int (ar_duration_minutes r) then r
  else
    let duration := parse_duration date_parser user_message in
    if Py.truthy_int duration then with_duration_minutes duration r
    else
      match end_date r with
      | None => with_duration_minutes (Some 60) r
      | Some _ => r
      end.

Definition meeting_keywords : list (string * string) :=
  [ ("meeting", "Meeting"); ("call", "Call");
    ("appointment", "Appointment"); ("interview", "Interview");
    ("consultation", "Consultation") ].

Definition default_title (user_message : string)
    (r : AppointmentRequest) : AppointmentRequest :=
  if Py.truthy_str (title r) then r
  else
    match
      find (fun kw => Py.contains (fst kw) (Py.lower user_message))
        meeting_keywords
    with
    | Some kw => with_title (Some (snd kw)) r
    | None => with_title (Some "Meeting") r
    end.

Definition merge_fields (ex : option Extraction) (user_message : string)
    (r : AppointmentRequest) : AppointmentRequest :=
  default_title user_message
    (fallback_duration user_message
       (fallback_times user_message (apply_extraction ex r))).

(** "Calculate end time if not provided", once start and duration
    are both set. *)
Definition derive_end (r : AppointmentRequest) : AppointmentRequest :=
  match start_date r, ar_duration_minutes r, end_date r with
  | Some s, Some d, None =>
      with_end_date (Some (s + timedelta_minutes d)) r
  | _, _, _ => r
  end.

(** The draft a turn of detail collection leaves in the session. *)
Definition merge_draft (ex : option Extraction) (user_message : string)
    (current : option AppointmentRequest) : AppointmentRequest :=
  derive_end
    (merge_fields ex user_message
       (match current with Some r => r | None => fresh_request end)).

(** *** [suggest_alternative_slots] *)

(** ["\n".join(f"• **Option {i + 1}:** {...}" for i, slot in enumerate(slots))],
    from index [i]. *)
Fixpoint slots_text (i : nat) (slots : list TimeSlot) : string :=
  match slots with
  | [] => EmptyString
  | slot :: rest =>
      "• **Option " ++ Py.str_int (Z.of_nat i + 1) ++ ":** "
      ++ format_datetime date_parser (start_time slot)
      ++ match rest with
         | [] => EmptyString
         | _ :: _ => nl ++ slots_text (S i) rest
         end
  end.

(** The availability search of [suggest_alternative_slots]: a
    week from the draft's start (or from now), at the draft's
    duration (or 60 minutes). *)
Definition alternatives_search (env : Env) (backend : B)
    (appointment_request : AppointmentRequest)
    : result AvailabilityResponse :=
  let start_search :=
    match start_date appointment_request with
    | Some s => s
    | None => now env
    end in
  let end_search := start_search + timedelta_days 7 in
  svc_get_availability calendar_service backend start_search end_search
    (if Py.truthy_int (ar_duration_minutes appointment_request)
     then match ar_duration_minutes appointment_request with
          | Some d => d
          | None => 60
          end
     else 60).

Definition suggest_alternative_slots (env : Env) (backend : B)
    (state : AgentState) : AgentState :=
  match draft_of state with
  | None => state
  | Some appointment_request =>
      let on_error (e : exn) (state : AgentState) :=
        update_state COLLECTING_DETAILS
          (add_assistant_message (now env)
             ("I encountered an error finding alternative times: "
              ++ exn_str e
              ++ ". Could you suggest some times that might work for you?")
             state) in
      match alternatives_search env backend appointment_request with
      | Raise e => on_error e state
      | Ok available =>
          if Py.truthy_list (resp_available_slots available) then
            let state :=
              set_available_slots (firstn 5 (resp_available_slots available))
                state in
            let formatted_requested :=
              match start_date appointment_request with
              | Some s => format_datetime date_parser s
              | None => "your requested time"
              end in
            match title_lower (title appointment_request) with
            | Raise e => on_error e state
            | Ok lowered =>
                update_state SUGGESTING_SLOTS
                  (add_assistant_message (now env)
                     ("I'm sorry, but " ++ formatted_requested
                      ++ " is not available. Here are some alternative times for your "
                      ++ Py.str_opt_int (ar_duration_minutes appointment_request)
                      ++ "-minute " ++ lowered ++ ":" ++ nl ++ nl
                      ++ slots_text 0
                           (available_slots (conversation_state state))
                      ++ nl ++ nl
                      ++ "Which option works best for you? You can say "
                      ++ Py.dq ++ "Option 1" ++ Py.dq ++ ", "
                      ++ Py.dq ++ "Option 2" ++ Py.dq
                      ++ ", etc., or suggest a different time.")
                     state)
            end
          else
            update_state COLLECTING_DETAILS
              (add_assistant_message (now env)
                 ("I couldn't find any available slots for a "
                  ++ Py.str_opt_int (ar_duration_minutes appointment_request)
                  ++ "-minute meeting in the next week. Could you suggest some alternative times or dates that might work for you?")
                 state)
      end
  end.

(** *** [check_availability] *)

(** [request.end_date or (request.start_date + timedelta(minutes=...))]. *)
Definition interval_end (request : AppointmentRequest) (s : datetime)
    : result datetime :=
  match end_date request with
  | Some e => Ok e
  | None =>
      td <- timedelta_minutes_opt (ar_duration_minutes request) ;;
      Ok (s + td)
  end.

Definition details_text (formatted_date : string)
    (request : AppointmentRequest) : string :=
  "**Appointment Details:**" ++ nl
  ++ "• **Date & Time:** " ++ formatted_date ++ nl
  ++ "• **Duration:** " ++ Py.str_opt_int (ar_duration_minutes request)
  ++ " minutes" ++ nl
  ++ "• **Title:** " ++ Py.str_opt (title request).

(** The call [calendar_service.is_time_available(start, end)] on
    the draft's interval. *)
Definition single_slot_check (backend : B)
    (appointment_request : AppointmentRequest) (s : datetime)
    : result bool :=
  is_time_available <- getattr_is_time_available calendar_service ;;
  e <- interval_end appointment_request s ;;
  is_time_available backend s e.

(** The [try] block of [check_availability], for a draft with a
    start instant [s]. *)
Definition check_availability_try (env : Env) (backend : B)
    (state : AgentState) (appointment_request : AppointmentRequest)
    (s : datetime) : AgentState :=
  let on_error (e : exn) (state : AgentState) :=
    suggest_alternative_slots env backend
      (update_state SUGGESTING_SLOTS
         (add_assistant_message (now env)
            ("I encountered an error checking your calendar: " ++ exn_str e
             ++ ". Let me try to find alternative times for you.")
            state)) in
  match single_slot_check backend appointment_request s with
  | Raise e => on_error e state
  | Ok true =>
      let formatted_date := format_datetime date_parser s in
      match title_lower (title appointment_request) with
      | Raise e => on_error e state
      | Ok lowered =>
          update_state CONFIRMING_BOOKING
            (add_assistant_message (now env)
               ("Perfect! I found that " ++ formatted_date
                ++ " is available for your " ++ lowered ++ "." ++ nl ++ nl
                ++ details_text formatted_date appointment_request
                ++ nl ++ nl
                ++ "Would you like me to book this appointment? (Yes/No)")
               state)
      end
  | Ok false =>
      suggest_alternative_slots env backend
        (update_state SUGGESTING_SLOTS state)
  end.

(** *** [collect_appointment_details_with_ai]

    The handler ends by calling [check_availability], which is
    passed in as [check]. *)
Definition collect_with (check : AgentState -> AgentState) (env : Env)
    (state : AgentState) : AgentState :=
  match get_last_user_message state with
  | None | Some EmptyString => state
  | Some user_message =>
      let appointment_request :=
        merge_fields (extraction env) user_message
          (match draft_of state with
           | Some r => r
           | None => fresh_request
           end) in
      let state := set_appointment_request appointment_request state in
      match
        start_date appointment_request,
        ar_duration_minutes appointment_request
      with
      | Some s, Some d =>
          let state :=
            match end_date appointment_request with
            | Some _ => state
            | None =>
                set_appointment_request
                  (with_end_date (Some (s + timedelta_minutes d))
                     appointment_request) state
            end in
          check (update_state CHECKING_AVAILABILITY state)
      | Some s, None =>
          update_state COLLECTING_DETAILS
            (add_assistant_message (now env)
               ("Great! I see you want to meet on "
                ++ format_datetime date_parser s
                ++ ". How long should the meeting be? (e.g., '30 minutes', '1 hour')")
               state)
      | None, _ =>
          update_state COLLECTING_DETAILS
            (add_assistant_message (now env)
               ("I'd be happy to help you schedule an appointment! I just need to know when you'd like to meet. You can say things like:"
                ++ nl ++ nl
                ++ "• " ++ Py.dq ++ "Tomorrow at 3 PM for 1 hour" ++ Py.dq ++ nl
                ++ "• " ++ Py.dq ++ "Next Monday between 2-4 PM" ++ Py.dq ++ " " ++ nl
                ++ "• " ++ Py.dq ++ "A 30-minute call this afternoon" ++ Py.dq
                ++ nl ++ nl
                ++ "When would you like to schedule your appointment?")
               state)
      end
  end.

(** [check_availability] and [collect_appointment_details_with_ai]
    call each other; [depth] bounds the nesting of these calls. *)
Fixpoint check_availability_depth (depth : nat) (env : Env) (backend : B)
    (state : AgentState) : AgentState :=
  match depth with
  | O => state
  | S depth' =>
      match draft_of state with
      | Some appointment_request =>
          match start_date appointment_request with
          | Some s =>
              check_availability_try env backend state appointment_request s
          | None =>
              collect_with (check_availability_depth depth' env backend)
                env state
          end
      | None =>
          collect_with (check_availability_depth depth' env backend)
            env state
      end
  end.

(** A call from outside nests at most twice: [check_availability],
    then detail collection, then [check_availability] on a draft that
    has a start instant. *)
Definition check_availability : Env -> B -> AgentState -> AgentState :=
  check_availability_depth 2.

Definition collect_appointment_details_with_ai (env : Env) (backend : B)
    (state : AgentState) : AgentState :=
  collect_with (check_availability env backend) env state.

(** *** [handle_slot_selection] *)

(** The test of the selection loop for index [i]. *)
Definition option_matches (message_lower : string) (i : nat) : bool :=
  Py.contains ("option " ++ Py.str_int (Z.of_nat i + 1)) message_lower
  || Py.contains (Py.str_int (Z.of_nat i + 1)) message_lower.

(** [for i in range(len(available_slots))], from [i] with [n]
    indices left, up to the [break]. *)
Fixpoint selection_loop (message_lower : string) (n i : nat) : option nat :=
  match n with
  | O => None
  | S n' =>
      if option_matches message_lower i then Some i
      else selection_loop message_lower n' (S i)
  end.

(** [available_slots[i]]. *)
Definition getitem (slots : list TimeSlot) (i : nat) : result TimeSlot :=
  match nth_error slots i with
  | Some slot => Ok slot
  | None => Raise (mk_exn IndexError "list index out of range")
  end.

Definition handle_slot_selection (env : Env) (backend : B)
    (state : AgentState) : outcome AgentState :=
  match get_last_user_message state with
  | None | Some EmptyString => Returned state
  | Some user_message =>
      let available_slots := available_slots (conversation_state state) in
      if negb (Py.truthy_list available_slots) then
        Returned (collect_appointment_details_with_ai env backend state)
      else
        let message_lower := Py.lower user_message in
        match
          selection_loop message_lower (List.length available_slots) 0
        with
        | None =>
            Returned (collect_appointment_details_with_ai env backend state)
        | Some i =>
            match getitem available_slots i with
            | Raise e => Raised e state
            | Ok selected_slot =>
                match draft_of state with
                | None =>
                    Raised
                      (mk_exn AttributeError
                         "'NoneType' object has no attribute 'start_date'")
                      state
                | Some appointment_request =>
                    let appointment_request :=
                      with_end_date (Some (end_time selected_slot))
                        (with_start_date (Some (start_time selected_slot))
                           appointment_request) in
                    let state :=
                      set_appointment_request appointment_request state in
                    let formatted_date :=
                      format_datetime date_parser (start_time selected_slot) in
                    match title_lower (title appointment_request) with
                    | Raise e => Raised e state
                    | Ok lowered =>
                        Returned
                          (update_state CONFIRMING_BOOKING
                             (add_assistant_message (now env)
                                ("Great choice! I'll book your " ++ lowered
                                 ++ " for:" ++ nl ++ nl
                                 ++ details_text formatted_date
                                      appointment_request
                                 ++ nl ++ nl
                                 ++ "Would you like me to confirm this booking? (Yes/No)")
                                state))
                    end
                end
            end
        end
  end.

(** *** [book_appointment] and [confirm_booking] *)

Definition booked_text (request : AppointmentRequest)
    (formatted_date : string) (booking_result : BookingResponse) : string :=
  "✅ **Appointment Booked Successfully!**" ++ nl ++ nl
  ++ "**Your appointment details:**" ++ nl
  ++ "• **Title:** " ++ Py.str_opt (title request) ++ nl
  ++ "• **Date & Time:** " ++ formatted_date ++ nl
  ++ "• **Duration:** " ++ Py.str_opt_int (ar_duration_minutes request)
  ++ " minutes" ++ nl
  ++ "• **Event ID:** " ++ Py.str_opt (event_id booking_result) ++ nl ++ nl
  ++ "Your appointment has been added to your Google Calendar. Is there anything else I can help you with?".

(** The call [calendar_service.book_appointment(...)] for the
    draft. *)
Definition commit_booking (env : Env) (backend : B)
    (appointment_request : AppointmentRequest) (s : datetime)
    : result (BookingResponse * B) :=
  e <- interval_end appointment_request s ;;
  svc_book_appointment calendar_service backend (now_ts env)
    (title appointment_request) s e
    (description appointment_request)
    (Some (attendees appointment_request)).

Definition book_appointment (env : Env) (backend : B) (state : AgentState)
    : AgentState * B :=
  match draft_of state with
  | None => (collect_appointment_details_with_ai env backend state, backend)
  | Some appointment_request =>
      match start_date appointment_request with
      | None =>
          (collect_appointment_details_with_ai env backend state, backend)
      | Some s =>
          match commit_booking env backend appointment_request s with
          | Ok (booking_result, backend') =>
              if success booking_result then
                let formatted_date := format_datetime date_parser s in
                (update_state BOOKING_COMPLETE
                   (add_assistant_message (now env)
                      (booked_text appointment_request formatted_date
                         booking_result)
                      state),
                 backend')
              else
                (update_state COLLECTING_DETAILS
                   (add_assistant_message (now env)
                      ("I'm sorry, there was an error booking your appointment: "
                       ++ message booking_result
                       ++ ". Would you like to try a different time?")
                      state),
                 backend')
          | Raise e =>
              (update_state COLLECTING_DETAILS
                 (add_assistant_message (now env)
                    ("I encountered an error while booking your appointment: "
                     ++ exn_str e
                     ++ ". Would you like to try again or choose a different time?")
                    state),
               backend)
          end
      end
  end.

Definition confirm_booking (env : Env) (backend : B) (state : AgentState)
    : AgentState * B :=
  match get_last_user_message state with
  | None | Some EmptyString => (state, backend)
  | Some user_message =>
      let message_lower := Py.lower user_message in
      if Py.any_in ["yes"; "confirm"; "book"; "schedule"; "ok"; "sure"]
           message_lower
      then book_appointment env backend state
      else if Py.any_in ["no"; "cancel"; "nevermind"; "not now"] message_lower
      then
        (update_state INITIAL
           (add_assistant_message (now env)
              "No problem! Your appointment has not been booked. Is there anything else I can help you with? You can always start over by telling me when you'd like to schedule something."
              state),
         backend)
      else
        (update_state CONFIRMING_BOOKING
           (add_assistant_message (now env)
              "I didn't understand. Would you like me to book this appointment? Please say 'Yes' to confirm or 'No' to cancel."
              state),
         backend)
  end.

(** *** Intent classification and the canned replies *)

Definition _classify_with_enhanced_rules (user_message : string)
    : IntentResult :=
  let message_lower := Py.lower user_message in
  let time_patterns :=
    [ "tomorrow"; "today"; "next week"; "friday"; "monday"; "tuesday";
      "wednesday"; "thursday"; "saturday"; "sunday"; "pm"; "am"; "hour";
      "minute"; "morning"; "afternoon"; "evening"; "between"; "-" ] in
  let booking_words :=
    [ "book"; "schedule"; "appointment"; "meeting"; "call"; "reserve";
      "set up"; "meet" ] in
  let greeting_words :=
    [ "hello"; "hi"; "hey"; "good morning"; "good afternoon"; "good evening" ] in
  if Py.any_in greeting_words message_lower then
    mk_IntentResult GREETING 80 []
  else
    let help_words :=
      [ "help"; "what can you do"; "how does this work"; "what do you do" ] in
    if Py.any_in help_words message_lower then mk_IntentResult HELP 80 []
    else if Py.any_in time_patterns message_lower then
      mk_IntentResult BOOK_APPOINTMENT 80 [("has_time", true)]
    else if Py.any_in booking_words message_lower then
      mk_IntentResult BOOK_APPOINTMENT 70 []
    else
      let availability_words :=
        [ "available"; "free"; "open"; "availability"; "free time";
          "open slots" ] in
      if Py.any_in availability_words message_lower then
        mk_IntentResult CHECK_AVAILABILITY 70 []
      else mk_IntentResult UNKNOWN 30 [].

(** [classify_intent]: the intent result it stores, if it stores one. *)
Definition classify_intent (collab : Collaborators) (state : AgentState)
    : option IntentResult :=
  match get_last_user_message state with
  | None | Some EmptyString => None
  | Some user_message =>
      match ai_intent collab with
      | Some intent_result => Some intent_result
      | None => Some (_classify_with_enhanced_rules user_message)
      end
  end.

Definition greeting_text : string :=
  "Hello! I'm your AI appointment booking assistant. I can help you:" ++ nl ++ nl
  ++ "• Schedule appointments and meetings" ++ nl
  ++ "• Check your calendar availability  " ++ nl
  ++ "• Find the best time slots for you" ++ nl ++ nl
  ++ "What would you like to do today? You can say things like:" ++ nl
  ++ Py.dq ++ "I want to schedule a call for tomorrow afternoon" ++ Py.dq ++ nl
  ++ Py.dq ++ "Do you have any free time this Friday?" ++ Py.dq ++ nl
  ++ Py.dq ++ "Book a meeting between 3-5 PM next week" ++ Py.dq ++ " ".

Definition help_text : string :=
  "I'm here to help you book appointments! Here's what I can do:" ++ nl ++ nl
  ++ "📅 **Book Appointments**: I can schedule meetings, calls, or any appointments" ++ nl
  ++ "🕒 **Check Availability**: I can show you available time slots" ++ nl
  ++ "📝 **Smart Scheduling**: I understand natural language like "
  ++ Py.dq ++ "tomorrow at 3 PM" ++ Py.dq ++ nl ++ nl
  ++ "**Examples of what you can say:**" ++ nl
  ++ "• " ++ Py.dq ++ "Schedule a team meeting for next Monday at 2 PM" ++ Py.dq ++ nl
  ++ "• " ++ Py.dq ++ "I need a 30-minute call tomorrow afternoon" ++ Py.dq ++ nl
  ++ "• " ++ Py.dq ++ "What's available this Friday?" ++ Py.dq ++ nl
  ++ "• " ++ Py.dq ++ "Book a meeting between 10 AM and 12 PM next week" ++ Py.dq
  ++ nl ++ nl
  ++ "**Business Hours:** Monday-Friday, 9 AM - 6 PM" ++ nl ++ nl
  ++ "What would you like to do?".

Definition unknown_text : string :=
  "I'm not sure what you'd like to do. I can help you with:" ++ nl ++ nl
  ++ "• **Booking appointments and meetings**" ++ nl
  ++ "• **Checking your calendar availability** " ++ nl
  ++ "• **Finding the best time slots**" ++ nl ++ nl
  ++ "Could you please clarify what you need? For example:" ++ nl
  ++ "• " ++ Py.dq ++ "I want to schedule a meeting" ++ Py.dq ++ nl
  ++ "• " ++ Py.dq ++ "What times are available tomorrow?" ++ Py.dq ++ nl
  ++ "• " ++ Py.dq ++ "Book a call for next week" ++ Py.dq ++ " ".

Definition handle_greeting (env : Env) (state : AgentState) : AgentState :=
  update_state INITIAL (add_assistant_message (now env) greeting_text state).

Definition handle_help (env : Env) (state : AgentState) : AgentState :=
  update_state INITIAL (add_assistant_message (now env) help_text state).

Definition handle_unknown_intent (env : Env) (state : AgentState)
    : AgentState :=
  update_state INITIAL (add_assistant_message (now env) unknown_text state).

Definition handle_contextual_response (env : Env) (collab : Collaborators)
    (state : AgentState) : AgentState :=
  match ai_reply collab with
  | Some ai_response =>
      update_state INITIAL (add_assistant_message (now env) ai_response state)
  | None => handle_unknown_intent env state
  end.

End Handlers.

End ConversationNodes.

(** ** app/agent/conversation_graph.py *)

Module ConversationGraph.

(** A session object: the agent state, with the [intent_result]
    attribute that [classify_intent] sets on it. *)
Record Session : Type := mk_Session {
  agent : AgentState;
  intent_result : option IntentResult
}.

(** [self.sessions], a dictionary from session id to session. *)
Definition Sessions : Type := list (string * Session).

Fixpoint sessions_get (k : string) (d : Sessions) : option Session :=
  match d with
  | [] => None
  | (k', v) :: rest => if String.eqb k' k then Some v else sessions_get k rest
  end.

Fixpoint sessions_set (k : string) (v : Session) (d : Sessions) : Sessions :=
  match d with
  | [] => [(k, v)]
  | (k', v') :: rest =>
      if String.eqb k' k then (k, v) :: rest
      else (k', v') :: sessions_set k v rest
  end.

Definition sessions_del (k : string) (d : Sessions) : Sessions :=
  filter (fun kv => negb (String.eqb (fst kv) k)) d.

(** The dictionary [process_message] returns. *)
Record Reply : Type := mk_Reply {
  reply_message : string;
  reply_state : ConversationState;
  reply_available_slots : list TimeSlot;
  requires_confirmation : bool;
  reply_error : option string
}.

Section Graph.

Variable date_parser : DateParser.
Variable B : Type.
Variable calendar_service : CalendarService B.

Definition _route_initial_intent (env : Env) (collab : Collaborators)
    (backend : B) (intent_result : option IntentResult) (state : AgentState)
    : AgentState :=
  match intent_result with
  | None => ConversationNodes.handle_contextual_response env collab state
  | Some r =>
      match intent r with
      | GREETING => ConversationNodes.handle_greeting env state
      | HELP => ConversationNodes.handle_help env state
      | BOOK_APPOINTMENT | CHECK_AVAILABILITY =>
          ConversationNodes.collect_appointment_details_with_ai date_parser B
            calendar_service env backend state
      | UNKNOWN =>
          ConversationNodes.handle_contextual_response env collab state
      end
  end.

(** The routing of [process_message] on a session to which the user
    message has been added: the session and backend it leaves, with the
    exception if one escapes. *)
Definition route (env : Env) (collab : Collaborators) (backend : B)
    (session : Session) : outcome (Session * B) :=
  let state := agent session in
  match state_of state with
  | INITIAL =>
      let intent_result :=
        match ConversationNodes.classify_intent collab state with
        | Some r => Some r
        | None => intent_result session
        end in
      Returned
        (mk_Session
           (_route_initial_intent env collab backend intent_result state)
           intent_result,
         backend)
  | COLLECTING_DETAILS =>
      Returned
        (mk_Session
           (ConversationNodes.collect_appointment_details_with_ai date_parser B
              calendar_service env backend state)
           (intent_result session),
         backend)
  | CHECKING_AVAILABILITY =>
      Returned
        (mk_Session
           (ConversationNodes.check_availability date_parser B calendar_service
              env backend state)
           (intent_result session),
         backend)
  | SUGGESTING_SLOTS =>
      match
        ConversationNodes.handle_slot_selection date_parser B calendar_service
          env backend state
      with
      | Returned state' =>
          Returned (mk_Session state' (intent_result session), backend)
      | Raised e state' =>
          Raised e (mk_Session state' (intent_result session), backend)
      end
  | CONFIRMING_BOOKING =>
      let (state', backend') :=
        ConversationNodes.confirm_booking date_parser B calendar_service env
          backend state in
      Returned (mk_Session state' (intent_result session), backend')
  | BOOKING_COMPLETE =>
      Returned
        (mk_Session
           (ConversationNodes.handle_contextual_response env collab state)
           (intent_result session),
         backend)
  end.

Definition process_message (env : Env) (collab : Collaborators) (backend : B)
    (sessions : Sessions) (message : string) (session_id : string)
    : Reply * Sessions * B :=
  let sessions :=
    match sessions_get session_id sessions with
    | Some _ => sessions
    | None => sessions_set session_id (mk_Session new_AgentState None) sessions
    end in
  let session :=
    match sessions_get session_id sessions with
    | Some s => s
    | None => mk_Session new_AgentState None
    end in
  let session :=
    mk_Session (add_user_message (now env) message (agent session))
      (intent_result session) in
  match route env collab backend session with
  | Returned (session', backend') =>
      let state := agent session' in
      let last_assistant_message :=
        match get_last_assistant_message state with
        | None | Some EmptyString =>
            "I'm here to help you book appointments. What would you like to do?"
        | Some text => text
        end in
      (mk_Reply last_assistant_message (conversation_state state)
         (available_slots (conversation_state state))
         (match state_of state with
          | CONFIRMING_BOOKING => true
          | _ => false
          end)
         (error_message (conversation_state state)),
       sessions_set session_id session' sessions, backend')
  | Raised e (session', backend') =>
      (mk_Reply
         ("I encountered an error: " ++ exn_str e
          ++ ". Let me help you start over.")
         (conversation_state new_AgentState) [] false (Some (exn_str e)),
       sessions_set session_id session' sessions, backend')
  end.

Definition get_conversation_history (sessions : Sessions)
    (session_id : string) : list Message :=
  match sessions_get session_id sessions with
  | Some s => messages (agent s)
  | None => []
  end.

Definition reset_conversation (sessions : Sessions) (session_id : string)
    : bool * Sessions :=
  (true, sessions_del session_id sessions).

End Graph.

End ConversationGraph.

(** ** Concrete calendars and sessions used in the examples *)

Module Examples.

(** 2025-07-06, a Sunday, and the Monday after it. *)
Definition sunday : date := 739437.
Definition monday : date := 739438.

Definition at_ (d : date) (h m : Z) : datetime := combine d (time_of h m).

(** The in-memory backend as constructed on that Sunday: Team Meeting
    on Monday 10:00-11:00, Client Call on Monday 14:00-15:00, and two
    events later in the week. *)
Definition seeded : MockCalendar.t := MockCalendar._generate_mock_events sunday.

(** A parser stub: it finds nothing except the range of ["3-5 pm"],
    which [parse_time_range] reads as 15:00 to 17:00 of the parser's
    day; times are shown as their number. *)
Definition sample_parser : DateParser :=
  {| parse_time_range := fun text =>
       if String.eqb text "3-5 pm"
       then Some (at_ sunday 15 0, at_ sunday 17 0) else None;
     parse_date_time := fun _ => None;
     parse_duration := fun _ => None;
     format_datetime := fun dt => Py.str_int dt |}.

(** Sunday noon; the POSIX time is that of 2025-07-06 12:00 UTC. *)
Definition noon_env (ex : option Extraction) : Env :=
  mk_Env (at_ sunday 12 0) 1751803200 ex.

Definition session (s : ConversationStateEnum)
    (draft : option AppointmentRequest) (offered : list TimeSlot)
    (last_user_message : string) : AgentState :=
  mk_AgentState (mk_ConversationState s draft offered None)
    [mk_Message user last_user_message (at_ sunday 12 0)].

(** A Google calendar holding one event, Monday 10:00-11:00, whose
    [dateTime] strings end in [Z] (so they parse to aware datetimes),
    and the same event with strings that carry no offset. *)
Definition utc_event : GoogleCalendar.api_event :=
  GoogleCalendar.mk_api_event
    (GoogleCalendar.DateTime
       (GoogleCalendar.mk_pydatetime (at_ monday 10 0) (Some 0)))
    (GoogleCalendar.DateTime
       (GoogleCalendar.mk_pydatetime (at_ monday 11 0) (Some 0))).

Definition naive_event : GoogleCalendar.api_event :=
  GoogleCalendar.mk_api_event
    (GoogleCalendar.DateTime
       (GoogleCalendar.mk_pydatetime (at_ monday 10 0) None))
    (GoogleCalendar.DateTime
       (GoogleCalendar.mk_pydatetime (at_ monday 11 0) None)).

Definition google_with (events : list GoogleCalendar.api_event)
    : GoogleCalendar.t :=
  GoogleCalendar.mk_t
    (Some (GoogleCalendar.mk_Service
             (fun _ _ => Ok events)
             (fun _ _ _ _ _ => Ok "google_event_1"))).

(** A Google calendar without credentials ([self.service] is [None]). *)
Definition google_offline : GoogleCalendar.t := GoogleCalendar.mk_t None.

Definition hour_slot (d : date) (h : Z) : TimeSlot :=
  mk_TimeSlot (at_ d h 0) (at_ d (h + 1) 0) 60.

(** The candidate of -60 minutes that starts on Monday at 19:00. *)
Definition backwards_slot : TimeSlot :=
  mk_TimeSlot (at_ monday 19 0) (at_ monday 18 0) (-60).

(** A draft titled "Meeting" from [s] to [e], of [d] minutes. *)
Definition draft (s e : datetime) (d : Z) : AppointmentRequest :=
  mk_AppointmentRequest (Some "Meeting") None (Some s) (Some e) (Some d) [].

(** Monday 15:00-16:00, which no seeded event overlaps. *)
Definition free_hour : AppointmentRequest :=
  draft (at_ monday 15 0) (at_ monday 16 0) 60.

(** Monday 9:00-19:00: ten hours, more than a business day holds. *)
Definition ten_hours : AppointmentRequest :=
  draft (at_ monday 9 0) (at_ monday 19 0) 600.

Definition untitled (r : AppointmentRequest) : AppointmentRequest :=
  with_title None r.

(** Drafts that validation refuses on Sunday noon: five minutes long;
    500 minutes long (Thursday 9:00-17:20); a week in the past; more
    than 90 days ahead (a Monday, 99 days on). *)
Definition five_minutes : AppointmentRequest :=
  draft (at_ monday 15 0) (at_ monday 15 5) 5.






(** Extraction results: one that gives only an end instant (Sunday
    18:00), one that gives a start and an end two hours apart but no
    duration. *)
Definition end_only : Extraction :=
  mk_Extraction None (Some (at_ sunday 18 0)) None None None.

Definition start_and_end : Extraction :=
  mk_Extraction (Some (at_ monday 15 0)) (Some (at_ monday 17 0)) None None
    None.



(** Turns of the dialogue on the seeded in-memory backend, without a
    language model: a session ["s1"] that waits for the confirmation of
    [free_hour], to which the three slots of Monday morning that the
    seeded calendar leaves free have been offered. *)
Definition no_ai : Collaborators := mk_Collaborators None None.

Definition offered_monday : list TimeSlot :=
  [hour_slot monday 9; hour_slot monday 11; hour_slot monday 12].

Definition waiting (s : ConversationStateEnum) : ConversationGraph.Sessions :=
  [("s1",
    ConversationGraph.mk_Session
      (mk_AgentState
         (mk_ConversationState s (Some free_hour) offered_monday None) [])
      None)].

Definition turn_on_mock (sessions : ConversationGraph.Sessions)
    (message session_id : string)
    : ConversationGraph.Reply * ConversationGraph.Sessions * MockCalendar.t :=
  ConversationGraph.process_message sample_parser MockCalendar.t
    (mock_calendar sample_parser) (noon_env None) no_ai seeded sessions
    message session_id.

End Examples.

(** ** Notions used to state the properties *)

(** The [k]-th candidate slot of [d] minutes on a day whose business
    hours open at [open]: it starts [k] half hours after [open]. *)
Definition slot_at (open : datetime) (d : Z) (k : Z) : TimeSlot :=
  mk_TimeSlot (open + k * timedelta_minutes 30)
    (open + k * timedelta_minutes 30 + timedelta_minutes d) d.


(** Chronological order of slots. *)
Definition by_start (a b : TimeSlot) : Prop := start_time a < start_time b.

(** A store in which no key occurs twice and every event is filed under
    its own id. *)
Definition well_keyed (d : MockCalendar.t) : Prop :=
  NoDup (MockCalendar.keys d) /\
  forall k ev, In (k, ev) d -> ev_id ev = k.


(** A listed Google event that blocks the interval from [s] to [e]: a
    timed event whose two times parse to datetimes without offset and
    which overlaps the interval. *)
Definition blocking_event (s e : datetime) (ev : GoogleCalendar.api_event)
    : Prop :=
  GoogleCalendar.has_T (GoogleCalendar.ae_start ev) = true /\
  exists p q,
    GoogleCalendar.fromisoformat (GoogleCalendar.ae_start ev) = Ok p /\
    GoogleCalendar.fromisoformat (GoogleCalendar.ae_end ev) = Ok q /\
    GoogleCalendar.utcoffset p = None /\
    GoogleCalendar.utcoffset q = None /\
    s < GoogleCalendar.wall q /\ GoogleCalendar.wall p < e.

(** The history [new] continues [old] with assistant messages only. *)
Definition replies_appended (old new : list Message) : Prop :=
  exists tail,
    new = (old ++ tail)%list /\ Forall (fun m => role m = assistant) tail.

(** The words [confirm_booking] takes as consent. *)
Definition affirmative (user_message : string) : bool :=
  Py.any_in ["yes"; "confirm"; "book"; "schedule"; "ok"; "sure"]
    (Py.lower user_message).


(** The session a turn works on: the stored one, or a new one when the
    session id is not known yet. *)
Definition current_session (sessions : ConversationGraph.Sessions)
    (session_id : string) : ConversationGraph.Session :=
  match ConversationGraph.sessions_get session_id sessions with
  | Some session => session
  | None => ConversationGraph.mk_Session new_AgentState None
  end.

(** * Properties *)

(** ** Strings *)

Lemma prefix_app (n b : string) : String.prefix n (n ++ b) = true.
Proof.
  induction n as [|c n IH]; simpl.
  - destruct b; reflexivity.
  - destruct (ascii_dec c c) as [_|ne]; [exact IH | now elim ne].
Qed.

Lemma contains_prefix (n h : string) :
  String.prefix n h = true -> Py.contains n h = true.
Proof.
  intros H. destruct h; cbn [Py.contains]; rewrite H; reflexivity.
Qed.

(** [n in a + n + b]. *)
Lemma contains_app (n a b : string) : Py.contains n (a ++ n ++ b) = true.
Proof.
  induction a as [|c a IH].
  - cbn [append]. apply contains_prefix, prefix_app.
  - cbn [append Py.contains].
    destruct (String.prefix n (String c (a ++ n ++ b))); [reflexivity | exact IH].
Qed.

Lemma contains_skip (n a b : string) :
  Py.contains n b = true -> Py.contains n (a ++ b) = true.
Proof.
  intros H. induction a as [|c a IH]; [exact H|].
  cbn [append Py.contains].
  destruct (String.prefix n (String c (a ++ b))); [reflexivity | exact IH].
Qed.

(** Finds a piece of a concatenation. *)
Ltac find_piece :=
  first [ apply contains_prefix, prefix_app
        | apply contains_skip; find_piece ].

Lemma last_with_role_snoc (r : Role) (msgs : list Message) (text : string)
    (ts : datetime) :
  last_with_role r (msgs ++ [mk_Message r text ts]) = Some text.
Proof.
  unfold last_with_role. rewrite rev_app_distr. simpl.
  destruct r; reflexivity.
Qed.

(** ** Time arithmetic *)

Lemma usec_per_minute_pos : 0 < usec_per_minute.
Proof. reflexivity. Qed.

Lemma usec_per_day_pos : 0 < usec_per_day.
Proof. reflexivity. Qed.

Lemma date_of_combine (d : date) (t : timedelta) :
  0 <= t < usec_per_day -> date_of (combine d t) = d.
Proof.
  intros Ht. unfold date_of, combine.
  rewrite Z.add_comm, Z.div_add by (pose proof usec_per_day_pos; lia).
  rewrite Z.div_small by exact Ht. reflexivity.
Qed.

Lemma time_of_day_combine (d : date) (t : timedelta) :
  0 <= t < usec_per_day -> time_of_day (combine d t) = t.
Proof.
  intros Ht. unfold time_of_day, combine.
  rewrite Z.add_comm, Z.mod_add by (pose proof usec_per_day_pos; lia).
  apply Z.mod_small. exact Ht.
Qed.

Lemma minutes_between_add (s d : Z) :
  minutes_between s (s + timedelta_minutes d) = d.
Proof.
  unfold minutes_between, timedelta_minutes.
  replace (s + d * usec_per_minute - s) with (d * usec_per_minute) by lia.
  apply Z.quot_mul. discriminate.
Qed.

(** ** The availability engine of the in-memory backend *)

Module MockFacts.

Import MockCalendar.

Lemma slot_at_shift (open : datetime) (d : Z) (k : nat) :
  slot_at (open + timedelta_minutes 30) d (Z.of_nat k)
  = slot_at open d (Z.of_nat (S k)).
Proof.
  unfold slot_at. rewrite Nat2Z.inj_succ. f_equal; lia.
Qed.

(** While the guard holds for the first [fuel] candidates, the loop
    yields exactly these, in order. *)
Lemma day_slots_loop_eq (fuel : nat) :
  forall (cur e : datetime) (d : Z),
    (forall k, 0 <= k < Z.of_nat fuel ->
               cur + k * timedelta_minutes 30 + timedelta_minutes d <= e) ->
    day_slots_loop fuel cur e d
    = map (fun k => slot_at cur d (Z.of_nat k)) (seq 0 fuel).
Proof.
  induction fuel as [|fuel IH]; intros cur e d Hg; [reflexivity|].
  cbn [day_slots_loop seq map].
  assert (H0 : cur + timedelta_minutes d <= e).
  { specialize (Hg 0). lia. }
  apply Z.leb_le in H0. rewrite H0. f_equal.
  - unfold slot_at. f_equal; simpl; lia.
  - rewrite IH.
    + rewrite <- seq_shift, map_map. apply map_ext.
      intros k. apply slot_at_shift.
    + intros k Hk. specialize (Hg (k + 1)). lia.
Qed.

(** Once the guard fails the loop is over, whatever fuel is left. *)
Lemma day_slots_loop_stop (fuel : nat) (cur e : datetime) (d : Z) :
  e < cur + timedelta_minutes d -> day_slots_loop fuel cur e d = [].
Proof.
  intros H. destruct fuel; [reflexivity|]. simpl.
  destruct (Z.leb_spec (cur + timedelta_minutes d) e); [lia | reflexivity].
Qed.

Lemma day_slots_loop_app (n m : nat) :
  forall (cur e : datetime) (d : Z),
    (forall k, 0 <= k < Z.of_nat n ->
               cur + k * timedelta_minutes 30 + timedelta_minutes d <= e) ->
    day_slots_loop (n + m) cur e d
    = (day_slots_loop n cur e d
       ++ day_slots_loop m (cur + Z.of_nat n * timedelta_minutes 30) e d)%list.
Proof.
  induction n as [|n IH]; intros cur e d Hg.
  - simpl. f_equal. lia.
  - cbn [Nat.add day_slots_loop].
    assert (H0 : cur + timedelta_minutes d <= e).
    { specialize (Hg 0). lia. }
    apply Z.leb_le in H0. rewrite H0. cbn [app]. f_equal.
    rewrite IH.
    + f_equal. f_equal. rewrite Nat2Z.inj_succ. lia.
    + intros k Hk. specialize (Hg (k + 1)). lia.
Qed.

Lemma half_hour_pos : 0 < timedelta_minutes 30.
Proof. reflexivity. Qed.

(** [day_slots_count] is the number of candidates that fit. *)
Lemma day_slots_count_fits (day : date) (d k : Z) :
  0 <= k < Z.of_nat (day_slots_count d) ->
  combine day business_hours_start + k * timedelta_minutes 30
  + timedelta_minutes d <= combine day business_hours_end.
Proof.
  unfold day_slots_count, combine. intros [Hk0 Hk].
  set (a := business_hours_end - business_hours_start - timedelta_minutes d) in *.
  pose proof half_hour_pos as Hp.
  assert (Hq : k <= a / timedelta_minutes 30) by lia.
  pose proof (Z.mul_div_le a _ Hp) as Hle.
  assert (timedelta_minutes 30 * k
          <= timedelta_minutes 30 * (a / timedelta_minutes 30)).
  { apply Z.mul_le_mono_nonneg_l; lia. }
  subst a. lia.
Qed.

Lemma day_slots_count_stops (day : date) (d : Z) :
  combine day business_hours_end
  < combine day business_hours_start
    + Z.of_nat (day_slots_count d) * timedelta_minutes 30
    + timedelta_minutes d.
Proof.
  unfold day_slots_count, combine.
  set (a := business_hours_end - business_hours_start - timedelta_minutes d).
  pose proof half_hour_pos as Hp.
  pose proof (Z.mul_succ_div_gt a _ Hp) as Hgt.
  assert (Hn : a / timedelta_minutes 30 + 1
               <= Z.of_nat (Z.to_nat (a / timedelta_minutes 30 + 1))) by lia.
  assert (timedelta_minutes 30 * (a / timedelta_minutes 30 + 1)
          <= timedelta_minutes 30
             * Z.of_nat (Z.to_nat (a / timedelta_minutes 30 + 1))).
  { apply Z.mul_le_mono_nonneg_l; lia. }
  subst a. lia.
Qed.

(** The candidates of a day: the slots of [d] minutes at open,
    open + 30 min, open + 60 min, ... *)
Lemma generate_day_slots_eq (day : date) (d : Z) :
  _generate_day_slots day d
  = map (fun k => slot_at (combine day business_hours_start) d (Z.of_nat k))
      (seq 0 (day_slots_count d)).
Proof.
  unfold _generate_day_slots. apply day_slots_loop_eq.
  intros k Hk. apply day_slots_count_fits. exact Hk.
Qed.

(** The fuel of [_generate_day_slots] is enough: the loop has met its
    guard when it runs out, so more fuel changes nothing. *)
Lemma generate_day_slots_fuel (day : date) (d : Z) (extra : nat) :
  day_slots_loop (day_slots_count d + extra)
    (combine day business_hours_start) (combine day business_hours_end) d
  = _generate_day_slots day d.
Proof.
  rewrite day_slots_loop_app.
  - rewrite (day_slots_loop_stop extra).
    + apply app_nil_r.
    + apply day_slots_count_stops.
  - intros k Hk. apply day_slots_count_fits. exact Hk.
Qed.

Lemma in_generate_day_slots (day : date) (d : Z) (slot : TimeSlot) :
  In slot (_generate_day_slots day d) <->
  exists k, 0 <= k /\
    combine day business_hours_start + k * timedelta_minutes 30
    + timedelta_minutes d <= combine day business_hours_end /\
    slot = slot_at (combine day business_hours_start) d k.
Proof.
  rewrite generate_day_slots_eq, in_map_iff. split.
  - intros (k & <- & Hk). apply in_seq in Hk. exists (Z.of_nat k).
    split; [lia|]. split; [|reflexivity].
    apply day_slots_count_fits. lia.
  - intros (k & Hk0 & Hfit & ->). exists (Z.to_nat k).
    rewrite Z2Nat.id by exact Hk0. split; [reflexivity|].
    apply in_seq. split; [lia|]. simpl.
    pose proof (day_slots_count_stops day d) as Hstop.
    pose proof half_hour_pos.
    assert (k < Z.of_nat (day_slots_count d)); [nia | lia].
Qed.

(** A slot passes the inner loop exactly when it overlaps no stored
    event, where overlapping is [slot.start < event.end and
    slot.end > event.start]. *)
Lemma slot_is_available_iff (slot : TimeSlot) (events : list CalendarEvent) :
  slot_is_available slot events = true <->
  forall ev, In ev events ->
    ~ (start_time slot < ev_end_time ev /\ end_time slot > ev_start_time ev).
Proof.
  induction events as [|ev events IH]; simpl.
  - split; [intros _ ev [] | reflexivity].
  - rewrite Z.gtb_ltb.
    destruct (Z.ltb_spec (start_time slot) (ev_end_time ev)) as [H1|H1];
      destruct (Z.ltb_spec (ev_start_time ev) (end_time slot)) as [H2|H2];
      simpl.
    + split; [discriminate|]. intros H. exfalso. apply (H ev); [now left | lia].
    + rewrite IH. split.
      * intros H ev' [<-|Hin]; [lia | now apply H].
      * intros H ev' Hin. apply H. now right.
    + rewrite IH. split.
      * intros H ev' [<-|Hin]; [lia | now apply H].
      * intros H ev' Hin. apply H. now right.
    + rewrite IH. split.
      * intros H ev' [<-|Hin]; [lia | now apply H].
      * intros H ev' Hin. apply H. now right.
Qed.

Lemma filter_conflicting_slots_iff (self : t) (slots : list TimeSlot)
    (slot : TimeSlot) :
  In slot (_filter_conflicting_slots self slots) <->
  In slot slots /\
  forall ev, In ev (values self) ->
    ~ (start_time slot < ev_end_time ev /\ end_time slot > ev_start_time ev).
Proof.
  unfold _filter_conflicting_slots.
  rewrite filter_In, slot_is_available_iff. reflexivity.
Qed.

(** A slot that only touches the stored events is kept. *)
Lemma abutting_slot_available (self : t) (slots : list TimeSlot)
    (slot : TimeSlot) :
  In slot slots ->
  (forall ev, In ev (values self) ->
     end_time slot <= ev_start_time ev \/ ev_end_time ev <= start_time slot) ->
  In slot (_filter_conflicting_slots self slots).
Proof.
  intros Hin Hev. apply filter_conflicting_slots_iff. split; [exact Hin|].
  intros ev Hev'. specialize (Hev ev Hev'). lia.
Qed.

(** A slot that overlaps a stored event is dropped. *)
Lemma overlapping_slot_dropped (self : t) (slots : list TimeSlot)
    (slot : TimeSlot) (ev : CalendarEvent) :
  In ev (values self) ->
  start_time slot < ev_end_time ev -> end_time slot > ev_start_time ev ->
  ~ In slot (_filter_conflicting_slots self slots).
Proof.
  intros Hev H1 H2 Hin. apply filter_conflicting_slots_iff in Hin.
  destruct Hin as [_ Hno]. apply (Hno ev Hev). split; assumption.
Qed.

(** The day loop collects the filtered candidates of the weekdays it
    visits. *)
Lemma availability_loop_in (self : t) (d : Z) (slot : TimeSlot) (fuel : nat) :
  forall cur e,
    In slot (availability_loop self fuel cur e d) ->
    exists day, cur <= day <= e /\ weekday day < 5 /\
      In slot (_filter_conflicting_slots self (_generate_day_slots day d)).
Proof.
  induction fuel as [|fuel IH]; intros cur e Hin; [destruct Hin|].
  cbn [availability_loop] in Hin.
  destruct (Z.leb_spec cur e) as [Hle|Hgt]; [|destruct Hin].
  rewrite Z.geb_leb in Hin.
  destruct (Z.leb_spec 5 (weekday cur)) as [Hwe|Hwd].
  - destruct (IH _ _ Hin) as (day & Hr & Hw & Hs).
    exists day. repeat split; try assumption; lia.
  - apply in_app_or in Hin. destruct Hin as [Hin|Hin].
    + exists cur. repeat split; try assumption; lia.
    + destruct (IH _ _ Hin) as (day & Hr & Hw & Hs).
      exists day. repeat split; try assumption; lia.
Qed.

(** With one unit of fuel per day of the range, no weekday of the
    range is missed: the loop ends on its guard, not on its fuel. *)
Lemma availability_loop_complete (self : t) (d : Z) (slot : TimeSlot)
    (fuel : nat) :
  forall cur e day,
    e - cur + 1 <= Z.of_nat fuel ->
    cur <= day <= e -> weekday day < 5 ->
    In slot (_filter_conflicting_slots self (_generate_day_slots day d)) ->
    In slot (availability_loop self fuel cur e d).
Proof.
  induction fuel as [|fuel IH]; intros cur e day Hf Hr Hw Hs; [simpl in Hf; lia|].
  cbn [availability_loop].
  destruct (Z.leb_spec cur e) as [Hle|Hgt]; [|lia].
  rewrite Z.geb_leb.
  assert (Hnext : cur = day \/ cur + 1 <= day <= e) by lia.
  destruct (Z.leb_spec 5 (weekday cur)) as [Hwe|Hwd].
  - destruct Hnext as [->|Hnext]; [lia|].
    apply (IH _ _ day); try assumption. lia.
  - apply in_or_app. destruct Hnext as [->|Hnext]; [now left | right].
    apply (IH _ _ day); try assumption. lia.
Qed.

(** What the availability search returns. *)
Lemma get_availability_iff (self : t) (s e : datetime) (d : Z)
    (slot : TimeSlot) :
  In slot (resp_available_slots (get_availability self s e d)) <->
  exists day, date_of s <= day <= date_of e /\ weekday day < 5 /\
    In slot (_generate_day_slots day d) /\
    forall ev, In ev (values self) ->
      ~ (start_time slot < ev_end_time ev /\ end_time slot > ev_start_time ev).
Proof.
  unfold get_availability. cbn [resp_available_slots]. split.
  - intros Hin. apply availability_loop_in in Hin.
    destruct Hin as (day & Hr & Hw & Hs).
    apply filter_conflicting_slots_iff in Hs. destruct Hs as [Hg Hno].
    exists day. repeat split; try assumption; lia.
  - intros (day & Hr & Hw & Hg & Hno).
    apply (availability_loop_complete _ _ _ _ _ _ day); try assumption.
    + lia.
    + apply filter_conflicting_slots_iff. split; assumption.
Qed.

(** *** Booking on the in-memory backend *)

Lemma dict_set_length (k : string) (v : CalendarEvent) (d : t) :
  List.length (dict_set k v d)
  = if dict_mem k d then List.length d else S (List.length d).
Proof.
  induction d as [|[k' v'] d IH]; [reflexivity|].
  unfold dict_mem in *. cbn [dict_set existsb fst].
  destruct (String.eqb k' k); cbn [orb List.length]; [reflexivity|].
  rewrite IH. destruct (existsb _ d); reflexivity.
Qed.

Lemma dict_set_keys_fresh (k : string) (v : CalendarEvent) (d : t) :
  dict_mem k d = false -> dict_set k v d = (d ++ [(k, v)])%list.
Proof.
  induction d as [|[k' v'] d IH]; [reflexivity|].
  unfold dict_mem in *. cbn [dict_set existsb fst app].
  destruct (String.eqb k' k); cbn [orb]; [discriminate|].
  intros H. rewrite (IH H). reflexivity.
Qed.

Section Booking.

Variable date_parser : DateParser.

Let book := book_appointment date_parser.



(** Whenever the response reports failure the store is unchanged. *)
Lemma book_failure_unchanged (self : t) (ts : Z) (title : option string)
    (s e : datetime) (descr : option string) (att : option (list string)) :
  success (fst (book self ts title s e descr att)) = false ->
  snd (book self ts title s e descr att) = self.
Proof.
  unfold book, book_appointment.
  destruct (s >=? e); [reflexivity|].
  destruct (negb _); [reflexivity|].
  destruct title; cbn; [discriminate | reflexivity].
Qed.

(** A successful response carries the generated id, and the event
    is stored under it: added when the id is new, written over the
    event that has it otherwise. *)
Lemma book_success_stored (self : t) (ts : Z) (title : option string)
    (s e : datetime) (descr : option string) (att : option (list string)) :
  success (fst (book self ts title s e descr att)) = true ->
  exists ev,
    let new_id :=
      "event_" ++ Py.str_int (Z.of_nat (List.length self)) ++ "_"
      ++ Py.str_int ts in
    snd (book self ts title s e descr att) = dict_set new_id ev self /\
    event_id (fst (book self ts title s e descr att)) = Some new_id /\
    ev_id ev = new_id /\ ev_start_time ev = s /\ ev_end_time ev = e /\
    List.length (snd (book self ts title s e descr att))
    = if dict_mem new_id self then List.length self
      else S (List.length self).
Proof.
  unfold book, book_appointment.
  destruct (s >=? e); [discriminate|].
  destruct (negb _); [discriminate|].
  destruct title as [ti|]; cbn; [|discriminate].
  intros _. eexists. repeat (split; [reflexivity|]). apply dict_set_length.
Qed.

End Booking.

End MockFacts.

(** ** Slots returned by the availability search *)

Lemma in_search_day (self : MockCalendar.t) (s e : datetime) (d : Z)
    (slot : TimeSlot) :
  0 < d ->
  In slot (resp_available_slots (MockCalendar.get_availability self s e d)) ->
  exists day k, 0 <= k /\ weekday day < 5 /\
    date_of s <= day <= date_of e /\
    slot = slot_at (combine day MockCalendar.business_hours_start) d k /\
    MockCalendar.business_hours_start + k * timedelta_minutes 30
    + timedelta_minutes d <= MockCalendar.business_hours_end /\
    In slot (MockCalendar._generate_day_slots day d).
Proof.
  intros Hd Hin. apply MockFacts.get_availability_iff in Hin.
  destruct Hin as (day & Hr & Hw & Hg & _).
  pose proof Hg as Hg'.
  apply MockFacts.in_generate_day_slots in Hg.
  destruct Hg as (k & Hk & Hfit & ->).
  exists day, k. repeat split; try assumption; try lia.
  unfold combine in Hfit. lia.
Qed.

(** C5 (amended): for a positive requested duration, the candidates of a
    business day are the slots of that duration starting at
    business-hours open and then every 30 minutes, the last one being
    the last that does not run past business-hours close; and every slot
    the availability search returns is one of the candidates of its day,
    has [duration_minutes] equal to its length in minutes, and starts on
    a weekday at a time from 9:00 (included) to 18:00 (excluded). *)
Theorem availability_slots_well_formed (self : MockCalendar.t)
    (s e : datetime) (d : Z) :
  0 < d ->
  (forall day,
     MockCalendar._generate_day_slots day d
     = map (fun k =>
              slot_at (combine day MockCalendar.business_hours_start)
                d (Z.of_nat k))
         (seq 0 (MockCalendar.day_slots_count d)) /\
     combine day MockCalendar.business_hours_end
     < combine day MockCalendar.business_hours_start
       + Z.of_nat (MockCalendar.day_slots_count d) * timedelta_minutes 30
       + timedelta_minutes d) /\
  (forall slot,
     In slot (resp_available_slots (MockCalendar.get_availability self s e d)) ->
     duration_minutes slot = d /\
     minutes_between (start_time slot) (end_time slot) = duration_minutes slot /\
     weekday (date_of (start_time slot)) < 5 /\
     MockCalendar.business_hours_start <= time_of_day (start_time slot)
       < MockCalendar.business_hours_end /\
     end_time slot
       <= combine (date_of (start_time slot)) MockCalendar.business_hours_end /\
     In slot
       (MockCalendar._generate_day_slots (date_of (start_time slot)) d)).
Proof.
  intros Hd. split.
  - intros day. split.
    + apply MockFacts.generate_day_slots_eq.
    + apply MockFacts.day_slots_count_stops.
  - intros slot Hin.
    destruct (in_search_day _ _ _ _ _ Hd Hin)
      as (day & k & Hk & Hw & _ & -> & Hfit & Hg).
    pose proof MockFacts.half_hour_pos as Hp.
    assert (Hk30 : 0 <= k * timedelta_minutes 30) by nia.
    assert (Hdpos : 0 < timedelta_minutes d).
    { unfold timedelta_minutes. pose proof usec_per_minute_pos. nia. }
    assert (Hopen : 0 <= MockCalendar.business_hours_start) by discriminate.
    assert (Hclose : MockCalendar.business_hours_end < usec_per_day)
      by reflexivity.
    unfold slot_at in *. cbn [start_time end_time duration_minutes] in *.
    replace (combine day MockCalendar.business_hours_start
             + k * timedelta_minutes 30)
      with (combine day (MockCalendar.business_hours_start
                         + k * timedelta_minutes 30))
      in * by (unfold combine; lia).
    rewrite date_of_combine, time_of_day_combine by lia.
    repeat split; try assumption; try lia.
    + apply minutes_between_add.
    + unfold combine. lia.
Qed.

Lemma availability_slots_well_formed_witness :
  0 < 60 /\
  In (Examples.hour_slot Examples.monday 9)
    (resp_available_slots
       (MockCalendar.get_availability Examples.seeded
          (Examples.at_ Examples.monday 10 0)
          (Examples.at_ Examples.monday 11 0) 60)) /\
  weekday (date_of (start_time (Examples.hour_slot Examples.monday 9))) < 5 /\
  MockCalendar.business_hours_start
    <= time_of_day (start_time (Examples.hour_slot Examples.monday 9))
    < MockCalendar.business_hours_end.
Proof.
  assert (H0 : 0 < 60) by reflexivity.
  assert (Hin : In (Examples.hour_slot Examples.monday 9)
                  (resp_available_slots
                     (MockCalendar.get_availability Examples.seeded
                        (Examples.at_ Examples.monday 10 0)
                        (Examples.at_ Examples.monday 11 0) 60))).
  { vm_compute. left. reflexivity. }
  split; [exact H0|]. split; [exact Hin|].
  destruct (availability_slots_well_formed Examples.seeded
              (Examples.at_ Examples.monday 10 0)
              (Examples.at_ Examples.monday 11 0) 60 H0) as [_ Hs].
  destruct (Hs _ Hin) as (_ & _ & Hw & Hb & _).
  split; [exact Hw | exact Hb].
Defined.

(** C5, as stated, fails for a negative duration: the search for slots
    of -60 minutes on Monday returns one that starts at 19:00, after
    business-hours close. *)
Lemma availability_negative_duration_counterexample :
  In Examples.backwards_slot
    (resp_available_slots
       (MockCalendar.get_availability Examples.seeded
          (Examples.at_ Examples.monday 0 0)
          (Examples.at_ Examples.monday 0 0) (-60))) /\
  ~ (time_of_day (start_time Examples.backwards_slot)
     < MockCalendar.business_hours_end).
Proof.
  split.
  - apply (nth_error_In _ 20). vm_compute. reflexivity.
  - vm_compute. discriminate.
Qed.

(** ** Conflict detection in the two backends *)

Module GoogleFacts.

Import GoogleCalendar.

(** An event whose times parse to aware datetimes never removes a
    slot: comparing it with the slot's naive times raises inside the
    [try], and the bare [except] moves on to the next event. *)
Lemma aware_event_ignored (slot : TimeSlot) (s e : datetime) (off : Z)
    (oe : option Z) (rest : list api_event) :
  slot_is_available slot
    (mk_api_event (DateTime (mk_pydatetime s oe))
       (DateTime (mk_pydatetime e (Some off))) :: rest)
  = slot_is_available slot rest.
Proof. reflexivity. Qed.

(** An event whose times carry no offset removes the slots it
    overlaps. *)
Lemma naive_event_conflict (slot : TimeSlot) (s e : datetime)
    (events : list api_event) :
  In (mk_api_event (DateTime (mk_pydatetime s None))
        (DateTime (mk_pydatetime e None))) events ->
  start_time slot < e -> end_time slot > s ->
  slot_is_available slot events = false.
Proof.
  intros Hin H1 H2.
  induction events as [|ev events IH]; [destruct Hin|].
  destruct Hin as [->|Hin].
  - cbn. apply Z.ltb_lt in H1. rewrite H1.
    assert (H2' : (end_time slot >? s) = true) by (rewrite Z.gtb_ltb; apply Z.ltb_lt; lia).
    rewrite H2'. reflexivity.
  - cbn [slot_is_available]. rewrite (IH Hin).
    destruct (negb _); [reflexivity|].
    destruct (bind _ _) as [[|]|]; reflexivity.
Qed.

End GoogleFacts.

(** C4: a run of [GoogleCalendar._filter_conflicting_slots] that the
    claim excludes.  The calendar holds one event, Monday 10:00-11:00,
    with [dateTime] strings ending in [Z]; the slot Monday 10:00-11:00
    overlaps it and is returned as available, by the filter and by the
    availability search.  The same event without the [Z], and the same
    event in the in-memory backend, remove the slot. *)
Theorem google_filter_keeps_overlapping_slot :
  GoogleCalendar._filter_conflicting_slots
    [Examples.hour_slot Examples.monday 10] [Examples.utc_event]
  = [Examples.hour_slot Examples.monday 10] /\
  (exists r,
     GoogleCalendar.get_availability
       (Examples.google_with [Examples.utc_event])
       (Examples.at_ Examples.monday 10 0)
       (Examples.at_ Examples.monday 11 0) 60 = Ok r /\
     In (Examples.hour_slot Examples.monday 10) (resp_available_slots r)) /\
  GoogleCalendar._filter_conflicting_slots
    [Examples.hour_slot Examples.monday 10] [Examples.naive_event] = [] /\
  ~ In (Examples.hour_slot Examples.monday 10)
      (resp_available_slots
         (MockCalendar.get_availability Examples.seeded
            (Examples.at_ Examples.monday 10 0)
            (Examples.at_ Examples.monday 11 0) 60)).
Proof.
  split; [reflexivity|]. split.
  - eexists. split; [vm_compute; reflexivity|].
    apply (nth_error_In _ 2). reflexivity.
  - split; [reflexivity|].
    intros Hin. apply MockFacts.get_availability_iff in Hin.
    destruct Hin as (_ & _ & _ & _ & Hno).
    apply (Hno (mk_CalendarEvent "mock_event_0" "Team Meeting"
                  (Some "Weekly team sync")
                  (Examples.at_ Examples.monday 10 0)
                  (Examples.at_ Examples.monday 11 0) [])).
    + left. reflexivity.
    + vm_compute. split; reflexivity.
Qed.

(** ** Booking on the in-memory backend *)

(** C2: a booking that the claim says is refused.  The seeded backend
    holds Team Meeting on Monday 10:00-11:00; a request for the very
    same interval is accepted, because the check made at commit asks
    whether any slot of that length is free on the days of the request,
    not whether the requested interval is: the response reports success
    and the store holds a fifth event, over the first. *)
Theorem mock_books_over_existing_event (date_parser : DateParser) :
  let request_start := Examples.at_ Examples.monday 10 0 in
  let request_end := Examples.at_ Examples.monday 11 0 in
  let r :=
    MockCalendar.book_appointment date_parser Examples.seeded 1751803200
      (Some "Sync") request_start request_end None None in
  (exists ev, In ev (MockCalendar.values Examples.seeded) /\
     request_start < ev_end_time ev /\ request_end > ev_start_time ev) /\
  success (fst r) = true /\
  event_id (fst r) = Some "event_4_1751803200" /\
  MockCalendar.keys (snd r)
  = ["mock_event_0"; "mock_event_1"; "mock_event_2"; "mock_event_3";
     "event_4_1751803200"] /\
  (exists ev, In ev (MockCalendar.values (snd r)) /\
     ev_id ev = "event_4_1751803200" /\
     ev_start_time ev = request_start /\ ev_end_time ev = request_end).
Proof.
  cbv zeta. split.
  - exists (mk_CalendarEvent "mock_event_0" "Team Meeting"
              (Some "Weekly team sync")
              (Examples.at_ Examples.monday 10 0)
              (Examples.at_ Examples.monday 11 0) []).
    split; [left; reflexivity|]. vm_compute. split; reflexivity.
  - split; [reflexivity|]. split; [reflexivity|]. split; [reflexivity|].
    eexists. split.
    + apply (nth_error_In _ 4). reflexivity.
    + repeat split.
Qed.

(** C10: a run in which a successful booking adds no event.  Two
    bookings are made within one second, the first is deleted, and a
    third booking is made within the same second: its id is built from
    the size of the store and the second, so it is the id of the second
    booking, whose event it replaces.  The response reports success with
    that id, the store is no larger than before, and the second booking
    is gone. *)
Theorem mock_booking_reuses_event_id (date_parser : DateParser) :
  let ts := 1751803200 in
  let book store title h :=
    MockCalendar.book_appointment date_parser store ts (Some title)
      (Examples.at_ Examples.monday h 0) (Examples.at_ Examples.monday (h + 1) 0)
      None None in
  let store1 := snd (book Examples.seeded "First" 11) in
  let store2 := snd (book store1 "Second" 12) in
  let store3 := snd (MockCalendar.delete_event store2 "event_4_1751803200") in
  let r := book store3 "Third" 16 in
  success (fst r) = true /\
  event_id (fst r) = Some "event_5_1751803200" /\
  MockCalendar.dict_mem "event_5_1751803200" store3 = true /\
  List.length (snd r) = List.length store3 /\
  map ev_title (MockCalendar.values store3)
  = ["Team Meeting"; "Client Call"; "Lunch Break"; "Product Review"; "Second"] /\
  map ev_title (MockCalendar.values (snd r))
  = ["Team Meeting"; "Client Call"; "Lunch Break"; "Product Review"; "Third"].
Proof.
  cbv zeta. repeat split.
Qed.

(** ** The dialogue handlers *)

Section NodesFacts.

Variable date_parser : DateParser.
Variable B : Type.
Variable calendar_service : CalendarService B.

Let suggest := ConversationNodes.suggest_alternative_slots date_parser B calendar_service.
Let check := ConversationNodes.check_availability date_parser B calendar_service.
Let collect :=
  ConversationNodes.collect_appointment_details_with_ai date_parser B
    calendar_service.

Lemma state_of_update (s : ConversationStateEnum) (state : AgentState) :
  state_of (update_state s state) = s.
Proof. reflexivity. Qed.

Lemma draft_of_update (s : ConversationStateEnum) (state : AgentState) :
  draft_of (update_state s state) = draft_of state.
Proof. reflexivity. Qed.

Lemma draft_of_add_assistant (ts : datetime) (text : string)
    (state : AgentState) :
  draft_of (add_assistant_message ts text state) = draft_of state.
Proof. reflexivity. Qed.

Lemma last_assistant_after_reply (s : ConversationStateEnum) (ts : datetime)
    (text : string) (state : AgentState) :
  get_last_assistant_message
    (update_state s (add_assistant_message ts text state)) = Some text.
Proof.
  unfold get_last_assistant_message, update_state, add_assistant_message.
  cbn [messages]. apply last_with_role_snoc.
Qed.

(** Where slot suggestion leaves the session: in SUGGESTING_SLOTS with
    up to five offered slots when the search finds some, in
    COLLECTING_DETAILS when it finds none or raises. *)
Lemma suggest_outcome (env : Env) (backend : B) (state : AgentState)
    (request : AppointmentRequest) (t : string) :
  draft_of state = Some request -> title request = Some t ->
  match
    ConversationNodes.alternatives_search B calendar_service env backend request
  with
  | Ok found =>
      match resp_available_slots found with
      | _ :: _ =>
          state_of (suggest env backend state) = SUGGESTING_SLOTS /\
          available_slots (conversation_state (suggest env backend state))
          = firstn 5 (resp_available_slots found)
      | [] => state_of (suggest env backend state) = COLLECTING_DETAILS
      end
  | Raise _ => state_of (suggest env backend state) = COLLECTING_DETAILS
  end.
Proof.
  intros Hd Ht. unfold suggest, ConversationNodes.suggest_alternative_slots.
  rewrite Hd.
  destruct (ConversationNodes.alternatives_search _ _ _ _ _) as [found|e];
    [|reflexivity].
  destruct (resp_available_slots found) eqn:Hs; cbn [Py.truthy_list];
    [reflexivity|].
  rewrite Ht. cbn [title_lower]. split; reflexivity.
Qed.

(** The nesting bound of [check_availability] is enough: on a draft
    with a start instant every depth from one on runs the [try] block. *)
Lemma check_depth_with_start (depth : nat) (env : Env) (backend : B)
    (state : AgentState) (request : AppointmentRequest) (s : datetime) :
  draft_of state = Some request -> start_date request = Some s ->
  ConversationNodes.check_availability_depth date_parser B calendar_service
    (S depth) env backend state
  = ConversationNodes.check_availability_try date_parser B calendar_service
      env backend state request s.
Proof.
  intros Hd Hs. cbn [ConversationNodes.check_availability_depth].
  rewrite Hd, Hs. reflexivity.
Qed.

(** Detail collection only calls [check] on a session whose draft has a
    start instant. *)
Lemma collect_with_ext (chk chk' : AgentState -> AgentState) (env : Env)
    (state : AgentState) :
  (forall st request s,
     draft_of st = Some request -> start_date request = Some s ->
     chk st = chk' st) ->
  ConversationNodes.collect_with date_parser chk env state
  = ConversationNodes.collect_with date_parser chk' env state.
Proof.
  intros Hext. unfold ConversationNodes.collect_with.
  destruct (get_last_user_message state) as [[|c msg]|]; try reflexivity.
  set (r := ConversationNodes.merge_fields _ _ _ _).
  destruct (start_date r) as [s|] eqn:Hs; [|reflexivity].
  destruct (ar_duration_minutes r) as [d|]; [|reflexivity].
  destruct (end_date r) as [e|] eqn:He.
  - apply (Hext _ r s); [reflexivity | exact Hs].
  - apply (Hext _ (with_end_date (Some (s + timedelta_minutes d)) r) s);
      [reflexivity | exact Hs].
Qed.

(** The two handlers as they call each other in the source. *)
Lemma check_availability_unfold (env : Env) (backend : B)
    (state : AgentState) :
  check env backend state
  = match draft_of state with
    | Some request =>
        match start_date request with
        | Some s =>
            ConversationNodes.check_availability_try date_parser B
              calendar_service env backend state request s
        | None => collect env backend state
        end
    | None => collect env backend state
    end.
Proof.
  unfold check, collect, ConversationNodes.check_availability,
    ConversationNodes.collect_appointment_details_with_ai,
    ConversationNodes.check_availability.
  cbn [ConversationNodes.check_availability_depth].
  assert (Hc : ConversationNodes.collect_with date_parser
                 (ConversationNodes.check_availability_depth date_parser B
                    calendar_service 1 env backend) env state
               = ConversationNodes.collect_with date_parser
                   (ConversationNodes.check_availability_depth date_parser B
                      calendar_service 2 env backend) env state).
  { apply collect_with_ext. intros st request s Hd Hs.
    rewrite !(check_depth_with_start _ _ _ _ request s) by assumption.
    reflexivity. }
  destruct (draft_of state) as [request|]; [|exact Hc].
  destruct (start_date request); [reflexivity | exact Hc].
Qed.

(** C1 (amended): for a session whose draft has a start instant and a
    title, [check_availability] calls the backend's single-slot check on
    the draft's interval.  If the backend reports the interval free, the
    turn ends in CONFIRMING_BOOKING.  If it reports busy, or the call
    raises, slot suggestion runs in the same turn: the turn ends in
    SUGGESTING_SLOTS, with up to five offered slots, when the search for
    alternatives finds some, and in COLLECTING_DETAILS when it finds none
    or raises. *)
Theorem check_availability_transitions (env : Env) (backend : B)
    (state : AgentState) (request : AppointmentRequest) (s : datetime)
    (t : string) :
  draft_of state = Some request ->
  start_date request = Some s ->
  title request = Some t ->
  match
    ConversationNodes.single_slot_check B calendar_service backend request s
  with
  | Ok true => state_of (check env backend state) = CONFIRMING_BOOKING
  | _ =>
      match
        ConversationNodes.alternatives_search B calendar_service env backend
          request
      with
      | Ok found =>
          match resp_available_slots found with
          | _ :: _ =>
              state_of (check env backend state) = SUGGESTING_SLOTS /\
              available_slots (conversation_state (check env backend state))
              = firstn 5 (resp_available_slots found)
          | [] => state_of (check env backend state) = COLLECTING_DETAILS
          end
      | Raise _ => state_of (check env backend state) = COLLECTING_DETAILS
      end
  end.
Proof.
  intros Hd Hs Ht. rewrite check_availability_unfold, Hd, Hs.
  unfold ConversationNodes.check_availability_try.
  destruct (ConversationNodes.single_slot_check _ _ _ _ _) as [[|]|e].
  - rewrite Ht. reflexivity.
  - apply (suggest_outcome env backend _ request t); [exact Hd | exact Ht].
  - apply (suggest_outcome env backend _ request t); [exact Hd | exact Ht].
Qed.

End NodesFacts.

Lemma check_availability_transitions_witness :
  draft_of
    (Examples.session CHECKING_AVAILABILITY (Some Examples.free_hour) []
       "tomorrow at 3pm for 1 hour")
  = Some Examples.free_hour /\
  start_date Examples.free_hour = Some (Examples.at_ Examples.monday 15 0) /\
  title Examples.free_hour = Some "Meeting" /\
  state_of
    (ConversationNodes.check_availability Examples.sample_parser
       GoogleCalendar.t google_calendar (Examples.noon_env None)
       Examples.google_offline
       (Examples.session CHECKING_AVAILABILITY (Some Examples.free_hour) []
          "tomorrow at 3pm for 1 hour"))
  = CONFIRMING_BOOKING.
Proof.
  repeat (split; [reflexivity|]).
  exact (check_availability_transitions Examples.sample_parser
           GoogleCalendar.t google_calendar (Examples.noon_env None)
           Examples.google_offline
           (Examples.session CHECKING_AVAILABILITY (Some Examples.free_hour) []
              "tomorrow at 3pm for 1 hour")
           Examples.free_hour (Examples.at_ Examples.monday 15 0) "Meeting"
           eq_refl eq_refl eq_refl).
Defined.

(** C1, as stated, fails in three ways.  With the in-memory backend and
    the conflict-free interval Monday 15:00-16:00 the turn ends in
    SUGGESTING_SLOTS, because [MockCalendar] has no [is_time_available]
    and the call raises.  With a backend that reports busy and a draft of
    ten hours, for which no alternative exists, the turn ends in
    COLLECTING_DETAILS.  And with a backend that reports free but a draft
    without title, building the summary raises and the turn does not end
    in CONFIRMING_BOOKING. *)
Lemma check_availability_counterexample :
  (MockCalendar.slot_is_available
     (Examples.hour_slot Examples.monday 15)
     (MockCalendar.values Examples.seeded) = true /\
   state_of
     (ConversationNodes.check_availability Examples.sample_parser
        MockCalendar.t (mock_calendar Examples.sample_parser)
        (Examples.noon_env None) Examples.seeded
        (Examples.session CHECKING_AVAILABILITY (Some Examples.free_hour) []
           "tomorrow at 3pm for 1 hour"))
   = SUGGESTING_SLOTS) /\
  (ConversationNodes.single_slot_check GoogleCalendar.t google_calendar
     (Examples.google_with [Examples.naive_event]) Examples.ten_hours
     (Examples.at_ Examples.monday 9 0) = Ok false /\
   state_of
     (ConversationNodes.check_availability Examples.sample_parser
        GoogleCalendar.t google_calendar (Examples.noon_env None)
        (Examples.google_with [Examples.naive_event])
        (Examples.session CHECKING_AVAILABILITY (Some Examples.ten_hours) []
           "monday 9am to 7pm"))
   = COLLECTING_DETAILS) /\
  (ConversationNodes.single_slot_check GoogleCalendar.t google_calendar
     Examples.google_offline (Examples.untitled Examples.free_hour)
     (Examples.at_ Examples.monday 15 0) = Ok true /\
   state_of
     (ConversationNodes.check_availability Examples.sample_parser
        GoogleCalendar.t google_calendar (Examples.noon_env None)
        Examples.google_offline
        (Examples.session CHECKING_AVAILABILITY
           (Some (Examples.untitled Examples.free_hour)) []
           "tomorrow at 3pm for 1 hour"))
   = COLLECTING_DETAILS).
Proof.
  repeat split.
Qed.

Section BookingFacts.

Variable date_parser : DateParser.
Variable B : Type.
Variable calendar_service : CalendarService B.

Let confirm := ConversationNodes.confirm_booking date_parser B calendar_service.
Let book := ConversationNodes.book_appointment date_parser B calendar_service.

Lemma booked_text_has_id (request : AppointmentRequest) (formatted : string)
    (r : BookingResponse) :
  Py.contains (Py.str_opt (event_id r))
    (ConversationNodes.booked_text request formatted r) = true.
Proof.
  unfold ConversationNodes.booked_text. find_piece.
Qed.

(** C7: when the user confirms and the draft has a start instant, the
    session follows the outcome of the backend commit.  If the commit
    returns a response that reports success, the session moves to
    BOOKING_COMPLETE and the reply shows the event identifier of the
    response; if the response reports failure, or the commit raises, the
    session ends the turn in COLLECTING_DETAILS (so not in
    BOOKING_COMPLETE) and the reply shows the backend's message or the
    text of the exception. *)
Theorem confirmed_booking_outcome (env : Env) (backend : B)
    (state : AgentState) (user_message : string)
    (request : AppointmentRequest) (s : datetime) :
  get_last_user_message state = Some user_message ->
  user_message <> EmptyString ->
  Py.any_in ["yes"; "confirm"; "book"; "schedule"; "ok"; "sure"]
    (Py.lower user_message) = true ->
  draft_of state = Some request ->
  start_date request = Some s ->
  exists reply,
    get_last_assistant_message (fst (confirm env backend state)) = Some reply /\
    match
      ConversationNodes.commit_booking B calendar_service env backend request s
    with
    | Ok (booking_result, backend') =>
        snd (confirm env backend state) = backend' /\
        if success booking_result then
          state_of (fst (confirm env backend state)) = BOOKING_COMPLETE /\
          Py.contains (Py.str_opt (event_id booking_result)) reply = true
        else
          state_of (fst (confirm env backend state)) = COLLECTING_DETAILS /\
          Py.contains (message booking_result) reply = true
    | Raise e =>
        snd (confirm env backend state) = backend /\
        state_of (fst (confirm env backend state)) = COLLECTING_DETAILS /\
        Py.contains (exn_str e) reply = true
    end.
Proof.
  intros Hm Hne Hyes Hd Hs.
  unfold confirm, ConversationNodes.confirm_booking. rewrite Hm.
  destruct user_message as [|c rest]; [now elim Hne|].
  rewrite Hyes. unfold ConversationNodes.book_appointment. rewrite Hd, Hs.
  destruct (ConversationNodes.commit_booking _ _ _ _ _ _)
    as [[booking_result backend']|e].
  - destruct (success booking_result); eexists; cbn [fst snd];
      rewrite last_assistant_after_reply;
      (split; [reflexivity|]); (split; [reflexivity|]);
      (split; [reflexivity|]).
    + apply booked_text_has_id.
    + find_piece.
  - eexists. cbn [fst snd]. rewrite last_assistant_after_reply.
    split; [reflexivity|]. split; [reflexivity|]. split; [reflexivity|].
    find_piece.
Qed.

End BookingFacts.

Lemma confirmed_booking_outcome_witness :
  get_last_user_message
    (Examples.session CONFIRMING_BOOKING (Some Examples.free_hour) [] "Yes")
  = Some "Yes" /\
  "Yes" <> EmptyString /\
  Py.any_in ["yes"; "confirm"; "book"; "schedule"; "ok"; "sure"]
    (Py.lower "Yes") = true /\
  draft_of
    (Examples.session CONFIRMING_BOOKING (Some Examples.free_hour) [] "Yes")
  = Some Examples.free_hour /\
  start_date Examples.free_hour = Some (Examples.at_ Examples.monday 15 0) /\
  exists reply,
    get_last_assistant_message
      (fst (ConversationNodes.confirm_booking Examples.sample_parser
              MockCalendar.t (mock_calendar Examples.sample_parser)
              (Examples.noon_env None) Examples.seeded
              (Examples.session CONFIRMING_BOOKING (Some Examples.free_hour)
                 [] "Yes")))
    = Some reply /\
    state_of
      (fst (ConversationNodes.confirm_booking Examples.sample_parser
              MockCalendar.t (mock_calendar Examples.sample_parser)
              (Examples.noon_env None) Examples.seeded
              (Examples.session CONFIRMING_BOOKING (Some Examples.free_hour)
                 [] "Yes")))
    = BOOKING_COMPLETE /\
    Py.contains "event_4_1751803200" reply = true.
Proof.
  assert (Hne : "Yes" <> EmptyString) by discriminate.
  repeat (split; [first [reflexivity | exact Hne]|]).
  destruct (confirmed_booking_outcome Examples.sample_parser MockCalendar.t
              (mock_calendar Examples.sample_parser) (Examples.noon_env None)
              Examples.seeded
              (Examples.session CONFIRMING_BOOKING (Some Examples.free_hour)
                 [] "Yes")
              "Yes" Examples.free_hour (Examples.at_ Examples.monday 15 0)
              eq_refl Hne eq_refl eq_refl eq_refl)
    as (reply & Hreply & _ & Hstate & Hid).
  exists reply. split; [exact Hreply|]. split; [exact Hstate | exact Hid].
Defined.

Section CollectFacts.

Variable date_parser : DateParser.
Variable B : Type.
Variable calendar_service : CalendarService B.

Let suggest := ConversationNodes.suggest_alternative_slots date_parser B calendar_service.
Let collect :=
  ConversationNodes.collect_appointment_details_with_ai date_parser B
    calendar_service.

Lemma suggest_keeps_draft (env : Env) (backend : B) (state : AgentState) :
  draft_of (suggest env backend state) = draft_of state.
Proof.
  unfold suggest, ConversationNodes.suggest_alternative_slots.
  destruct (draft_of state) as [request|] eqn:Hd; [|exact Hd].
  destruct (ConversationNodes.alternatives_search _ _ _ _ _) as [found|e];
    [|exact Hd].
  destruct (Py.truthy_list _); [|exact Hd].
  destruct (title_lower _); exact Hd.
Qed.

Lemma check_try_keeps_draft (env : Env) (backend : B) (state : AgentState)
    (request : AppointmentRequest) (s : datetime) :
  draft_of
    (ConversationNodes.check_availability_try date_parser B calendar_service
       env backend state request s)
  = draft_of state.
Proof.
  unfold ConversationNodes.check_availability_try.
  destruct (ConversationNodes.single_slot_check _ _ _ _ _) as [[|]|e].
  - destruct (title_lower _); [reflexivity|].
    now rewrite (suggest_keeps_draft env backend).
  - now rewrite (suggest_keeps_draft env backend).
  - now rewrite (suggest_keeps_draft env backend).
Qed.

(** The draft a turn of detail collection leaves in the session is the
    merge of the utterance and the extraction result into the draft it
    found. *)
Lemma collect_draft (env : Env) (backend : B) (state : AgentState)
    (user_message : string) :
  get_last_user_message state = Some user_message ->
  user_message <> EmptyString ->
  draft_of (collect env backend state)
  = Some (ConversationNodes.merge_draft date_parser (extraction env)
            user_message (draft_of state)).
Proof.
  intros Hm Hne.
  unfold collect, ConversationNodes.collect_appointment_details_with_ai,
    ConversationNodes.collect_with, ConversationNodes.merge_draft,
    ConversationNodes.derive_end.
  rewrite Hm. destruct user_message as [|c rest]; [now elim Hne|].
  set (r := ConversationNodes.merge_fields _ _ _ _).
  destruct (start_date r) as [s|] eqn:Hs; [|reflexivity].
  destruct (ar_duration_minutes r) as [d|]; [|reflexivity].
  destruct (end_date r) as [e|].
  - rewrite (check_availability_unfold date_parser B calendar_service).
    cbn [draft_of update_state set_appointment_request conversation_state
         appointment_request].
    rewrite Hs. apply check_try_keeps_draft.
  - rewrite (check_availability_unfold date_parser B calendar_service).
    cbn [draft_of update_state set_appointment_request conversation_state
         appointment_request with_end_date start_date].
    rewrite Hs. apply check_try_keeps_draft.
Qed.

End CollectFacts.

Section SelectionFacts.

Variable date_parser : DateParser.
Variable B : Type.
Variable calendar_service : CalendarService B.

Let select := ConversationNodes.handle_slot_selection date_parser B calendar_service.
Let collect :=
  ConversationNodes.collect_appointment_details_with_ai date_parser B
    calendar_service.

(** The index the loop stops at is one of the [n] indices from [i] on,
    the first whose test holds. *)
Lemma selection_loop_some (message_lower : string) (n : nat) :
  forall i k,
    ConversationNodes.selection_loop message_lower n i = Some k ->
    (i <= k < i + n)%nat /\
    ConversationNodes.option_matches message_lower k = true /\
    forall j, (i <= j < k)%nat ->
      ConversationNodes.option_matches message_lower j = false.
Proof.
  induction n as [|n IH]; intros i k H; [discriminate|].
  cbn [ConversationNodes.selection_loop] in H.
  destruct (ConversationNodes.option_matches message_lower i) eqn:Hm.
  - injection H as <-. split; [lia|]. split; [exact Hm|]. intros j Hj. lia.
  - destruct (IH _ _ H) as (Hr & Hk & Hfirst).
    split; [lia|]. split; [exact Hk|].
    intros j Hj. destruct (Nat.eq_dec j i) as [->|Hne]; [exact Hm|].
    apply Hfirst. lia.
Qed.

Lemma getitem_in_range (slots : list TimeSlot) (k : nat) :
  (k < List.length slots)%nat -> exists slot, ConversationNodes.getitem slots k = Ok slot.
Proof.
  intros Hk. unfold ConversationNodes.getitem.
  destruct (nth_error slots k) as [slot|] eqn:E.
  - exists slot. reflexivity.
  - apply nth_error_None in E. lia.
Qed.

(** C9: the selection loop only yields 0-based indices below the number
    of offered slots (the first whose 1-based number occurs in the
    message), so [available_slots[i]] never raises [IndexError]; and the
    reply "option 2" to a single offered slot selects nothing: the
    handler returns, without an exception, what detail collection makes
    of the session. *)
Theorem slot_selection_stays_in_range (env : Env) (backend : B)
    (state : AgentState) :
  (forall message_lower k,
     ConversationNodes.selection_loop message_lower
       (List.length (available_slots (conversation_state state))) 0 = Some k ->
     (k < List.length (available_slots (conversation_state state)))%nat /\
     exists slot,
       ConversationNodes.getitem (available_slots (conversation_state state)) k
       = Ok slot) /\
  (forall e st,
     select env backend state = Raised e st -> exn_cls e <> IndexError) /\
  (forall slot,
     available_slots (conversation_state state) = [slot] ->
     get_last_user_message state = Some "option 2" ->
     select env backend state = Returned (collect env backend state) /\
     draft_of (collect env backend state)
     = Some (ConversationNodes.merge_draft date_parser (extraction env)
               "option 2" (draft_of state))).
Proof.
  split; [|split].
  - intros message_lower k H. apply selection_loop_some in H.
    destruct H as (Hr & _). split; [lia|]. apply getitem_in_range. lia.
  - intros e st. unfold select, ConversationNodes.handle_slot_selection.
    destruct (get_last_user_message state) as [[|c msg]|]; try discriminate.
    destruct (negb _); [discriminate|].
    destruct (ConversationNodes.selection_loop _ _ _) as [k|] eqn:Hk;
      [|discriminate].
    apply selection_loop_some in Hk. destruct Hk as (Hr & _).
    destruct (getitem_in_range (available_slots (conversation_state state)) k)
      as [slot Hslot]; [lia|].
    rewrite Hslot.
    destruct (draft_of state) as [request|].
    + destruct (title_lower _) as [lowered|e'] eqn:Ht; [discriminate|].
      intros H. injection H as <- _.
      unfold title_lower in Ht.
      destruct (title _); [discriminate|]. injection Ht as <-. discriminate.
    + intros H. injection H as <- _. discriminate.
  - intros slot Hslots Hmsg. split.
    + unfold select, ConversationNodes.handle_slot_selection.
      rewrite Hmsg, Hslots. reflexivity.
    + apply collect_draft; [exact Hmsg | discriminate].
Qed.

End SelectionFacts.

Lemma slot_selection_stays_in_range_witness :
  available_slots
    (conversation_state
       (Examples.session SUGGESTING_SLOTS (Some Examples.free_hour)
          [Examples.hour_slot Examples.monday 9] "option 2"))
  = [Examples.hour_slot Examples.monday 9] /\
  get_last_user_message
    (Examples.session SUGGESTING_SLOTS (Some Examples.free_hour)
       [Examples.hour_slot Examples.monday 9] "option 2")
  = Some "option 2" /\
  ConversationNodes.handle_slot_selection Examples.sample_parser
    MockCalendar.t (mock_calendar Examples.sample_parser)
    (Examples.noon_env None) Examples.seeded
    (Examples.session SUGGESTING_SLOTS (Some Examples.free_hour)
       [Examples.hour_slot Examples.monday 9] "option 2")
  = Returned
      (ConversationNodes.collect_appointment_details_with_ai
         Examples.sample_parser MockCalendar.t
         (mock_calendar Examples.sample_parser) (Examples.noon_env None)
         Examples.seeded
         (Examples.session SUGGESTING_SLOTS (Some Examples.free_hour)
            [Examples.hour_slot Examples.monday 9] "option 2")).
Proof.
  split; [reflexivity|]. split; [reflexivity|].
  exact (proj1 (proj2 (proj2
           (slot_selection_stays_in_range Examples.sample_parser
              MockCalendar.t (mock_calendar Examples.sample_parser)
              (Examples.noon_env None) Examples.seeded
              (Examples.session SUGGESTING_SLOTS (Some Examples.free_hour)
                 [Examples.hour_slot Examples.monday 9] "option 2")))
           (Examples.hour_slot Examples.monday 9) eq_refl eq_refl)).
Defined.

(** ** Validation *)

Section ValidationFacts.

Variable date_parser : DateParser.





End ValidationFacts.




(** ** The draft merge *)

Section MergeFacts.

Variable date_parser : DateParser.
Variable user_message : string.

Let ae := ConversationNodes.apply_extraction.
Let ft := ConversationNodes.fallback_times date_parser user_message.
Let fd := ConversationNodes.fallback_duration date_parser user_message.
Let dt := ConversationNodes.default_title user_message.
Let de := ConversationNodes.derive_end.

(** Assigning a field the value it has changes nothing. *)
Lemma with_start_date_same (r : AppointmentRequest) (v : option datetime) :
  start_date r = v -> with_start_date v r = r.
Proof. destruct r. cbn. intros <-. reflexivity. Qed.

Lemma with_end_date_same (r : AppointmentRequest) (v : option datetime) :
  end_date r = v -> with_end_date v r = r.
Proof. destruct r. cbn. intros <-. reflexivity. Qed.

Lemma with_duration_minutes_same (r : AppointmentRequest) (v : option Z) :
  ar_duration_minutes r = v -> with_duration_minutes v r = r.
Proof. destruct r. cbn. intros <-. reflexivity. Qed.

Lemma with_title_same (r : AppointmentRequest) (v : option string) :
  title r = v -> with_title v r = r.
Proof. destruct r. cbn. intros <-. reflexivity. Qed.

Lemma with_description_same (r : AppointmentRequest) (v : option string) :
  description r = v -> with_description v r = r.
Proof. destruct r. cbn. intros <-. reflexivity. Qed.

(** What the extraction step leaves in each field it is given. *)
Lemma ae_fields (info : Extraction) (r : AppointmentRequest) :
  (forall s, ex_start_time info = Some s ->
             start_date (ae (Some info) r) = Some s) /\
  (forall e, ex_end_time info = Some e ->
             end_date (ae (Some info) r) = Some e) /\
  (Py.truthy_int (ex_duration info) = true ->
   ar_duration_minutes (ae (Some info) r) = ex_duration info) /\
  (Py.truthy_str (ex_title info) = true ->
   title (ae (Some info) r) = ex_title info) /\
  (Py.truthy_str (ex_description info) = true ->
   description (ae (Some info) r) = ex_description info).
Proof.
  unfold ae, ConversationNodes.apply_extraction.
  destruct info as [es ee ed et edesc], r as [ti de0 st en du att].
  cbn [ex_start_time ex_end_time ex_duration ex_title ex_description].
  repeat split; intros;
    destruct es, ee, (Py.truthy_int ed), (Py.truthy_str et),
      (Py.truthy_str edesc); cbn; congruence.
Qed.

(** A draft that already holds what the extraction gives is a fixed
    point of the extraction step. *)
Lemma ae_fixed (ex : option Extraction) (r : AppointmentRequest) :
  (forall info, ex = Some info ->
     (forall s, ex_start_time info = Some s -> start_date r = Some s) /\
     (forall e, ex_end_time info = Some e -> end_date r = Some e) /\
     (Py.truthy_int (ex_duration info) = true ->
      ar_duration_minutes r = ex_duration info) /\
     (Py.truthy_str (ex_title info) = true -> title r = ex_title info) /\
     (Py.truthy_str (ex_description info) = true ->
      description r = ex_description info)) ->
  ae ex r = r.
Proof.
  destruct ex as [info|]; [|reflexivity]. intros H.
  destruct (H info eq_refl) as (H1 & H2 & H3 & H4 & H5).
  unfold ae, ConversationNodes.apply_extraction. cbv zeta.
  assert (E1 : match ex_start_time info with
               | Some s => with_start_date (Some s) r
               | None => r
               end = r).
  { destruct (ex_start_time info) as [s|]; [|reflexivity].
    apply with_start_date_same. now apply H1. }
  rewrite E1.
  assert (E2 : match ex_end_time info with
               | Some e => with_end_date (Some e) r
               | None => r
               end = r).
  { destruct (ex_end_time info) as [e|]; [|reflexivity].
    apply with_end_date_same. now apply H2. }
  rewrite E2.
  destruct (Py.truthy_int (ex_duration info));
    [rewrite with_duration_minutes_same by now apply H3|];
    (destruct (Py.truthy_str (ex_title info));
     [rewrite with_title_same by now apply H4|]);
    (destruct (Py.truthy_str (ex_description info));
     [rewrite with_description_same by now apply H5|]); reflexivity.
Qed.

(** The time fallback. *)
Lemma ft_start_known (r : AppointmentRequest) :
  start_date r <> None -> ft r = r.
Proof.
  unfold ft, ConversationNodes.fallback_times.
  destruct (start_date r); [reflexivity | intros H; now elim H].
Qed.

Lemma ft_no_range (r : AppointmentRequest) :
  parse_time_range date_parser user_message = None ->
  end_date (ft r) = end_date r /\
  ar_duration_minutes (ft r) = ar_duration_minutes r.
Proof.
  unfold ft, ConversationNodes.fallback_times. intros ->.
  destruct (start_date r); [split; reflexivity|].
  destruct (parse_date_time _ _); split; destruct r; reflexivity.
Qed.

Lemma ft_title (r : AppointmentRequest) : title (ft r) = title r.
Proof.
  unfold ft, ConversationNodes.fallback_times.
  destruct (start_date r); [reflexivity|].
  destruct (parse_time_range _ _) as [[s e]|]; [destruct r; reflexivity|].
  destruct (parse_date_time _ _); destruct r; reflexivity.
Qed.

Lemma ft_description (r : AppointmentRequest) :
  description (ft r) = description r.
Proof.
  unfold ft, ConversationNodes.fallback_times.
  destruct (start_date r); [reflexivity|].
  destruct (parse_time_range _ _) as [[s e]|]; [destruct r; reflexivity|].
  destruct (parse_date_time _ _); destruct r; reflexivity.
Qed.

Lemma ft_start_kept (r : AppointmentRequest) (s : datetime) :
  start_date r = Some s -> start_date (ft r) = Some s.
Proof.
  intros H. rewrite ft_start_known; [exact H | congruence].
Qed.

(** If the time fallback leaves the start unset, the utterance holds no
    time, and the fallback changes no draft. *)
Lemma ft_stuck (r r' : AppointmentRequest) :
  start_date (ft r) = None -> ft r' = r'.
Proof.
  unfold ft, ConversationNodes.fallback_times.
  destruct (start_date r) eqn:E; [intros H; cbn in H; congruence|].
  destruct (parse_time_range _ _) as [[s e]|]; [destruct r; cbn; discriminate|].
  destruct (parse_date_time _ _); [destruct r; cbn; discriminate|].
  intros _. destruct (start_date r'); reflexivity.
Qed.

(** The duration fallback touches the duration only. *)
Lemma fd_others (r : AppointmentRequest) :
  title (fd r) = title r /\ description (fd r) = description r /\
  start_date (fd r) = start_date r /\ end_date (fd r) = end_date r.
Proof.
  unfold fd, ConversationNodes.fallback_duration.
  destruct (Py.truthy_int (ar_duration_minutes r)); [repeat split|].
  destruct (Py.truthy_int (parse_duration _ _)); [destruct r; repeat split|].
  destruct (end_date r) eqn:E; destruct r; repeat split; exact E.
Qed.

Lemma fd_fixed (r : AppointmentRequest) :
  Py.truthy_int (ar_duration_minutes r) = true \/
  (Py.truthy_int (parse_duration date_parser user_message) = false /\
   end_date r <> None) ->
  fd r = r.
Proof.
  unfold fd, ConversationNodes.fallback_duration. intros [->|[-> He]].
  - reflexivity.
  - destruct (Py.truthy_int (ar_duration_minutes r)); [reflexivity|].
    destruct (end_date r); [reflexivity | now elim He].
Qed.

Lemma fd_result (r : AppointmentRequest) :
  Py.truthy_int (ar_duration_minutes (fd r)) = true \/
  (fd r = r /\
   Py.truthy_int (parse_duration date_parser user_message) = false /\
   end_date r <> None).
Proof.
  unfold fd, ConversationNodes.fallback_duration.
  destruct (Py.truthy_int (ar_duration_minutes r)) eqn:E1; [left; exact E1|].
  destruct (Py.truthy_int (parse_duration _ _)) eqn:E2;
    [left; destruct r; exact E2|].
  destruct (end_date r) eqn:E3.
  - right. repeat split. congruence.
  - left. destruct r. reflexivity.
Qed.

(** The title default touches the title only, and sets it. *)
Lemma dt_others (r : AppointmentRequest) :
  description (dt r) = description r /\ start_date (dt r) = start_date r /\
  end_date (dt r) = end_date r /\
  ar_duration_minutes (dt r) = ar_duration_minutes r.
Proof.
  unfold dt, ConversationNodes.default_title.
  destruct (Py.truthy_str (title r)); [repeat split|].
  destruct (find _ _); destruct r; repeat split.
Qed.

Lemma dt_fixed (r : AppointmentRequest) :
  Py.truthy_str (title r) = true -> dt r = r.
Proof.
  unfold dt, ConversationNodes.default_title. intros ->. reflexivity.
Qed.

Lemma meeting_keywords_titles (kw : string * string) :
  In kw ConversationNodes.meeting_keywords ->
  Py.truthy_str (Some (snd kw)) = true.
Proof.
  cbn. intros [<-|[<-|[<-|[<-|[<-|[]]]]]]; reflexivity.
Qed.

Lemma dt_sets_title (r : AppointmentRequest) :
  Py.truthy_str (title (dt r)) = true.
Proof.
  unfold dt, ConversationNodes.default_title.
  destruct (Py.truthy_str (title r)) eqn:E; [exact E|].
  destruct (find _ _) as [kw|] eqn:F.
  - apply find_some in F. destruct F as [Hin _].
    destruct r. cbn. now apply meeting_keywords_titles.
  - destruct r. reflexivity.
Qed.

Lemma dt_ae_title (info : Extraction) (r : AppointmentRequest) :
  Py.truthy_str (ex_title info) = true -> title r = ex_title info ->
  title (dt r) = ex_title info.
Proof.
  intros Ht Hr. rewrite dt_fixed; [exact Hr | now rewrite Hr].
Qed.

(** Deriving the end touches the end only, and only when it is unset. *)
Lemma de_others (r : AppointmentRequest) :
  title (de r) = title r /\ description (de r) = description r /\
  start_date (de r) = start_date r /\
  ar_duration_minutes (de r) = ar_duration_minutes r.
Proof.
  unfold de, ConversationNodes.derive_end.
  destruct r as [ti d0 [s|] [e|] [d|] att]; repeat split.
Qed.

Lemma de_end_known (r : AppointmentRequest) :
  end_date r <> None -> de r = r.
Proof.
  unfold de, ConversationNodes.derive_end.
  destruct r as [ti d0 [s|] [e|] [d|] att]; cbn; intros H;
    try reflexivity; now elim H.
Qed.

Lemma de_idempotent (r : AppointmentRequest) : de (de r) = de r.
Proof.
  unfold de, ConversationNodes.derive_end.
  destruct r as [ti d0 [s|] [e|] [d|] att]; reflexivity.
Qed.

End MergeFacts.

Section MergeTheorems.

Variable date_parser : DateParser.

Lemma merge_fixed_point (ex : option Extraction) (user_message : string)
    (r0 : AppointmentRequest) :
  start_date (ConversationNodes.apply_extraction ex r0) <> None \/
  parse_time_range date_parser user_message = None \/
  (forall info, ex = Some info ->
     ex_end_time info = None /\ Py.truthy_int (ex_duration info) = false) ->
  let r5 :=
    ConversationNodes.derive_end
      (ConversationNodes.merge_fields date_parser ex user_message r0) in
  ConversationNodes.derive_end
    (ConversationNodes.merge_fields date_parser ex user_message r5) = r5.
Proof.
  intros H. unfold ConversationNodes.merge_fields.
  set (r1 := ConversationNodes.apply_extraction ex r0) in *.
  set (r2 := ConversationNodes.fallback_times date_parser user_message r1).
  set (r3 := ConversationNodes.fallback_duration date_parser user_message r2).
  set (r4 := ConversationNodes.default_title user_message r3).
  set (r5 := ConversationNodes.derive_end r4). cbv zeta.
  destruct (fd_others date_parser user_message r2) as (T32 & D32 & S32 & E32).
  fold r3 in T32, D32, S32, E32.
  destruct (dt_others user_message r3) as (D43 & S43 & E43 & U43).
  fold r4 in D43, S43, E43, U43.
  destruct (de_others r4) as (T54 & D54 & S54 & U54).
  fold r5 in T54, D54, S54, U54.
  (* what the range fallback leaves of the extracted end and duration *)
  assert (Hkeep : forall info, ex = Some info ->
            (forall e, ex_end_time info = Some e -> end_date r2 = Some e) /\
            (Py.truthy_int (ex_duration info) = true ->
             ar_duration_minutes r2 = ex_duration info)).
  { intros info ->.
    destruct (ae_fields info r0) as (_ & A2 & A3 & _).
    destruct H as [H|[H|H]].
    - unfold r2. rewrite ft_start_known by exact H. split; assumption.
    - destruct (ft_no_range date_parser user_message r1 H) as [He Hd].
      fold r2 in He, Hd. split.
      + intros e Hx. rewrite He. now apply A2.
      + intros Hx. rewrite Hd. now apply A3.
    - destruct (H info eq_refl) as [H1 H2]. split.
      + intros e Hx. congruence.
      + intros Hx. congruence. }
  assert (Ha : ConversationNodes.apply_extraction ex r5 = r5).
  { apply ae_fixed. intros info Hex.
    destruct (Hkeep info Hex) as [K1 K2]. subst ex.
    destruct (ae_fields info r0) as (A1 & _ & _ & A4 & A5).
    repeat split.
    - intros s Hs. rewrite S54, S43, S32. unfold r2.
      apply ft_start_kept. now apply A1.
    - intros e He. unfold r5. rewrite de_end_known.
      + rewrite E43, E32. now apply K1.
      + rewrite E43, E32, (K1 e He). discriminate.
    - intros Hd. rewrite U54, U43. unfold r3.
      rewrite fd_fixed; [now apply K2|]. left. now rewrite (K2 Hd).
    - intros Ht. rewrite T54. unfold r4. apply dt_ae_title; [exact Ht|].
      rewrite T32. unfold r2. rewrite ft_title. now apply A4.
    - intros Hd. rewrite D54, D43, D32. unfold r2. rewrite ft_description.
      now apply A5. }
  rewrite Ha.
  assert (Hb : ConversationNodes.fallback_times date_parser user_message r5
               = r5).
  { destruct (start_date r5) eqn:Es.
    - apply ft_start_known. congruence.
    - apply (ft_stuck date_parser user_message r1). fold r2. congruence. }
  rewrite Hb.
  assert (Hc : ConversationNodes.fallback_duration date_parser user_message r5
               = r5).
  { apply fd_fixed. destruct (fd_result date_parser user_message r2)
      as [Ht|(Heq & Hp & He)].
    - fold r3 in Ht. left. rewrite U54, U43. exact Ht.
    - right. split; [exact Hp|]. unfold r5. rewrite de_end_known.
      + rewrite E43, E32. exact He.
      + rewrite E43, E32. exact He. }
  rewrite Hc.
  assert (Hd : ConversationNodes.default_title user_message r5 = r5).
  { apply dt_fixed. rewrite T54. apply dt_sets_title. }
  rewrite Hd. apply de_idempotent.
Qed.

(** C8 (amended): the draft merge is idempotent whenever the time-range
    fallback does not write over an end instant or a duration that the
    extraction supplied, that is when the draft has a start instant once
    the extraction is applied, or the utterance holds no time range, or
    the extraction supplies neither an end instant nor a duration (in
    particular when there is no extraction result): merging the same
    utterance and extraction result into the merged draft gives the
    merged draft back, field for field. *)
Theorem draft_merge_idempotent (ex : option Extraction)
    (user_message : string) (current : option AppointmentRequest) :
  start_date
    (ConversationNodes.apply_extraction ex
       (match current with Some r => r | None => fresh_request end)) <> None \/
  parse_time_range date_parser user_message = None \/
  (forall info, ex = Some info ->
     ex_end_time info = None /\ Py.truthy_int (ex_duration info) = false) ->
  ConversationNodes.merge_draft date_parser ex user_message
    (Some (ConversationNodes.merge_draft date_parser ex user_message current))
  = ConversationNodes.merge_draft date_parser ex user_message current.
Proof.
  intros H. unfold ConversationNodes.merge_draft.
  apply merge_fixed_point. exact H.
Qed.


(** Every draft that detail collection leaves in a session has a title,
    which is why the handlers that print [title.lower()] find one. *)
Lemma collected_draft_has_title (B : Type)
    (calendar_service : CalendarService B) (env : Env) (backend : B)
    (state : AgentState) (user_message : string) :
  get_last_user_message state = Some user_message ->
  user_message <> EmptyString ->
  exists r t,
    draft_of
      (ConversationNodes.collect_appointment_details_with_ai date_parser B
         calendar_service env backend state) = Some r /\
    title r = Some t.
Proof.
  intros Hm Hne.
  rewrite (collect_draft date_parser B calendar_service env backend state
             user_message Hm Hne).
  eexists. unfold ConversationNodes.merge_draft.
  set (r0 := match draft_of state with Some r => r | None => fresh_request end).
  destruct (de_others
              (ConversationNodes.merge_fields date_parser (extraction env)
                 user_message r0)) as (Ht & _).
  pose proof (dt_sets_title user_message
                (ConversationNodes.fallback_duration date_parser user_message
                   (ConversationNodes.fallback_times date_parser user_message
                      (ConversationNodes.apply_extraction (extraction env) r0))))
    as Hs.
  fold (ConversationNodes.merge_fields date_parser (extraction env)
          user_message r0) in Hs.
  rewrite <- Ht in Hs.
  destruct (title (ConversationNodes.derive_end
                     (ConversationNodes.merge_fields date_parser
                        (extraction env) user_message r0))) as [t|] eqn:E;
    [|discriminate].
  exists t. split; [reflexivity | exact E].
Qed.

End MergeTheorems.

Lemma draft_merge_idempotent_witness :
  start_date
    (ConversationNodes.apply_extraction (Some Examples.start_and_end)
       fresh_request) <> None /\
  ConversationNodes.merge_draft Examples.sample_parser
    (Some Examples.start_and_end) "3-5 pm"
    (Some (ConversationNodes.merge_draft Examples.sample_parser
             (Some Examples.start_and_end) "3-5 pm" None))
  = ConversationNodes.merge_draft Examples.sample_parser
      (Some Examples.start_and_end) "3-5 pm" None.
Proof.
  assert (H : start_date
                (ConversationNodes.apply_extraction
                   (Some Examples.start_and_end) fresh_request) <> None)
    by (vm_compute; discriminate).
  split; [exact H|].
  exact (draft_merge_idempotent Examples.sample_parser
           (Some Examples.start_and_end) "3-5 pm" None (or_introl H)).
Defined.

(** C8, as stated, fails: with an extraction result that gives an end
    instant (18:00) but no start, and the utterance "3-5 pm", the first
    merge takes start and end from the parsed range (15:00 to 17:00), and
    the second, now that the start is known, keeps the extracted end
    (18:00). *)
Lemma draft_merge_counterexample :
  end_date
    (ConversationNodes.merge_draft Examples.sample_parser
       (Some Examples.end_only) "3-5 pm" None)
  = Some (Examples.at_ Examples.sunday 17 0) /\
  end_date
    (ConversationNodes.merge_draft Examples.sample_parser
       (Some Examples.end_only) "3-5 pm"
       (Some (ConversationNodes.merge_draft Examples.sample_parser
                (Some Examples.end_only) "3-5 pm" None)))
  = Some (Examples.at_ Examples.sunday 18 0) /\
  ConversationNodes.merge_draft Examples.sample_parser
    (Some Examples.end_only) "3-5 pm"
    (Some (ConversationNodes.merge_draft Examples.sample_parser
             (Some Examples.end_only) "3-5 pm" None))
  <> ConversationNodes.merge_draft Examples.sample_parser
       (Some Examples.end_only) "3-5 pm" None.
Proof.
  split; [reflexivity|]. split; [reflexivity|].
  intros H. apply (f_equal end_date) in H. vm_compute in H. discriminate.
Qed.



(** * Further properties of the code *)

(** ** The in-memory backend: search order, empty windows, bookings *)

Module MockMore.

Import MockCalendar.

Lemma StronglySorted_app {A : Type} (R : A -> A -> Prop) (l1 l2 : list A) :
  StronglySorted R l1 -> StronglySorted R l2 ->
  (forall a b, In a l1 -> In b l2 -> R a b) ->
  StronglySorted R (l1 ++ l2).
Proof.
  induction l1 as [|x l1 IH]; intros H1 H2 H12; [exact H2|].
  cbn [app]. apply StronglySorted_inv in H1. destruct H1 as [Hs Hx].
  constructor.
  - apply IH; [exact Hs | exact H2 |]. intros a b Ha Hb. apply H12; [now right | exact Hb].
  - apply Forall_app. split; [exact Hx|].
    apply Forall_forall. intros b Hb. apply H12; [now left | exact Hb].
Qed.

Lemma StronglySorted_filter {A : Type} (R : A -> A -> Prop) (f : A -> bool)
    (l : list A) :
  StronglySorted R l -> StronglySorted R (filter f l).
Proof.
  induction 1 as [|x l Hs IH Hx]; [constructor|]. cbn [filter].
  destruct (f x); [|exact IH]. constructor; [exact IH|].
  apply Forall_forall. intros y Hy. apply filter_In in Hy.
  rewrite Forall_forall in Hx. apply Hx. tauto.
Qed.

Lemma StronglySorted_map_seq {A : Type} (R : A -> A -> Prop) (f : nat -> A)
    (n : nat) :
  forall a,
    (forall i j, (i < j)%nat -> R (f i) (f j)) ->
    StronglySorted R (map f (seq a n)).
Proof.
  induction n as [|n IH]; intros a Hf; [constructor|]. cbn [seq map].
  constructor; [now apply IH|].
  apply Forall_forall. intros y Hy. apply in_map_iff in Hy.
  destruct Hy as (j & <- & Hj). apply in_seq in Hj. apply Hf. lia.
Qed.

(** The candidates of a day come in chronological order, whatever the
    duration. *)
Lemma day_slots_sorted (day : date) (d : Z) :
  StronglySorted by_start (_generate_day_slots day d).
Proof.
  rewrite MockFacts.generate_day_slots_eq. apply StronglySorted_map_seq.
  intros i j Hij. unfold by_start, slot_at. cbn [start_time].
  pose proof MockFacts.half_hour_pos. nia.
Qed.

(** What is known of a slot that the search returns for a positive
    duration. *)
Lemma search_slot_facts (self : t) (s e : datetime) (d : Z) (slot : TimeSlot) :
  0 < d ->
  In slot (resp_available_slots (get_availability self s e d)) ->
  exists day,
    date_of (start_time slot) = day /\ date_of (end_time slot) = day /\
    weekday day < 5 /\ date_of s <= day <= date_of e /\
    In slot (_generate_day_slots day d) /\
    duration_minutes slot = d /\
    end_time slot = start_time slot + timedelta_minutes d /\
    combine day business_hours_start <= start_time slot /\
    end_time slot <= combine day business_hours_end /\
    forall ev, In ev (values self) ->
      ~ (start_time slot < ev_end_time ev /\ end_time slot > ev_start_time ev).
Proof.
  intros Hd Hin.
  assert (Hno : forall ev, In ev (values self) ->
            ~ (start_time slot < ev_end_time ev
               /\ end_time slot > ev_start_time ev)).
  { apply MockFacts.get_availability_iff in Hin.
    destruct Hin as (_ & _ & _ & _ & Hno). exact Hno. }
  destruct (in_search_day _ _ _ _ _ Hd Hin)
    as (day & k & Hk & Hw & Hr & Hs & Hfit & Hg).
  exists day. subst slot.
  pose proof MockFacts.half_hour_pos as Hp.
  assert (Hk30 : 0 <= k * timedelta_minutes 30) by nia.
  assert (Hdpos : 0 < timedelta_minutes d).
  { unfold timedelta_minutes. pose proof usec_per_minute_pos. nia. }
  assert (Hopen : 0 <= business_hours_start) by discriminate.
  assert (Hclose : business_hours_end < usec_per_day) by reflexivity.
  unfold slot_at in *. cbn [start_time end_time duration_minutes] in *.
  replace (combine day business_hours_start + k * timedelta_minutes 30
           + timedelta_minutes d)
    with (combine day (business_hours_start + k * timedelta_minutes 30
                       + timedelta_minutes d)) in * by (unfold combine; lia).
  replace (combine day business_hours_start + k * timedelta_minutes 30)
    with (combine day (business_hours_start + k * timedelta_minutes 30))
    in * by (unfold combine; lia).
  rewrite !date_of_combine by lia.
  repeat split; try assumption; try lia; unfold combine; lia.
Qed.

Lemma availability_loop_sorted (self : t) (d : Z) (fuel : nat) :
  0 < d ->
  forall cur e, StronglySorted by_start (availability_loop self fuel cur e d).
Proof.
  intros Hd. induction fuel as [|fuel IH]; intros cur e; [constructor|].
  cbn [availability_loop].
  destruct (cur <=? e); [|constructor].
  destruct (weekday cur >=? 5); [apply IH|].
  apply StronglySorted_app.
  - apply StronglySorted_filter, day_slots_sorted.
  - apply IH.
  - intros a b Ha Hb.
    apply MockFacts.filter_conflicting_slots_iff in Ha. destruct Ha as [Ha _].
    apply MockFacts.in_generate_day_slots in Ha.
    destruct Ha as (k & Hk & Hfit & ->).
    apply MockFacts.availability_loop_in in Hb.
    destruct Hb as (day & Hr & _ & Hb).
    apply MockFacts.filter_conflicting_slots_iff in Hb. destruct Hb as [Hb _].
    apply MockFacts.in_generate_day_slots in Hb.
    destruct Hb as (k' & Hk' & _ & ->).
    unfold by_start, slot_at. cbn [start_time].
    pose proof MockFacts.half_hour_pos as Hp.
    assert (Hdpos : 0 < timedelta_minutes d).
    { unfold timedelta_minutes. pose proof usec_per_minute_pos. nia. }
    assert (0 <= k' * timedelta_minutes 30) by nia.
    assert (Hclose : business_hours_end < usec_per_day + business_hours_start)
      by reflexivity.
    assert (Hday : (cur + 1) * usec_per_day <= day * usec_per_day).
    { pose proof usec_per_day_pos. nia. }
    unfold combine in *. lia.
Qed.

End MockMore.

(** X1: for a positive duration the in-memory availability search
    returns its slots in chronological order: each starts strictly before
    every slot that follows it in the list. *)
Theorem availability_chronological (self : MockCalendar.t) (s e : datetime)
    (d : Z) :
  0 < d ->
  StronglySorted by_start
    (resp_available_slots (MockCalendar.get_availability self s e d)).
Proof.
  intros Hd. unfold MockCalendar.get_availability. cbn [resp_available_slots].
  apply MockMore.availability_loop_sorted. exact Hd.
Qed.

Lemma availability_chronological_witness :
  0 < 60 /\
  StronglySorted by_start
    (resp_available_slots
       (MockCalendar.get_availability Examples.seeded
          (Examples.at_ Examples.monday 0 0)
          (Examples.at_ Examples.monday 0 0 + timedelta_days 7) 60)).
Proof.
  assert (H : 0 < 60) by reflexivity.
  split; [exact H|].
  exact (availability_chronological Examples.seeded
           (Examples.at_ Examples.monday 0 0)
           (Examples.at_ Examples.monday 0 0 + timedelta_days 7) 60 H).
Defined.

Lemma no_member_nil {A : Type} (l : list A) :
  (forall x, ~ In x l) -> l = [].
Proof.
  destruct l as [|x l]; [reflexivity|]. intros H. elim (H x). now left.
Qed.

Lemma search_finds_nothing (self : MockCalendar.t) (s e : datetime) (d : Z) :
  (forall day, date_of s <= day <= date_of e -> 5 <= weekday day) \/ 540 < d ->
  resp_available_slots (MockCalendar.get_availability self s e d) = [].
Proof.
  intros H. apply no_member_nil. intros slot Hin.
  apply MockFacts.get_availability_iff in Hin.
  destruct Hin as (day & Hr & Hw & Hg & _).
  destruct H as [H|H].
  - specialize (H day Hr). lia.
  - apply MockFacts.in_generate_day_slots in Hg.
    destruct Hg as (k & Hk & Hfit & _).
    pose proof MockFacts.half_hour_pos as Hp.
    assert (0 <= k * timedelta_minutes 30) by nia.
    unfold combine, MockCalendar.business_hours_start,
      MockCalendar.business_hours_end, time_of, timedelta_minutes in *.
    pose proof usec_per_minute_pos. nia.
Qed.

(** X2: the in-memory availability search returns no slot when the
    days from the start's to the end's hold no weekday (in particular
    when the end's day precedes the start's), and when the duration
    exceeds the 540 minutes of a business day. *)
Theorem availability_empty_windows (self : MockCalendar.t) (s e : datetime)
    (d : Z) :
  (forall day, date_of s <= day <= date_of e -> 5 <= weekday day) \/ 540 < d ->
  resp_available_slots (MockCalendar.get_availability self s e d) = [].
Proof.
  intros H. apply search_finds_nothing. exact H.
Qed.

Lemma availability_empty_windows_witness :
  540 < 600 /\
  resp_available_slots
    (MockCalendar.get_availability Examples.seeded
       (Examples.at_ Examples.monday 9 0) (Examples.at_ Examples.monday 19 0)
       600) = [].
Proof.
  assert (H : 540 < 600) by reflexivity.
  split; [exact H|].
  exact (availability_empty_windows Examples.seeded
           (Examples.at_ Examples.monday 9 0)
           (Examples.at_ Examples.monday 19 0) 600 (or_intror H)).
Defined.

Section MockBookingMore.

Variable date_parser : DateParser.

Let book := MockCalendar.book_appointment date_parser.


Lemma in_values_dict_set (k : string) (v : CalendarEvent)
    (d : MockCalendar.t) :
  In v (MockCalendar.values (MockCalendar.dict_set k v d)).
Proof.
  induction d as [|[k' v'] d IH]; [now left|].
  cbn [MockCalendar.dict_set]. destruct (String.eqb k' k).
  - now left.
  - right. exact IH.
Qed.

(** Booking the interval of a slot the search returned. *)
Lemma book_offered_slot (self : MockCalendar.t) (s e : datetime)
    (d : Z) (slot : TimeSlot) (ts : Z) (t : string) (descr : option string)
    (att : option (list string)) :
  0 < d ->
  In slot (resp_available_slots (MockCalendar.get_availability self s e d)) ->
  success
    (fst (book self ts (Some t) (start_time slot) (end_time slot) descr att))
  = true /\
  exists ev,
    In ev
      (MockCalendar.values
         (snd (book self ts (Some t) (start_time slot) (end_time slot) descr
                 att))) /\
    ev_title ev = t /\
    ev_start_time ev = start_time slot /\ ev_end_time ev = end_time slot.
Proof.
  intros Hd Hin.
  destruct (MockMore.search_slot_facts _ _ _ _ _ Hd Hin)
    as (day & Hds & Hde & Hw & _ & Hg & Hdur & Hend & _ & _ & Hno).
  assert (Hdpos : 0 < timedelta_minutes d).
  { unfold timedelta_minutes. pose proof usec_per_minute_pos. nia. }
  assert (Hm : minutes_between (start_time slot) (end_time slot) = d).
  { rewrite Hend. apply minutes_between_add. }
  assert (Hself : In slot
            (resp_available_slots
               (MockCalendar.get_availability self (start_time slot)
                  (end_time slot) d))).
  { apply MockFacts.get_availability_iff. exists day.
    rewrite Hds, Hde. repeat split; try assumption; lia. }
  unfold book, MockCalendar.book_appointment.
  rewrite Z.geb_leb.
  destruct (Z.leb_spec (end_time slot) (start_time slot)); [lia|].
  rewrite Hm.
  destruct (resp_available_slots
              (MockCalendar.get_availability self (start_time slot)
                 (end_time slot) d)) as [|x l]; [destruct Hself|].
  cbn. split; [reflexivity|].
  eexists. split; [apply in_values_dict_set|]. repeat split.
Qed.

(** X4: every slot the in-memory search returns for a positive duration
    can be booked as it is: booking its interval under a title succeeds
    and stores an event with the slot's start and end. *)
Theorem offered_slot_is_bookable (self : MockCalendar.t) (s e : datetime)
    (d : Z) (slot : TimeSlot) (ts : Z) (t : string) (descr : option string)
    (att : option (list string)) :
  0 < d ->
  In slot (resp_available_slots (MockCalendar.get_availability self s e d)) ->
  success
    (fst (book self ts (Some t) (start_time slot) (end_time slot) descr att))
  = true /\
  exists ev,
    In ev
      (MockCalendar.values
         (snd (book self ts (Some t) (start_time slot) (end_time slot) descr
                 att))) /\
    ev_title ev = t /\
    ev_start_time ev = start_time slot /\ ev_end_time ev = end_time slot.
Proof. exact (book_offered_slot self s e d slot ts t descr att). Qed.

(** X5: once a booking has succeeded, the in-memory search offers no
    slot that overlaps the booked interval, whatever window and duration
    are asked for. *)
Theorem booked_interval_not_offered (self : MockCalendar.t) (ts : Z)
    (title : option string) (s e : datetime) (descr : option string)
    (att : option (list string)) (s' e' : datetime) (d' : Z)
    (slot : TimeSlot) :
  success (fst (book self ts title s e descr att)) = true ->
  In slot
    (resp_available_slots
       (MockCalendar.get_availability (snd (book self ts title s e descr att))
          s' e' d')) ->
  ~ (start_time slot < e /\ end_time slot > s).
Proof.
  intros Hok Hin.
  destruct (MockFacts.book_success_stored date_parser _ _ _ _ _ _ _ Hok)
    as (ev & Hstore & _ & _ & Hs & He & _).
  fold book in Hstore. rewrite Hstore in Hin.
  apply MockFacts.get_availability_iff in Hin.
  destruct Hin as (_ & _ & _ & _ & Hno).
  specialize (Hno ev (in_values_dict_set _ _ _)).
  rewrite Hs, He in Hno. exact Hno.
Qed.

(** X6: a successful booking can be listed: [get_events] over any
    window that contains the booked start returns an event with the
    booked start and end whose id is the one in the response. *)
Theorem booked_event_is_listed (self : MockCalendar.t) (ts : Z)
    (title : option string) (s e : datetime) (descr : option string)
    (att : option (list string)) (a b : datetime) :
  success (fst (book self ts title s e descr att)) = true ->
  a <= s <= b ->
  exists ev,
    In ev
      (MockCalendar.get_events (snd (book self ts title s e descr att)) a b) /\
    event_id (fst (book self ts title s e descr att)) = Some (ev_id ev) /\
    ev_start_time ev = s /\ ev_end_time ev = e.
Proof.
  intros Hok Hab.
  destruct (MockFacts.book_success_stored date_parser _ _ _ _ _ _ _ Hok)
    as (ev & Hstore & Hid & Hev & Hs & He & _).
  fold book in Hstore, Hid. exists ev. rewrite Hstore, Hid, Hev.
  split; [|repeat split; assumption].
  unfold MockCalendar.get_events. apply filter_In.
  split; [apply in_values_dict_set|].
  rewrite Hs, Z.geb_leb. apply andb_true_intro.
  split; apply Z.leb_le; lia.
Qed.

End MockBookingMore.


Lemma offered_slot_is_bookable_witness :
  0 < 60 /\
  In (Examples.hour_slot Examples.monday 9)
    (resp_available_slots
       (MockCalendar.get_availability Examples.seeded
          (Examples.at_ Examples.monday 10 0)
          (Examples.at_ Examples.monday 11 0) 60)) /\
  success
    (fst (MockCalendar.book_appointment Examples.sample_parser Examples.seeded
            1751803200 (Some "Standup")
            (start_time (Examples.hour_slot Examples.monday 9))
            (end_time (Examples.hour_slot Examples.monday 9)) None None))
  = true.
Proof.
  assert (H0 : 0 < 60) by reflexivity.
  assert (Hin : In (Examples.hour_slot Examples.monday 9)
                  (resp_available_slots
                     (MockCalendar.get_availability Examples.seeded
                        (Examples.at_ Examples.monday 10 0)
                        (Examples.at_ Examples.monday 11 0) 60))).
  { vm_compute. left. reflexivity. }
  split; [exact H0|]. split; [exact Hin|].
  exact (proj1 (offered_slot_is_bookable Examples.sample_parser Examples.seeded
                  _ _ 60 _ 1751803200 "Standup" None None H0 Hin)).
Defined.

Lemma booked_interval_not_offered_witness :
  success
    (fst (MockCalendar.book_appointment Examples.sample_parser Examples.seeded
            1751803200 (Some "Standup") (Examples.at_ Examples.monday 9 0)
            (Examples.at_ Examples.monday 10 0) None None)) = true /\
  ~ In (Examples.hour_slot Examples.monday 9)
      (resp_available_slots
         (MockCalendar.get_availability
            (snd (MockCalendar.book_appointment Examples.sample_parser
                    Examples.seeded 1751803200 (Some "Standup")
                    (Examples.at_ Examples.monday 9 0)
                    (Examples.at_ Examples.monday 10 0) None None))
            (Examples.at_ Examples.monday 0 0)
            (Examples.at_ Examples.monday 0 0) 60)).
Proof.
  split; [reflexivity|]. intros Hin.
  apply (booked_interval_not_offered Examples.sample_parser Examples.seeded
           1751803200 (Some "Standup") (Examples.at_ Examples.monday 9 0)
           (Examples.at_ Examples.monday 10 0) None None _ _ _ _ eq_refl Hin).
  vm_compute. split; reflexivity.
Defined.

Lemma booked_event_is_listed_witness :
  success
    (fst (MockCalendar.book_appointment Examples.sample_parser Examples.seeded
            1751803200 (Some "Standup") (Examples.at_ Examples.monday 9 0)
            (Examples.at_ Examples.monday 10 0) None None)) = true /\
  Examples.at_ Examples.monday 0 0 <= Examples.at_ Examples.monday 9 0
    <= Examples.at_ Examples.monday 12 0 /\
  exists ev,
    In ev
      (MockCalendar.get_events
         (snd (MockCalendar.book_appointment Examples.sample_parser
                 Examples.seeded 1751803200 (Some "Standup")
                 (Examples.at_ Examples.monday 9 0)
                 (Examples.at_ Examples.monday 10 0) None None))
         (Examples.at_ Examples.monday 0 0) (Examples.at_ Examples.monday 12 0)) /\
    ev_start_time ev = Examples.at_ Examples.monday 9 0.
Proof.
  assert (Hr : Examples.at_ Examples.monday 0 0
               <= Examples.at_ Examples.monday 9 0
               <= Examples.at_ Examples.monday 12 0)
    by (split; discriminate).
  split; [reflexivity|]. split; [exact Hr|].
  destruct (booked_event_is_listed Examples.sample_parser Examples.seeded
              1751803200 (Some "Standup") (Examples.at_ Examples.monday 9 0)
              (Examples.at_ Examples.monday 10 0) None None
              (Examples.at_ Examples.monday 0 0)
              (Examples.at_ Examples.monday 12 0) eq_refl Hr)
    as (ev & Hin & _ & Hs & _).
  exists ev. split; [exact Hin | exact Hs].
Defined.

(** ** The in-memory backend: the event store *)

Module StoreFacts.

Import MockCalendar.

Lemma keys_dict_set (k : string) (v : CalendarEvent) (d : t) :
  keys (dict_set k v d) = if dict_mem k d then keys d else (keys d ++ [k])%list.
Proof.
  induction d as [|[k' v'] d IH]; [reflexivity|].
  unfold dict_mem in *. cbn [dict_set existsb fst keys map].
  destruct (String.eqb_spec k' k) as [->|Hne]; cbn [orb keys map fst];
    [reflexivity|].
  fold (keys (dict_set k v d)). rewrite IH. fold (keys d).
  destruct (existsb _ d); reflexivity.
Qed.

Lemma dict_mem_keys (k : string) (d : t) :
  dict_mem k d = true <-> In k (keys d).
Proof.
  unfold dict_mem, keys. rewrite existsb_exists, in_map_iff. split.
  - intros ([k' v] & Hin & Heq). apply String.eqb_eq in Heq.
    exists (k', v). split; assumption.
  - intros ([k' v] & Heq & Hin). exists (k', v). split; [exact Hin|].
    apply String.eqb_eq. exact Heq.
Qed.

Lemma in_dict_set (k k0 : string) (v v0 : CalendarEvent) (d : t) :
  In (k, v) (dict_set k0 v0 d) -> (k, v) = (k0, v0) \/ In (k, v) d.
Proof.
  induction d as [|[k' v'] d IH]; cbn [dict_set].
  - intros [H|[]]. left. now symmetry.
  - destruct (String.eqb k' k0).
    + intros [H|H]; [left; now symmetry | right; now right].
    + intros [H|H]; [right; now left|].
      destruct (IH H) as [E|E]; [now left | right; now right].
Qed.

Lemma keys_dict_del (k : string) (d : t) :
  keys (dict_del k d) = filter (fun k' => negb (String.eqb k' k)) (keys d).
Proof.
  induction d as [|[k' v'] d IH]; [reflexivity|].
  unfold dict_del, keys in *. cbn [filter map fst].
  destruct (String.eqb k' k); cbn [negb map fst]; [exact IH|].
  f_equal. exact IH.
Qed.

Lemma well_keyed_dict_set (k : string) (v : CalendarEvent) (d : t) :
  ev_id v = k -> well_keyed d -> well_keyed (dict_set k v d).
Proof.
  intros Hid [Hnd Hk]. split.
  - rewrite keys_dict_set. destruct (dict_mem k d) eqn:E; [exact Hnd|].
    apply NoDup_app; [exact Hnd | repeat constructor; intros [] |].
    intros k' Hin [<-|[]]. apply dict_mem_keys in Hin. congruence.
  - intros k' ev Hin. apply in_dict_set in Hin. destruct Hin as [E|Hin].
    + injection E as -> ->. exact Hid.
    + now apply Hk.
Qed.

Lemma well_keyed_dict_del (k : string) (d : t) :
  well_keyed d -> well_keyed (dict_del k d).
Proof.
  intros [Hnd Hk]. split.
  - rewrite keys_dict_del. apply NoDup_filter. exact Hnd.
  - intros k' ev Hin. apply filter_In in Hin. now apply Hk.
Qed.

Lemma dict_del_absent (k : string) (d : t) :
  dict_mem k d = false -> dict_del k d = d.
Proof.
  induction d as [|[k' v'] d IH]; [reflexivity|].
  unfold dict_mem, dict_del in *. cbn [existsb filter fst].
  destruct (String.eqb k' k); cbn [orb negb]; [discriminate|].
  intros H. f_equal. now apply IH.
Qed.

Lemma dict_mem_del (k : string) (d : t) : dict_mem k (dict_del k d) = false.
Proof.
  destruct (dict_mem k (dict_del k d)) eqn:E; [|reflexivity].
  apply dict_mem_keys in E. rewrite keys_dict_del in E.
  apply filter_In in E. destruct E as [_ E].
  rewrite String.eqb_refl in E. discriminate.
Qed.

Lemma delete_after_set (k : string) (v : CalendarEvent) (d : t) :
  dict_mem k d = false -> delete_event (dict_set k v d) k = (true, d).
Proof.
  intros Hfresh. rewrite MockFacts.dict_set_keys_fresh by exact Hfresh.
  unfold delete_event.
  assert (Hmem : dict_mem k (d ++ [(k, v)])%list = true).
  { apply dict_mem_keys. unfold keys.
    rewrite map_app. apply in_or_app. right. now left. }
  rewrite Hmem. f_equal.
  unfold dict_del. rewrite filter_app. cbn [filter fst].
  rewrite String.eqb_refl. cbn [negb].
  rewrite app_nil_r. apply (dict_del_absent _ _ Hfresh).
Qed.

End StoreFacts.

(** X7: the event store of the in-memory backend stays well keyed: no
    id occurs twice and every event is filed under its own id.  This
    holds for the seeded store and is kept by every booking, successful or
    not, and by every deletion. *)
Theorem store_stays_well_keyed (date_parser : DateParser) :
  (forall today, well_keyed (MockCalendar._generate_mock_events today)) /\
  (forall self ts title s e descr att,
     well_keyed self ->
     well_keyed
       (snd (MockCalendar.book_appointment date_parser self ts title s e descr
               att))) /\
  (forall self event_id,
     well_keyed self ->
     well_keyed (snd (MockCalendar.delete_event self event_id))).
Proof.
  split; [|split].
  - intros today. split.
    + cbn. repeat constructor; cbn; intuition discriminate.
    + cbn. intros k ev [H|[H|[H|[H|[]]]]]; injection H as <- <-; reflexivity.
  - intros self ts title s e descr att Hwk.
    destruct (success
                (fst (MockCalendar.book_appointment date_parser self ts title s
                        e descr att))) eqn:Hok.
    + destruct (MockFacts.book_success_stored date_parser _ _ _ _ _ _ _ Hok)
        as (ev & Hstore & _ & Hid & _).
      rewrite Hstore. apply StoreFacts.well_keyed_dict_set; assumption.
    + rewrite MockFacts.book_failure_unchanged by exact Hok. exact Hwk.
  - intros self event_id Hwk. unfold MockCalendar.delete_event.
    destruct (MockCalendar.dict_mem event_id self); cbn [snd]; [|exact Hwk].
    apply StoreFacts.well_keyed_dict_del. exact Hwk.
Qed.

Lemma store_stays_well_keyed_witness :
  well_keyed Examples.seeded /\
  well_keyed
    (snd (MockCalendar.delete_event
            (snd (MockCalendar.book_appointment Examples.sample_parser
                    Examples.seeded 1751803200 (Some "Standup")
                    (Examples.at_ Examples.monday 9 0)
                    (Examples.at_ Examples.monday 10 0) None None))
            "mock_event_0")).
Proof.
  destruct (store_stays_well_keyed Examples.sample_parser)
    as (Hseed & Hbook & Hdel).
  split; [apply Hseed|]. apply Hdel, Hbook, Hseed.
Defined.

(** X8: deleting the event of a booking that succeeded under a new id
    restores the store exactly; and after [delete_event], whatever it
    returns, the id is no longer in the store. *)
Theorem book_then_delete_restores (date_parser : DateParser)
    (self : MockCalendar.t) (ts : Z) (title : option string) (s e : datetime)
    (descr : option string) (att : option (list string)) :
  (forall new_id,
     event_id
       (fst (MockCalendar.book_appointment date_parser self ts title s e descr
               att)) = Some new_id ->
     MockCalendar.dict_mem new_id self = false ->
     MockCalendar.delete_event
       (snd (MockCalendar.book_appointment date_parser self ts title s e descr
               att)) new_id
     = (true, self)) /\
  (forall any_id,
     MockCalendar.dict_mem any_id
       (snd (MockCalendar.delete_event self any_id)) = false).
Proof.
  split.
  - intros new_id Hid Hfresh.
    assert (Hok : success
                    (fst (MockCalendar.book_appointment date_parser self ts
                            title s e descr att)) = true).
    { revert Hid. unfold MockCalendar.book_appointment.
      destruct (s >=? e); [discriminate|].
      destruct (negb _); [discriminate|].
      destruct title; cbn; [reflexivity | discriminate]. }
    destruct (MockFacts.book_success_stored date_parser _ _ _ _ _ _ _ Hok)
      as (ev & Hstore & Hid' & _).
    rewrite Hid' in Hid. injection Hid as <-.
    rewrite Hstore. apply StoreFacts.delete_after_set. exact Hfresh.
  - intros any_id. unfold MockCalendar.delete_event.
    destruct (MockCalendar.dict_mem any_id self) eqn:E; cbn [snd];
      [apply StoreFacts.dict_mem_del | exact E].
Qed.

Lemma book_then_delete_restores_witness :
  event_id
    (fst (MockCalendar.book_appointment Examples.sample_parser Examples.seeded
            1751803200 (Some "Standup") (Examples.at_ Examples.monday 9 0)
            (Examples.at_ Examples.monday 10 0) None None))
  = Some "event_4_1751803200" /\
  MockCalendar.dict_mem "event_4_1751803200" Examples.seeded = false /\
  MockCalendar.delete_event
    (snd (MockCalendar.book_appointment Examples.sample_parser Examples.seeded
            1751803200 (Some "Standup") (Examples.at_ Examples.monday 9 0)
            (Examples.at_ Examples.monday 10 0) None None))
    "event_4_1751803200"
  = (true, Examples.seeded).
Proof.
  split; [reflexivity|]. split; [reflexivity|].
  exact (proj1 (book_then_delete_restores Examples.sample_parser
                  Examples.seeded 1751803200 (Some "Standup")
                  (Examples.at_ Examples.monday 9 0)
                  (Examples.at_ Examples.monday 10 0) None None)
           "event_4_1751803200" eq_refl eq_refl).
Defined.

Lemma in_firstn {A : Type} (n : nat) (l : list A) (x : A) :
  In x (firstn n l) -> In x l.
Proof.
  intros H. rewrite <- (firstn_skipn n l). apply in_or_app. now left.
Qed.

Lemma StronglySorted_firstn {A : Type} (R : A -> A -> Prop) (n : nat)
    (l : list A) :
  StronglySorted R l -> StronglySorted R (firstn n l).
Proof.
  revert l. induction n as [|n IH]; intros l H; [constructor|].
  destruct l as [|x l]; [constructor|]. cbn [firstn].
  apply StronglySorted_inv in H. destruct H as [Hs Hx].
  constructor; [now apply IH|].
  apply Forall_forall. intros y Hy. rewrite Forall_forall in Hx.
  apply Hx. eapply in_firstn. exact Hy.
Qed.

(** X9: for a positive duration [get_next_available_slot] returns the
    earliest slot the seven-day search finds: a slot of the search that
    overlaps no stored event and starts no later than any other; and it
    returns nothing only when the search finds nothing. *)
Theorem next_available_slot_is_earliest (now : datetime)
    (self : MockCalendar.t) (d : Z) (preferred : option datetime) :
  0 < d ->
  match MockCalendar.get_next_available_slot now self d preferred with
  | Some slot =>
      In slot
        (resp_available_slots
           (MockCalendar.get_availability self
              (match preferred with Some p => p | None => now end)
              (match preferred with Some p => p | None => now end
               + timedelta_days 7) d)) /\
      (forall ev, In ev (MockCalendar.values self) ->
         ~ (start_time slot < ev_end_time ev
            /\ end_time slot > ev_start_time ev)) /\
      (forall other,
         In other
           (resp_available_slots
              (MockCalendar.get_availability self
                 (match preferred with Some p => p | None => now end)
                 (match preferred with Some p => p | None => now end
                  + timedelta_days 7) d)) ->
         start_time slot <= start_time other)
  | None =>
      resp_available_slots
        (MockCalendar.get_availability self
           (match preferred with Some p => p | None => now end)
           (match preferred with Some p => p | None => now end
            + timedelta_days 7) d) = []
  end.
Proof.
  intros Hd. unfold MockCalendar.get_next_available_slot. cbv zeta.
  set (start := match preferred with Some p => p | None => now end).
  pose proof (MockMore.availability_loop_sorted self d
                (Z.to_nat (date_of (start + timedelta_days 7) - date_of start + 1))
                Hd (date_of start) (date_of (start + timedelta_days 7)))
    as Hsorted.
  pose proof (MockFacts.get_availability_iff self start
                (start + timedelta_days 7) d) as Hiff.
  unfold MockCalendar.get_availability in *. cbn [resp_available_slots] in *.
  destruct (MockCalendar.availability_loop _ _ _ _ _) as [|slot rest];
    [reflexivity|].
  split; [now left|]. split.
  - destruct (proj1 (Hiff slot) (or_introl eq_refl))
      as (_ & _ & _ & _ & Hno). exact Hno.
  - intros other [<-|Hin]; [lia|].
    apply StronglySorted_inv in Hsorted. destruct Hsorted as [_ Hall].
    rewrite Forall_forall in Hall. specialize (Hall other Hin).
    unfold by_start in Hall. lia.
Qed.

Lemma next_available_slot_is_earliest_witness :
  0 < 60 /\
  In (Examples.hour_slot Examples.monday 9)
    (resp_available_slots
       (MockCalendar.get_availability Examples.seeded
          (Examples.at_ Examples.sunday 12 0)
          (Examples.at_ Examples.sunday 12 0 + timedelta_days 7) 60)) /\
  forall other,
    In other
      (resp_available_slots
         (MockCalendar.get_availability Examples.seeded
            (Examples.at_ Examples.sunday 12 0)
            (Examples.at_ Examples.sunday 12 0 + timedelta_days 7) 60)) ->
    start_time (Examples.hour_slot Examples.monday 9) <= start_time other.
Proof.
  assert (H : 0 < 60) by reflexivity.
  split; [exact H|].
  pose proof (next_available_slot_is_earliest
                (Examples.at_ Examples.sunday 12 0) Examples.seeded 60 None H)
    as Hn.
  assert (E : MockCalendar.get_next_available_slot
                (Examples.at_ Examples.sunday 12 0) Examples.seeded 60 None
              = Some (Examples.hour_slot Examples.monday 9))
    by (vm_compute; reflexivity).
  rewrite E in Hn. destruct Hn as (Hin & _ & Hmin).
  split; [exact Hin | exact Hmin].
Defined.

(** X10: for a positive duration [suggest_alternative_times] returns at
    most five slots, in chronological order, none of which overlaps a
    stored event; they are the first slots of the five-day search. *)
Theorem alternative_times_are_free (self : MockCalendar.t)
    (requested : datetime) (d : Z) :
  0 < d ->
  (List.length (MockCalendar.suggest_alternative_times self requested d) <= 5)%nat /\
  StronglySorted by_start
    (MockCalendar.suggest_alternative_times self requested d) /\
  (exists rest,
     resp_available_slots
       (MockCalendar.get_availability self requested
          (requested + timedelta_days 5) d)
     = (MockCalendar.suggest_alternative_times self requested d ++ rest)%list) /\
  forall slot ev,
    In slot (MockCalendar.suggest_alternative_times self requested d) ->
    In ev (MockCalendar.values self) ->
    ~ (start_time slot < ev_end_time ev /\ end_time slot > ev_start_time ev).
Proof.
  intros Hd. unfold MockCalendar.suggest_alternative_times. cbv zeta.
  split; [apply firstn_le_length|]. split.
  - apply StronglySorted_firstn. unfold MockCalendar.get_availability.
    cbn [resp_available_slots].
    apply MockMore.availability_loop_sorted. exact Hd.
  - split.
    + eexists. symmetry. apply firstn_skipn.
    + intros slot ev Hin Hev. apply in_firstn in Hin.
      apply MockFacts.get_availability_iff in Hin.
      destruct Hin as (_ & _ & _ & _ & Hno). now apply Hno.
Qed.

Lemma alternative_times_are_free_witness :
  0 < 60 /\
  (List.length
     (MockCalendar.suggest_alternative_times Examples.seeded
        (Examples.at_ Examples.monday 10 0) 60) <= 5)%nat /\
  StronglySorted by_start
    (MockCalendar.suggest_alternative_times Examples.seeded
       (Examples.at_ Examples.monday 10 0) 60).
Proof.
  assert (H : 0 < 60) by reflexivity.
  split; [exact H|].
  destruct (alternative_times_are_free Examples.seeded
              (Examples.at_ Examples.monday 10 0) 60 H) as (Hl & Hs & _).
  split; [exact Hl | exact Hs].
Defined.

(** ** Validation of slots, ranges and requests *)

Lemma horizon_pos : 0 < timedelta_days InputValidator.max_days_ahead.
Proof. reflexivity. Qed.

(** X11: [validate_time_slot] accepts a slot exactly when its
    [duration_minutes] lies within 15 to 240 (bounds included), its start
    is before its end, not before now and at most 90 days after now;
    [validate_date_range] accepts a range exactly when its start is before
    its end, not before now and at most 90 days after now. *)
Theorem slot_and_range_validation (now : datetime) :
  (forall slot,
     fst (InputValidator.validate_time_slot now slot) = true <->
     15 <= duration_minutes slot <= 240 /\
     start_time slot < end_time slot /\
     now <= start_time slot <= now + timedelta_days 90) /\
  (forall s e,
     fst (InputValidator.validate_date_range now s e) = true <->
     s < e /\ now <= s <= now + timedelta_days 90).
Proof.
  split.
  - intros slot. unfold InputValidator.validate_time_slot,
      InputValidator.min_duration, InputValidator.max_duration,
      InputValidator.max_days_ahead.
    rewrite Z.geb_leb, !Z.gtb_ltb.
    destruct (Z.ltb_spec (duration_minutes slot) 15);
      [cbn [fst]; split; [discriminate | lia]|].
    destruct (Z.ltb_spec 240 (duration_minutes slot));
      [cbn [fst]; split; [discriminate | lia]|].
    destruct (Z.leb_spec (end_time slot) (start_time slot));
      [cbn [fst]; split; [discriminate | lia]|].
    destruct (Z.ltb_spec (start_time slot) now);
      [cbn [fst]; split; [discriminate | lia]|].
    destruct (Z.ltb_spec (now + timedelta_days 90) (start_time slot));
      cbn [fst]; split; try discriminate; try lia; reflexivity.
  - intros s e. unfold InputValidator.validate_date_range,
      InputValidator.max_days_ahead.
    rewrite Z.geb_leb, Z.gtb_ltb.
    destruct (Z.leb_spec e s); [cbn [fst]; split; [discriminate | lia]|].
    destruct (Z.ltb_spec s now); [cbn [fst]; split; [discriminate | lia]|].
    destruct (Z.ltb_spec (now + timedelta_days 90) s);
      cbn [fst]; split; try discriminate; try lia; reflexivity.
Qed.

(** X12: [get_validation_errors] and [validate_appointment_request]
    agree: the list of errors is empty exactly when the request is
    accepted, and for a request that has a start or an end the message of
    a refusal is the first error of the list. *)
Theorem validation_errors_agree (now : datetime) (r : AppointmentRequest) :
  (InputValidator.get_validation_errors now r = [] <->
   fst (InputValidator.validate_appointment_request now r) = true) /\
  (start_date r <> None \/ end_date r <> None ->
   hd_error (InputValidator.get_validation_errors now r)
   = snd (InputValidator.validate_appointment_request now r)).
Proof.
  pose proof horizon_pos as Hh.
  unfold InputValidator.get_validation_errors,
    InputValidator.validate_appointment_request.
  destruct r as [ti de [s|] [e|] [d|] att];
    cbn [start_date end_date ar_duration_minutes];
    rewrite ?Z.geb_leb, ?Z.gtb_ltb;
    try (destruct (Z.eqb_spec d 0); cbn [negb]);
    try (destruct (Z.ltb_spec d InputValidator.min_duration));
    try (destruct (Z.ltb_spec InputValidator.max_duration d));
    try (destruct (Z.leb_spec e s));
    try (destruct (Z.ltb_spec s now));
    try (destruct
           (Z.ltb_spec (now + timedelta_days InputValidator.max_days_ahead) s));
    try lia;
    cbn; (split; [split; intros Hx; first [reflexivity | discriminate Hx]
                 | intros [Hx|Hx]; first [reflexivity | now elim Hx]]).
Qed.

Lemma validation_errors_agree_witness :
  (start_date Examples.five_minutes <> None \/
   end_date Examples.five_minutes <> None) /\
  hd_error
    (InputValidator.get_validation_errors (Examples.at_ Examples.sunday 12 0)
       Examples.five_minutes)
  = snd (InputValidator.validate_appointment_request
           (Examples.at_ Examples.sunday 12 0) Examples.five_minutes).
Proof.
  assert (H : start_date Examples.five_minutes <> None \/
              end_date Examples.five_minutes <> None)
    by (left; discriminate).
  split; [exact H|].
  exact (proj2 (validation_errors_agree (Examples.at_ Examples.sunday 12 0)
                  Examples.five_minutes) H).
Defined.

(** ** Business hours *)

Lemma hour_of_bounds (dt : datetime) (h : Z) :
  (h <= InputValidator.hour_of dt <-> time_of h 0 <= time_of_day dt) /\
  (InputValidator.hour_of dt < h <-> time_of_day dt < time_of h 0).
Proof.
  unfold InputValidator.hour_of, time_of, timedelta_minutes.
  assert (Hp : 0 < 60 * usec_per_minute) by reflexivity.
  pose proof (Z.div_mod (time_of_day dt) (60 * usec_per_minute)) as Hdm.
  pose proof (Z.mod_pos_bound (time_of_day dt) (60 * usec_per_minute) Hp) as Hb.
  set (q := time_of_day dt / (60 * usec_per_minute)) in *.
  set (r := time_of_day dt mod (60 * usec_per_minute)) in *.
  assert (Heq : time_of_day dt = 60 * usec_per_minute * q + r) by (apply Hdm; lia).
  replace ((h * 60 + 0) * usec_per_minute) with (60 * usec_per_minute * h) by lia.
  rewrite Heq. split; split; intros H; nia.
Qed.

(** X13: the two [is_business_hours] functions, the validator's (which
    looks at [dt.hour]) and the date parser's (which compares [dt.time()]
    with 9:00 and 18:00), agree on every datetime. *)
Theorem business_hours_checks_agree (dt : datetime) :
  InputValidator.is_business_hours dt = DateParserCode.is_business_hours dt.
Proof.
  unfold InputValidator.is_business_hours, DateParserCode.is_business_hours.
  destruct (weekday (date_of dt) >=? 5); [reflexivity|]. cbv zeta.
  unfold InputValidator.business_hours_start, InputValidator.business_hours_end.
  destruct (hour_of_bounds dt 9) as [H9 _].
  destruct (hour_of_bounds dt 18) as [_ H18].
  destruct (Z.leb_spec 9 (InputValidator.hour_of dt));
    destruct (Z.leb_spec (time_of 9 0) (time_of_day dt)); try lia;
    destruct (Z.ltb_spec (InputValidator.hour_of dt) 18);
    destruct (Z.ltb_spec (time_of_day dt) (time_of 18 0)); try lia;
    reflexivity.
Qed.

(** X14: for a positive duration, every slot the in-memory search
    returns starts within business hours as [is_business_hours] judges
    it. *)
Theorem offered_slots_in_business_hours (self : MockCalendar.t)
    (s e : datetime) (d : Z) (slot : TimeSlot) :
  0 < d ->
  In slot (resp_available_slots (MockCalendar.get_availability self s e d)) ->
  InputValidator.is_business_hours (start_time slot) = true.
Proof.
  intros Hd Hin.
  destruct (MockMore.search_slot_facts _ _ _ _ _ Hd Hin)
    as (day & Hds & _ & Hw & _ & _ & _ & Hend & Hlo & Hhi & _).
  assert (Hdpos : 0 < timedelta_minutes d).
  { unfold timedelta_minutes. pose proof usec_per_minute_pos. nia. }
  assert (Htod : time_of_day (start_time slot)
                 = start_time slot - day * usec_per_day).
  { replace (start_time slot)
      with (combine day (start_time slot - day * usec_per_day))
      at 1 by (unfold combine; lia).
    apply time_of_day_combine.
    assert (MockCalendar.business_hours_end < usec_per_day) by reflexivity.
    assert (0 <= MockCalendar.business_hours_start) by discriminate.
    unfold combine in *. lia. }
  unfold InputValidator.is_business_hours. rewrite Hds, Z.geb_leb.
  destruct (Z.leb_spec 5 (weekday day)); [lia|]. cbv zeta.
  unfold InputValidator.business_hours_start, InputValidator.business_hours_end.
  destruct (hour_of_bounds (start_time slot) 9) as [H9 _].
  destruct (hour_of_bounds (start_time slot) 18) as [_ H18].
  apply andb_true_intro. split.
  - apply Z.leb_le, H9. rewrite Htod.
    unfold combine, MockCalendar.business_hours_start in Hlo. lia.
  - apply Z.ltb_lt, H18. rewrite Htod.
    unfold combine, MockCalendar.business_hours_end in Hhi. lia.
Qed.

Lemma offered_slots_in_business_hours_witness :
  0 < 60 /\
  In (Examples.hour_slot Examples.monday 9)
    (resp_available_slots
       (MockCalendar.get_availability Examples.seeded
          (Examples.at_ Examples.monday 10 0)
          (Examples.at_ Examples.monday 11 0) 60)) /\
  InputValidator.is_business_hours
    (start_time (Examples.hour_slot Examples.monday 9)) = true.
Proof.
  assert (H0 : 0 < 60) by reflexivity.
  assert (Hin : In (Examples.hour_slot Examples.monday 9)
                  (resp_available_slots
                     (MockCalendar.get_availability Examples.seeded
                        (Examples.at_ Examples.monday 10 0)
                        (Examples.at_ Examples.monday 11 0) 60))).
  { vm_compute. left. reflexivity. }
  split; [exact H0|]. split; [exact Hin|].
  exact (offered_slots_in_business_hours Examples.seeded _ _ 60 _ H0 Hin).
Defined.

(** ** The date parser's relative dates and slots *)

Lemma weekday_range (d : date) : 0 <= weekday d < 7.
Proof. unfold weekday. apply Z.mod_pos_bound. reflexivity. Qed.

Lemma nine_oclock (d : date) :
  time_of_day (combine d (time_of 9 0)) = time_of 9 0 /\
  date_of (combine d (time_of 9 0)) = d.
Proof.
  assert (H : 0 <= time_of 9 0 < usec_per_day) by (split; [discriminate | reflexivity]).
  split; [apply time_of_day_combine | apply date_of_combine]; exact H.
Qed.

Lemma some_inj {A : Type} (a b : A) : Some a = Some b -> a = b.
Proof. congruence. Qed.

(** X15: whatever the text, a date that [_parse_relative_date] returns
    is at 9:00 on a day from the parser's today to thirteen days after
    it. *)
Theorem relative_dates_are_at_nine (now : datetime) (text : string)
    (dt : datetime) :
  DateParserCode._parse_relative_date now text = Some dt ->
  time_of_day dt = time_of 9 0 /\
  date_of now <= date_of dt <= date_of now + 13.
Proof.
  unfold DateParserCode._parse_relative_date. cbv zeta.
  pose proof (weekday_range (date_of now)) as Hw.
  pose proof (weekday_range (date_of now + 7)) as Hw7.
  destruct (Py.contains "tomorrow" text);
    [|destruct (Py.contains "next day" text);
      [|destruct (Py.contains "next week" text);
        [|destruct (Py.contains "this week" text);
          [|destruct (Py.contains "today" text); [|discriminate]]]]];
    intros H; apply some_inj in H; subst dt;
    match goal with
    | |- context [combine ?d (time_of 9 0)] =>
        destruct (nine_oclock d) as [-> ->]
    end;
    (split; [reflexivity|]).
  - lia.
  - lia.
  - destruct (Z.eqb_spec (7 - weekday (date_of now + 7)) 7); lia.
  - rewrite Z.geb_leb. destruct (Z.leb_spec 5 (weekday (date_of now))); lia.
  - lia.
Qed.

Lemma relative_dates_are_at_nine_witness :
  DateParserCode._parse_relative_date (Examples.at_ Examples.sunday 12 0)
    "tomorrow at 3pm for 1 hour"
  = Some (Examples.at_ Examples.monday 9 0) /\
  time_of_day (Examples.at_ Examples.monday 9 0) = time_of 9 0.
Proof.
  assert (H : DateParserCode._parse_relative_date
                (Examples.at_ Examples.sunday 12 0)
                "tomorrow at 3pm for 1 hour"
              = Some (Examples.at_ Examples.monday 9 0)) by reflexivity.
  split; [exact H|].
  exact (proj1 (relative_dates_are_at_nine _ _ _ H)).
Defined.

Lemma next_monday_weekday (d : date) :
  weekday
    (d + (if 7 - weekday d =? 7 then 0 else 7 - weekday d)) = 0.
Proof.
  pose proof (weekday_range d) as Hw. unfold weekday in *.
  pose proof (Z.div_mod d 7) as Hdm.
  destruct (Z.eqb_spec (7 - d mod 7) 7) as [E|E].
  - rewrite Z.add_0_r. lia.
  - replace (d + (7 - d mod 7)) with ((d / 7 + 1) * 7) by lia.
    apply Z.mod_mul. discriminate.
Qed.

(** X16: in a text without "tomorrow" and "next day", "next week" is
    read as 9:00 on a Monday, seven to thirteen days after the parser's
    today; failing that, "this week" is read as 9:00 on the next day from
    Monday to Friday and on the next Monday at weekends, so that it falls
    on a Saturday exactly when the parser's today is a Friday. *)
Theorem relative_weeks (now : datetime) (text : string) :
  Py.contains "tomorrow" text = false ->
  Py.contains "next day" text = false ->
  (Py.contains "next week" text = true ->
   exists day,
     DateParserCode._parse_relative_date now text
     = Some (combine day (time_of 9 0)) /\
     weekday day = 0 /\ date_of now + 7 <= day <= date_of now + 13) /\
  (Py.contains "next week" text = false ->
   Py.contains "this week" text = true ->
   exists day,
     DateParserCode._parse_relative_date now text
     = Some (combine day (time_of 9 0)) /\
     (weekday (date_of now) < 5 -> day = date_of now + 1) /\
     (5 <= weekday (date_of now) -> weekday day = 0) /\
     (5 <= weekday day <-> weekday (date_of now) = 4)).
Proof.
  intros Ht Hn. unfold DateParserCode._parse_relative_date. cbv zeta.
  rewrite Ht, Hn. pose proof (weekday_range (date_of now)) as Hw.
  split.
  - intros ->. eexists. split; [reflexivity|]. split.
    + change (date_of now + 7
              + (if 7 - weekday (date_of now + 7) =? 7 then 0
                 else 7 - weekday (date_of now + 7)))
        with ((date_of now + 7)
              + (if 7 - weekday (date_of now + 7) =? 7 then 0
                 else 7 - weekday (date_of now + 7))).
      apply next_monday_weekday.
    + pose proof (weekday_range (date_of now + 7)).
      destruct (Z.eqb_spec (7 - weekday (date_of now + 7)) 7); lia.
  - intros -> ->. eexists. split; [reflexivity|].
    rewrite Z.geb_leb.
    destruct (Z.leb_spec 5 (weekday (date_of now))) as [Hwe|Hwd].
    + assert (Hm : weekday (date_of now + (7 - weekday (date_of now))) = 0).
      { pose proof (next_monday_weekday (date_of now)) as Hm.
        destruct (Z.eqb_spec (7 - weekday (date_of now)) 7); [lia | exact Hm]. }
      split; [lia|]. split; [intros _; exact Hm|]. rewrite Hm. lia.
    + split; [reflexivity|]. split; [lia|].
      unfold weekday in *.
      pose proof (Z.div_mod (date_of now) 7).
      pose proof (Z.div_mod (date_of now + 1) 7).
      pose proof (Z.mod_pos_bound (date_of now + 1) 7).
      lia.
Qed.

Lemma relative_weeks_witness :
  Py.contains "tomorrow" "a call next week" = false /\
  Py.contains "next day" "a call next week" = false /\
  Py.contains "next week" "a call next week" = true /\
  exists day,
    DateParserCode._parse_relative_date (Examples.at_ Examples.sunday 12 0)
      "a call next week"
    = Some (combine day (time_of 9 0)) /\
    weekday day = 0.
Proof.
  repeat (split; [reflexivity|]).
  destruct (proj1 (relative_weeks (Examples.at_ Examples.sunday 12 0)
                     "a call next week" eq_refl eq_refl) eq_refl)
    as (day & Hp & Hw & _).
  exists day. split; [exact Hp | exact Hw].
Defined.

Lemma business_slots_loop_eq (fuel : nat) :
  forall cur e d,
    DateParserCode.business_slots_loop fuel cur e d
    = map (fun slot => (start_time slot, end_time slot))
        (MockCalendar.day_slots_loop fuel cur e d).
Proof.
  induction fuel as [|fuel IH]; intros cur e d; [reflexivity|].
  cbn [DateParserCode.business_slots_loop MockCalendar.day_slots_loop].
  destruct (cur + timedelta_minutes d <=? e); [|reflexivity].
  cbn [map start_time end_time]. f_equal. apply IH.
Qed.

(** X17: the date parser's [get_business_hours_slots] yields nothing at
    weekends and otherwise the intervals of the candidate slots that the
    calendar backends generate for that day, in the same order. *)
Theorem parser_slots_match_backend (dt : datetime) (d : Z) :
  DateParserCode.get_business_hours_slots dt d
  = if weekday (date_of dt) >=? 5 then []
    else map (fun slot => (start_time slot, end_time slot))
           (MockCalendar._generate_day_slots (date_of dt) d).
Proof.
  unfold DateParserCode.get_business_hours_slots. cbv zeta.
  destruct (weekday (date_of dt) >=? 5); [reflexivity|].
  apply business_slots_loop_eq.
Qed.

(** ** Input sanitization *)

Module SanitizeFacts.

Import Py.

Lemma has_char_remove_same (c : ascii) (s : string) :
  has_char c (remove_char c s) = false.
Proof.
  induction s as [|x s IH]; [reflexivity|]. cbn [remove_char].
  destruct (Ascii.eqb x c) eqn:E; [exact IH|].
  cbn [has_char]. rewrite E, IH. reflexivity.
Qed.

Lemma has_char_remove_other (c c' : ascii) (s : string) :
  has_char c s = false -> has_char c (remove_char c' s) = false.
Proof.
  induction s as [|x s IH]; [reflexivity|]. cbn [has_char remove_char].
  intros H. apply orb_false_elim in H. destruct H as [Hx Hs].
  destruct (Ascii.eqb x c'); [now apply IH|].
  cbn [has_char]. rewrite Hx, (IH Hs). reflexivity.
Qed.

Lemma remove_char_absent (c : ascii) (s : string) :
  has_char c s = false -> remove_char c s = s.
Proof.
  induction s as [|x s IH]; [reflexivity|]. cbn [has_char remove_char].
  intros H. apply orb_false_elim in H. destruct H as [Hx Hs].
  rewrite Hx, (IH Hs). reflexivity.
Qed.

Lemma fold_keeps_absent (c : ascii) (cs : list ascii) :
  forall s, has_char c s = false ->
            has_char c (fold_left (fun t x => remove_char x t) cs s) = false.
Proof.
  induction cs as [|x cs IH]; intros s H; [exact H|].
  cbn [fold_left]. apply IH. now apply has_char_remove_other.
Qed.

Lemma fold_removes (c : ascii) (cs : list ascii) :
  forall s, In c cs ->
            has_char c (fold_left (fun t x => remove_char x t) cs s) = false.
Proof.
  induction cs as [|x cs IH]; intros s Hin; [destruct Hin|].
  cbn [fold_left]. destruct Hin as [->|Hin].
  - apply fold_keeps_absent, has_char_remove_same.
  - now apply IH.
Qed.

Lemma fold_absent (cs : list ascii) :
  forall s, (forall c, In c cs -> has_char c s = false) ->
            fold_left (fun t x => remove_char x t) cs s = s.
Proof.
  induction cs as [|x cs IH]; intros s H; [reflexivity|].
  cbn [fold_left]. rewrite remove_char_absent by (apply H; now left).
  apply IH. intros c Hc. apply H. now right.
Qed.

Lemma take_spec (n : nat) :
  forall s,
    (String.length (take n s) <= n)%nat /\
    (String.length (take n s) <= String.length s)%nat /\
    ((String.length s <= n)%nat -> take n s = s) /\
    (forall c, has_char c s = false -> has_char c (take n s) = false).
Proof.
  induction n as [|n IH]; intros s.
  - cbn [take String.length has_char].
    split; [lia|]. split; [lia|]. split; [|reflexivity].
    intros H. destruct s; [reflexivity | cbn in H; lia].
  - destruct s as [|x s].
    + cbn [take String.length has_char].
      split; [lia|]. split; [lia|]. split; [reflexivity|]. reflexivity.
    + destruct (IH s) as (H1 & H2 & H3 & H4).
      cbn [take String.length has_char].
      split; [lia|]. split; [lia|]. split.
      * intros H. f_equal. apply H3. lia.
      * intros c H. apply orb_false_elim in H. destruct H as [Hx Hs].
        rewrite Hx, (H4 c Hs). reflexivity.
Qed.

Lemma lstrip_spec (s : string) :
  (String.length (lstrip s) <= String.length s)%nat /\
  (forall c, has_char c s = false -> has_char c (lstrip s) = false) /\
  match lstrip s with
  | EmptyString => True
  | String c _ => isspace c = false
  end.
Proof.
  induction s as [|x s (H1 & H2 & H3)]; [cbn; repeat split; lia|].
  cbn [lstrip]. destruct (isspace x) eqn:E.
  - cbn [String.length has_char]. repeat split; [lia | | exact H3].
    intros c H. apply orb_false_elim in H. now apply H2.
  - repeat split; [lia | | exact E]. intros c H. exact H.
Qed.

Lemma rstrip_spec (s : string) :
  (String.length (rstrip s) <= String.length s)%nat /\
  (forall c, has_char c s = false -> has_char c (rstrip s) = false) /\
  (match s with
   | EmptyString => True
   | String c _ =>
       isspace c = false -> exists rest, rstrip s = String c rest
   end) /\
  rstrip (rstrip s) = rstrip s.
Proof.
  induction s as [|x s (H1 & H2 & H3 & H4)]; [cbn; repeat split; lia|].
  cbn [rstrip]. destruct (rstrip s) as [|c' r'] eqn:E.
  - destruct (isspace x) eqn:Ex.
    + split; [cbn; lia|]. split; [reflexivity|]. split; [discriminate|].
      reflexivity.
    + split; [cbn; lia|]. split; [|split].
      * intros c H. cbn [has_char] in *. apply orb_false_elim in H.
        destruct H as [-> _]. reflexivity.
      * intros _. eexists. reflexivity.
      * cbn [rstrip]. rewrite Ex. reflexivity.
  - split; [cbn [String.length] in *; lia|]. split; [|split].
    + intros c H. cbn [has_char] in H. apply orb_false_elim in H.
      destruct H as [Hx Hs]. specialize (H2 c Hs).
      change (has_char c (String x (String c' r')))
        with (Ascii.eqb x c || has_char c (String c' r')).
      rewrite Hx, H2. reflexivity.
    + intros _. eexists. reflexivity.
    + change (rstrip (String x (String c' r')))
        with (match rstrip (String c' r') with
              | EmptyString =>
                  if isspace x then EmptyString else String x EmptyString
              | String c2 r2 => String x (String c2 r2)
              end).
      rewrite H4. reflexivity.
Qed.

(** [strip] leaves nothing for [lstrip] or [rstrip] to remove. *)
Lemma strip_clean (s : string) :
  lstrip (strip s) = strip s /\ rstrip (strip s) = strip s.
Proof.
  unfold strip. split; [|apply rstrip_spec].
  destruct (lstrip_spec s) as (_ & _ & Hhead).
  destruct (lstrip s) as [|c r] eqn:E; [reflexivity|].
  destruct (rstrip_spec (String c r)) as (_ & _ & Hkeep & _).
  destruct (Hkeep Hhead) as [rest ->]. cbn [lstrip]. rewrite Hhead.
  reflexivity.
Qed.

End SanitizeFacts.

Lemma sanitized_input_core (text : string) :
  (forall c, In c InputValidator.dangerous_chars ->
             Py.has_char c (InputValidator.sanitize_input text) = false) /\
  (String.length (InputValidator.sanitize_input text) <= 1000)%nat /\
  Py.lstrip (InputValidator.sanitize_input text)
  = InputValidator.sanitize_input text /\
  Py.rstrip (InputValidator.sanitize_input text)
  = InputValidator.sanitize_input text.
Proof.
  unfold InputValidator.sanitize_input. cbv zeta.
  set (t1 := fold_left (fun t c => Py.remove_char c t)
               InputValidator.dangerous_chars text).
  set (t2 := if Nat.ltb 1000 (String.length t1) then Py.take 1000 t1 else t1).
  assert (Hlen : (String.length t2 <= 1000)%nat).
  { unfold t2. destruct (Nat.ltb_spec 1000 (String.length t1)); [|lia].
    apply SanitizeFacts.take_spec. }
  assert (Hno : forall c, In c InputValidator.dangerous_chars ->
                          Py.has_char c t2 = false).
  { intros c Hc. assert (H1 : Py.has_char c t1 = false)
      by (apply SanitizeFacts.fold_removes; exact Hc).
    unfold t2. destruct (Nat.ltb 1000 (String.length t1)); [|exact H1].
    now apply SanitizeFacts.take_spec. }
  split; [|split; [|apply SanitizeFacts.strip_clean]].
  - intros c Hc. unfold Py.strip.
    apply SanitizeFacts.rstrip_spec, SanitizeFacts.lstrip_spec. now apply Hno.
  - unfold Py.strip.
    destruct (SanitizeFacts.rstrip_spec (Py.lstrip t2)) as (H1 & _).
    destruct (SanitizeFacts.lstrip_spec t2) as (H2 & _). lia.
Qed.

(** X18: the text [sanitize_input] returns holds none of the characters
    it lists as dangerous, is at most 1000 characters long, and neither
    starts nor ends with white space. *)
Theorem sanitized_input_is_clean (text : string) :
  (forall c, In c InputValidator.dangerous_chars ->
             Py.has_char c (InputValidator.sanitize_input text) = false) /\
  (String.length (InputValidator.sanitize_input text) <= 1000)%nat /\
  Py.lstrip (InputValidator.sanitize_input text)
  = InputValidator.sanitize_input text /\
  Py.rstrip (InputValidator.sanitize_input text)
  = InputValidator.sanitize_input text.
Proof. exact (sanitized_input_core text). Qed.

(** X19: [sanitize_input] is idempotent: sanitizing a sanitized text
    changes nothing. *)
Theorem sanitize_input_idempotent (text : string) :
  InputValidator.sanitize_input (InputValidator.sanitize_input text)
  = InputValidator.sanitize_input text.
Proof.
  pose proof (sanitized_input_core text) as (Hno & Hlen & Hl & Hr).
  set (t := InputValidator.sanitize_input text) in *.
  unfold InputValidator.sanitize_input at 1. cbv zeta.
  rewrite SanitizeFacts.fold_absent by exact Hno.
  destruct (Nat.ltb_spec 1000 (String.length t)); [lia|].
  unfold Py.strip. rewrite Hl. exact Hr.
Qed.

(** ** The Google backend *)

Module GoogleMore.

Import GoogleCalendar.

(** The overlap test made on one event holds exactly for a blocking
    event. *)
Lemma overlap_test_iff (s e : datetime) (ev : api_event) :
  (event_start <- fromisoformat (ae_start ev) ;;
   event_end <- fromisoformat (ae_end ev) ;;
   and_then (naive_lt s event_end) (naive_gt e event_start)) = Ok true
  <-> exists p q,
        fromisoformat (ae_start ev) = Ok p /\
        fromisoformat (ae_end ev) = Ok q /\
        utcoffset p = None /\ utcoffset q = None /\
        s < wall q /\ wall p < e.
Proof.
  destruct (fromisoformat (ae_start ev)) as [p|err1]; cbn [bind].
  2:{ split; [discriminate|]. intros (p & q & H & _). discriminate. }
  destruct (fromisoformat (ae_end ev)) as [q|err2]; cbn [bind].
  2:{ split; [discriminate|]. intros (p' & q' & _ & H & _). discriminate. }
  unfold and_then, naive_lt, naive_gt.
  destruct (utcoffset q) as [oq|] eqn:Hq; cbn [bind].
  { split; [discriminate|]. intros (p' & q' & Hp' & Hq' & _ & Hn & _).
    assert (q' = q) by congruence. subst q'. congruence. }
  destruct (Z.ltb_spec s (wall q)) as [Hlt|Hge].
  2:{ split; [discriminate|]. intros (p' & q' & Hp' & Hq' & _ & _ & Hs & _).
      assert (q' = q) by congruence. subst q'. lia. }
  destruct (utcoffset p) as [op|] eqn:Hp.
  { split; [discriminate|]. intros (p' & q' & Hp' & _ & Hn & _).
    assert (p' = p) by congruence. subst p'. congruence. }
  rewrite Z.gtb_ltb. destruct (Z.ltb_spec (wall p) e) as [Hlt2|Hge2].
  - split; [|reflexivity]. intros _. exists p, q. repeat split; assumption.
  - split; [discriminate|].
    intros (p' & q' & Hp' & _ & _ & _ & _ & He).
    assert (p' = p) by congruence. subst p'. lia.
Qed.

(** A slot is dropped by the filter's inner loop exactly when some
    listed event blocks it. *)
Lemma slot_dropped_iff (slot : TimeSlot) (events : list api_event) :
  slot_is_available slot events = false
  <-> exists ev, In ev events /\
                 blocking_event (start_time slot) (end_time slot) ev.
Proof.
  induction events as [|ev rest IH].
  - cbn. split; [discriminate|]. intros (ev & [] & _).
  - cbn [slot_is_available].
    destruct (has_T (ae_start ev)) eqn:HT; cbn [negb].
    + pose proof (overlap_test_iff (start_time slot) (end_time slot) ev) as Ht.
      destruct (bind (fromisoformat (ae_start ev)) _) as [[|]|err] eqn:E.
      * split; [|reflexivity]. intros _. exists ev. split; [now left|].
        split; [exact HT|]. apply Ht. reflexivity.
      * rewrite IH. split; intros (ev' & Hin & Hb).
        -- exists ev'. split; [now right | exact Hb].
        -- destruct Hin as [<-|Hin]; [|exists ev'; split; assumption].
           destruct Hb as (_ & Hb). apply Ht in Hb. discriminate.
      * rewrite IH. split; intros (ev' & Hin & Hb).
        -- exists ev'. split; [now right | exact Hb].
        -- destruct Hin as [<-|Hin]; [|exists ev'; split; assumption].
           destruct Hb as (_ & Hb). apply Ht in Hb. discriminate.
    + rewrite IH. split; intros (ev' & Hin & Hb).
      * exists ev'. split; [now right | exact Hb].
      * destruct Hin as [<-|Hin]; [|exists ev'; split; assumption].
        destruct Hb as (HT' & _). congruence.
Qed.

(** When the loop of the single-slot check returns, it returns what the
    filter's loop computes for a slot over the same interval. *)
Lemma check_conflicts_agrees (s e : datetime) (d : Z)
    (events : list api_event) (b : bool) :
  check_conflicts s e events = Ok b ->
  slot_is_available (mk_TimeSlot s e d) events = b.
Proof.
  induction events as [|ev rest IH];
    cbn [check_conflicts slot_is_available start_time end_time].
  - congruence.
  - destruct (has_T (ae_start ev)); cbn [negb]; [|exact IH].
    destruct (fromisoformat (ae_start ev)) as [p|]; cbn [bind];
      [|discriminate].
    destruct (fromisoformat (ae_end ev)) as [q|]; cbn [bind]; [|discriminate].
    destruct (and_then _ _) as [[|]|]; cbn [bind];
      [congruence | exact IH | discriminate].
Qed.

(** The loop of the single-slot check raises what parsing or comparing
    raises, never [HttpError]. *)
Lemma check_conflicts_raises (s e : datetime) (events : list api_event)
    (err : exn) :
  check_conflicts s e events = Raise err ->
  exn_cls err = ValueError \/ exn_cls err = TypeError.
Proof.
  induction events as [|ev rest IH]; cbn [check_conflicts]; [discriminate|].
  destruct (has_T (ae_start ev)); [|exact IH].
  destruct (fromisoformat (ae_start ev)) as [p|e1] eqn:E1; cbn [bind].
  2:{ intros H. destruct (ae_start ev) as [d1|p1|]; try discriminate.
      cbn [fromisoformat] in E1. injection E1 as <-. injection H as <-.
      now left. }
  destruct (fromisoformat (ae_end ev)) as [q|e2] eqn:E2; cbn [bind].
  2:{ intros H. destruct (ae_end ev) as [d2|p2|]; try discriminate.
      cbn [fromisoformat] in E2. injection E2 as <-. injection H as <-.
      now left. }
  unfold and_then, naive_lt, naive_gt.
  destruct (utcoffset q); cbn [bind];
    [intros H; injection H as <-; now right|].
  destruct (s <? wall q); cbn [bind]; [|exact IH].
  destruct (utcoffset p); cbn [bind];
    [intros H; injection H as <-; now right|].
  destruct (e >? wall p); [discriminate | exact IH].
Qed.

End GoogleMore.

(** X20: the Google availability filter keeps a candidate slot exactly
    when no listed event blocks it, where an event blocks a slot when
    it is a timed event, both of its times parse to datetimes without
    an offset, and it overlaps the slot.  All-day events, events whose
    strings do not parse, and events whose times carry an offset never
    remove a slot. *)
Theorem google_filter_characterised (slots : list TimeSlot)
    (events : list GoogleCalendar.api_event) (slot : TimeSlot) :
  In slot (GoogleCalendar._filter_conflicting_slots slots events)
  <-> In slot slots /\
      ~ exists ev, In ev events /\
                   blocking_event (start_time slot) (end_time slot) ev.
Proof.
  unfold GoogleCalendar._filter_conflicting_slots. rewrite filter_In.
  rewrite <- GoogleMore.slot_dropped_iff.
  destruct (GoogleCalendar.slot_is_available slot events); split;
    intros [H1 H2]; split; try assumption; try congruence.
Qed.

(** X21: when the Google service lists the events and the single-slot
    check [is_time_available] returns, its answer is the one the
    availability filter gives for a slot over the same interval, and it
    is "busy" exactly when a listed event blocks the interval. *)
Theorem google_single_check_agrees_with_filter (self : GoogleCalendar.t)
    (svc : GoogleCalendar.Service) (events : list GoogleCalendar.api_event)
    (s e : datetime) (d : Z) (b : bool) :
  GoogleCalendar.service self = Some svc ->
  GoogleCalendar.events_list svc s e = Ok events ->
  GoogleCalendar.is_time_available self s e = Ok b ->
  GoogleCalendar._filter_conflicting_slots [mk_TimeSlot s e d] events
  = (if b then [mk_TimeSlot s e d] else []) /\
  (b = false <-> exists ev, In ev events /\ blocking_event s e ev).
Proof.
  intros Hsvc Hlist. unfold GoogleCalendar.is_time_available.
  rewrite Hsvc, Hlist. cbn [bind]. unfold GoogleCalendar.except_HttpError.
  destruct (GoogleCalendar.check_conflicts s e events) as [b0|err] eqn:E.
  - intros H. assert (b0 = b) by congruence. subst b0.
    pose proof (GoogleMore.check_conflicts_agrees s e d events b E) as Hb.
    split.
    + unfold GoogleCalendar._filter_conflicting_slots. cbn [filter].
      rewrite Hb. destruct b; reflexivity.
    + rewrite <- Hb.
      apply (GoogleMore.slot_dropped_iff (mk_TimeSlot s e d) events).
  - destruct (GoogleMore.check_conflicts_raises s e events err E) as [Hc|Hc];
      rewrite Hc; discriminate.
Qed.

Lemma google_single_check_agrees_with_filter_witness :
  GoogleCalendar.is_time_available
    (Examples.google_with [Examples.naive_event])
    (Examples.at_ Examples.monday 10 0) (Examples.at_ Examples.monday 11 0)
  = Ok false /\
  GoogleCalendar._filter_conflicting_slots
    [Examples.hour_slot Examples.monday 10] [Examples.naive_event] = [].
Proof.
  split; [reflexivity|].
  exact (proj1
           (google_single_check_agrees_with_filter
              (Examples.google_with [Examples.naive_event]) _
              [Examples.naive_event]
              (Examples.at_ Examples.monday 10 0)
              (Examples.at_ Examples.monday 11 0) 60 false
              eq_refl eq_refl eq_refl)).
Defined.

(** ** The session object *)

Lemma last_with_role_other (r r' : Role) (msgs : list Message) (text : string)
    (ts : datetime) :
  r <> r' ->
  last_with_role r (msgs ++ [mk_Message r' text ts]) = last_with_role r msgs.
Proof.
  intros H. unfold last_with_role. rewrite rev_app_distr. simpl.
  destruct r', r; try reflexivity; now elim H.
Qed.

Lemma last_user_after_add (ts : datetime) (text : string)
    (state : AgentState) :
  get_last_user_message (add_user_message ts text state) = Some text.
Proof. apply last_with_role_snoc. Qed.

(** X22: the two look-ups scan the history from its end for the role
    they want: after [add_user_message] the last user message is the
    one added and the last assistant message is what it was, and the
    same holds with the roles exchanged. *)
Theorem last_message_lookups (state : AgentState) (ts : datetime)
    (text : string) :
  get_last_user_message (add_user_message ts text state) = Some text /\
  get_last_assistant_message (add_user_message ts text state)
  = get_last_assistant_message state /\
  get_last_assistant_message (add_assistant_message ts text state)
  = Some text /\
  get_last_user_message (add_assistant_message ts text state)
  = get_last_user_message state.
Proof.
  split; [apply last_with_role_snoc|].
  split; [apply last_with_role_other; discriminate|].
  split; [apply last_with_role_snoc|].
  apply last_with_role_other. discriminate.
Qed.

(** ** The dialogue: what a turn does to the history, the calendar and
    the other sessions *)

Lemma ra_refl (l : list Message) : replies_appended l l.
Proof. exists []. rewrite app_nil_r. split; [reflexivity | constructor]. Qed.

Lemma ra_trans (l1 l2 l3 : list Message) :
  replies_appended l1 l2 -> replies_appended l2 l3 -> replies_appended l1 l3.
Proof.
  intros (t1 & -> & F1) (t2 & -> & F2). exists (t1 ++ t2)%list.
  rewrite app_assoc. split; [reflexivity|]. apply Forall_app. now split.
Qed.

Lemma ra_add (l : list Message) (ts : datetime) (text : string)
    (state : AgentState) :
  replies_appended l (messages state) ->
  replies_appended l (messages (add_assistant_message ts text state)).
Proof.
  intros H. apply (ra_trans _ _ _ H).
  exists [mk_Message assistant text ts]. split; [reflexivity|].
  constructor; [reflexivity | constructor].
Qed.

Ltac ra_solve :=
  cbn [messages update_state set_available_slots set_appointment_request];
  repeat first [apply ra_refl | apply ra_add].

Section DialogueFacts.

Variable date_parser : DateParser.
Variable B : Type.
Variable calendar_service : CalendarService B.

Let suggest :=
  ConversationNodes.suggest_alternative_slots date_parser B calendar_service.
Let check :=
  ConversationNodes.check_availability date_parser B calendar_service.
Let collect :=
  ConversationNodes.collect_appointment_details_with_ai date_parser B
    calendar_service.
Let select :=
  ConversationNodes.handle_slot_selection date_parser B calendar_service.
Let confirm :=
  ConversationNodes.confirm_booking date_parser B calendar_service.
Let book :=
  ConversationNodes.book_appointment date_parser B calendar_service.
Let route := ConversationGraph.route date_parser B calendar_service.
Let process_message :=
  ConversationGraph.process_message date_parser B calendar_service.

Lemma suggest_appends (env : Env) (backend : B) (state : AgentState) :
  replies_appended (messages state) (messages (suggest env backend state)).
Proof.
  unfold suggest, ConversationNodes.suggest_alternative_slots.
  destruct (draft_of state) as [request|]; [|apply ra_refl].
  destruct (ConversationNodes.alternatives_search _ _ _ _ _) as [found|e];
    [|ra_solve].
  destruct (Py.truthy_list _); [|ra_solve].
  destruct (title_lower _); ra_solve.
Qed.

Lemma check_try_appends (env : Env) (backend : B) (state : AgentState)
    (request : AppointmentRequest) (s : datetime) :
  replies_appended (messages state)
    (messages
       (ConversationNodes.check_availability_try date_parser B calendar_service
          env backend state request s)).
Proof.
  unfold ConversationNodes.check_availability_try.
  destruct (ConversationNodes.single_slot_check _ _ _ _ _) as [[|]|e].
  - destruct (title_lower _); [ra_solve|].
    eapply ra_trans; [|apply suggest_appends]. ra_solve.
  - eapply ra_trans; [|apply suggest_appends]. ra_solve.
  - eapply ra_trans; [|apply suggest_appends]. ra_solve.
Qed.

Lemma collect_with_appends (chk : AgentState -> AgentState) (env : Env)
    (state : AgentState) :
  (forall st, replies_appended (messages st) (messages (chk st))) ->
  replies_appended (messages state)
    (messages (ConversationNodes.collect_with date_parser chk env state)).
Proof.
  intros Hchk. unfold ConversationNodes.collect_with.
  destruct (get_last_user_message state) as [[|c msg]|]; try apply ra_refl.
  set (r := ConversationNodes.merge_fields _ _ _ _).
  destruct (start_date r) as [s|]; [|ra_solve].
  destruct (ar_duration_minutes r) as [d|]; [|ra_solve].
  eapply ra_trans; [|apply Hchk].
  destruct (end_date r); ra_solve.
Qed.

Lemma check_depth_appends (depth : nat) (env : Env) (backend : B) :
  forall state,
    replies_appended (messages state)
      (messages
         (ConversationNodes.check_availability_depth date_parser B
            calendar_service depth env backend state)).
Proof.
  induction depth as [|depth IH]; intros state; [apply ra_refl|].
  cbn [ConversationNodes.check_availability_depth].
  destruct (draft_of state) as [request|];
    [|apply collect_with_appends; exact IH].
  destruct (start_date request) as [s|];
    [apply check_try_appends | apply collect_with_appends; exact IH].
Qed.

Lemma collect_appends (env : Env) (backend : B) (state : AgentState) :
  replies_appended (messages state) (messages (collect env backend state)).
Proof.
  apply collect_with_appends. intros st. apply check_depth_appends.
Qed.

Lemma select_appends (env : Env) (backend : B) (state : AgentState) :
  match select env backend state with
  | Returned st | Raised _ st =>
      replies_appended (messages state) (messages st)
  end.
Proof.
  unfold select, ConversationNodes.handle_slot_selection.
  destruct (get_last_user_message state) as [[|c msg]|]; try apply ra_refl.
  destruct (negb _); [apply collect_appends|].
  destruct (ConversationNodes.selection_loop _ _ _) as [k|];
    [|apply collect_appends].
  destruct (ConversationNodes.getitem _ _) as [slot|e]; [|apply ra_refl].
  destruct (draft_of state) as [request|]; [|apply ra_refl].
  destruct (title_lower _); ra_solve.
Qed.

Lemma book_appends (env : Env) (backend : B) (state : AgentState) :
  replies_appended (messages state) (messages (fst (book env backend state))).
Proof.
  unfold book, ConversationNodes.book_appointment.
  destruct (draft_of state) as [request|]; [|apply collect_appends].
  destruct (start_date request) as [s|]; [|apply collect_appends].
  destruct (ConversationNodes.commit_booking _ _ _ _ _ _) as [[r b']|e];
    [destruct (success r)|]; cbn [fst]; ra_solve.
Qed.

Lemma confirm_appends (env : Env) (backend : B) (state : AgentState) :
  replies_appended (messages state)
    (messages (fst (confirm env backend state))).
Proof.
  unfold confirm, ConversationNodes.confirm_booking.
  destruct (get_last_user_message state) as [[|c msg]|]; try apply ra_refl.
  destruct (Py.any_in _ _); [apply book_appends|].
  destruct (Py.any_in _ _); cbn [fst]; ra_solve.
Qed.

Lemma contextual_appends (env : Env) (collab : Collaborators)
    (state : AgentState) :
  replies_appended (messages state)
    (messages (ConversationNodes.handle_contextual_response env collab state)).
Proof.
  unfold ConversationNodes.handle_contextual_response,
    ConversationNodes.handle_unknown_intent.
  destruct (ai_reply collab); ra_solve.
Qed.

Lemma route_appends (env : Env) (collab : Collaborators) (backend : B)
    (session : ConversationGraph.Session) :
  match route env collab backend session with
  | Returned (session', _) | Raised _ (session', _) =>
      replies_appended (messages (ConversationGraph.agent session))
        (messages (ConversationGraph.agent session'))
  end.
Proof.
  unfold route, ConversationGraph.route.
  destruct (state_of (ConversationGraph.agent session)).
  - cbn [ConversationGraph.agent].
    unfold ConversationGraph._route_initial_intent.
    destruct (match ConversationNodes.classify_intent collab _ with
              | Some r => Some r
              | None => ConversationGraph.intent_result session
              end) as [r|]; [|apply contextual_appends].
    destruct (intent r);
      try apply collect_appends; try apply contextual_appends;
      unfold ConversationNodes.handle_greeting, ConversationNodes.handle_help;
      ra_solve.
  - apply collect_appends.
  - apply check_depth_appends.
  - pose proof (select_appends env backend (ConversationGraph.agent session))
      as H.
    unfold select in H.
    destruct (ConversationNodes.handle_slot_selection _ _ _ _ _ _);
      exact H.
  - pose proof (confirm_appends env backend (ConversationGraph.agent session))
      as H.
    unfold confirm in H.
    destruct (ConversationNodes.confirm_booking _ _ _ _ _ _) as [st b'].
    exact H.
  - apply contextual_appends.
Qed.

Lemma sessions_get_set_same (k : string) (v : ConversationGraph.Session)
    (d : ConversationGraph.Sessions) :
  ConversationGraph.sessions_get k (ConversationGraph.sessions_set k v d)
  = Some v.
Proof.
  induction d as [|[k' v'] d IH]; cbn.
  - now rewrite String.eqb_refl.
  - destruct (String.eqb k' k) eqn:E; cbn; rewrite ?String.eqb_refl, ?E;
      [reflexivity | exact IH].
Qed.

Lemma sessions_get_set_other (k k0 : string) (v : ConversationGraph.Session)
    (d : ConversationGraph.Sessions) :
  k0 <> k ->
  ConversationGraph.sessions_get k0 (ConversationGraph.sessions_set k v d)
  = ConversationGraph.sessions_get k0 d.
Proof.
  intros Hne. induction d as [|[k' v'] d IH]; cbn.
  - destruct (String.eqb_spec k k0); [now elim Hne | reflexivity].
  - destruct (String.eqb_spec k' k) as [->|Hk]; cbn.
    + destruct (String.eqb_spec k k0); [now elim Hne|].
      destruct (String.eqb_spec k k0); [now elim Hne | reflexivity].
    + destruct (String.eqb k' k0); [reflexivity | exact IH].
Qed.

Lemma sessions_get_del_same (k : string) (d : ConversationGraph.Sessions) :
  ConversationGraph.sessions_get k (ConversationGraph.sessions_del k d) = None.
Proof.
  unfold ConversationGraph.sessions_del.
  induction d as [|[k' v'] d IH]; [reflexivity|]. cbn.
  destruct (String.eqb k' k) eqn:E; cbn; [exact IH|]. rewrite E. exact IH.
Qed.

Lemma sessions_get_del_other (k k0 : string)
    (d : ConversationGraph.Sessions) :
  k0 <> k ->
  ConversationGraph.sessions_get k0 (ConversationGraph.sessions_del k d)
  = ConversationGraph.sessions_get k0 d.
Proof.
  intros Hne. unfold ConversationGraph.sessions_del.
  induction d as [|[k' v'] d IH]; [reflexivity|]. cbn.
  destruct (String.eqb_spec k' k) as [->|Hk]; cbn.
  - destruct (String.eqb_spec k k0); [now elim Hne | exact IH].
  - destruct (String.eqb k' k0); [reflexivity | exact IH].
Qed.

(** The session a turn works on, and the sessions it starts from. *)
Lemma process_message_unfold (env : Env) (collab : Collaborators)
    (backend : B) (sessions : ConversationGraph.Sessions)
    (message session_id : string) :
  exists sessions1 session,
    ConversationGraph.sessions_get session_id sessions1 = Some session /\
    messages (ConversationGraph.agent session)
    = ConversationGraph.get_conversation_history sessions session_id /\
    (forall k, k <> session_id ->
       ConversationGraph.sessions_get k sessions1
       = ConversationGraph.sessions_get k sessions) /\
    (ConversationGraph.sessions_get session_id sessions = Some session \/
     ConversationGraph.sessions_get session_id sessions = None /\
     session = ConversationGraph.mk_Session new_AgentState None) /\
    let turn :=
      route env collab backend
        (ConversationGraph.mk_Session
           (add_user_message (now env) message
              (ConversationGraph.agent session))
           (ConversationGraph.intent_result session)) in
    snd (fst (process_message env collab backend sessions message session_id))
    = ConversationGraph.sessions_set session_id
        (match turn with
         | Returned (session', _) | Raised _ (session', _) => session'
         end) sessions1 /\
    snd (process_message env collab backend sessions message session_id)
    = match turn with
      | Returned (_, backend') | Raised _ (_, backend') => backend'
      end.
Proof.
  unfold process_message, ConversationGraph.process_message,
    ConversationGraph.get_conversation_history, route.
  destruct (ConversationGraph.sessions_get session_id sessions)
    as [session|] eqn:Hget.
  - exists sessions, session. rewrite Hget.
    split; [reflexivity|]. split; [reflexivity|].
    split; [reflexivity|]. split; [now left|]. cbv zeta.
    destruct (ConversationGraph.route _ _ _ _ _ _ _) as [[s' b']|e [s' b']];
      split; reflexivity.
  - exists (ConversationGraph.sessions_set session_id
              (ConversationGraph.mk_Session new_AgentState None) sessions),
      (ConversationGraph.mk_Session new_AgentState None).
    rewrite sessions_get_set_same.
    split; [reflexivity|]. split; [reflexivity|].
    split; [intros k Hk; now apply sessions_get_set_other|].
    split; [now right|]. cbv zeta.
    destruct (ConversationGraph.route _ _ _ _ _ _ _) as [[s' b']|e [s' b']];
      split; reflexivity.
Qed.

(** X23: a turn never drops or rewrites a message.  Whatever the state
    of the session, the backend and the message, the history of the
    session after [process_message] is its history before, followed by
    the user message, followed by assistant messages only; this holds
    also when a handler raises. *)
Theorem history_is_append_only (env : Env) (collab : Collaborators)
    (backend : B) (sessions : ConversationGraph.Sessions)
    (message session_id : string) :
  replies_appended
    (ConversationGraph.get_conversation_history sessions session_id
     ++ [mk_Message user message (now env)])%list
    (ConversationGraph.get_conversation_history
       (snd (fst (process_message env collab backend sessions message
                    session_id)))
       session_id).
Proof.
  destruct (process_message_unfold env collab backend sessions message
              session_id)
    as (sessions1 & session & Hget & Hmsgs & _ & _ & Hs & _).
  cbv zeta in Hs. rewrite Hs.
  unfold ConversationGraph.get_conversation_history at 2.
  rewrite sessions_get_set_same, <- Hmsgs.
  pose proof (route_appends env collab backend
                (ConversationGraph.mk_Session
                   (add_user_message (now env) message
                      (ConversationGraph.agent session))
                   (ConversationGraph.intent_result session))) as H.
  destruct (route _ _ _ _) as [[s' b']|e [s' b']]; exact H.
Qed.

(** X24: a turn in one session leaves every other session as it was,
    and [reset_conversation] forgets the session it is given and no
    other. *)
Theorem sessions_are_isolated (env : Env) (collab : Collaborators)
    (backend : B) (sessions : ConversationGraph.Sessions)
    (message session_id other : string) :
  other <> session_id ->
  ConversationGraph.sessions_get other
    (snd (fst (process_message env collab backend sessions message
                 session_id)))
  = ConversationGraph.sessions_get other sessions /\
  ConversationGraph.sessions_get other
    (snd (ConversationGraph.reset_conversation sessions session_id))
  = ConversationGraph.sessions_get other sessions /\
  ConversationGraph.get_conversation_history
    (snd (ConversationGraph.reset_conversation sessions session_id))
    session_id = [].
Proof.
  intros Hne.
  destruct (process_message_unfold env collab backend sessions message
              session_id)
    as (sessions1 & session & _ & _ & Hother & _ & Hs & _).
  cbv zeta in Hs. rewrite Hs. split; [|split].
  - rewrite sessions_get_set_other by exact Hne. now apply Hother.
  - cbn [ConversationGraph.reset_conversation snd].
    now apply sessions_get_del_other.
  - cbn [ConversationGraph.reset_conversation snd].
    unfold ConversationGraph.get_conversation_history.
    now rewrite sessions_get_del_same.
Qed.



End DialogueFacts.

Lemma sessions_are_isolated_witness :
  "s1" <> "s2" /\
  ConversationGraph.sessions_get "s1"
    (snd (fst (Examples.turn_on_mock
                 (Examples.waiting CONFIRMING_BOOKING) "hello" "s2")))
  = ConversationGraph.sessions_get "s1" (Examples.waiting CONFIRMING_BOOKING).
Proof.
  assert (H : "s1" <> "s2") by discriminate.
  split; [exact H|].
  exact (proj1
           (sessions_are_isolated Examples.sample_parser MockCalendar.t
              (mock_calendar Examples.sample_parser) (Examples.noon_env None)
              Examples.no_ai Examples.seeded
              (Examples.waiting CONFIRMING_BOOKING) "hello" "s2" "s1" H)).
Defined.


Section DialogueTurns.

Variable date_parser : DateParser.
Variable B : Type.
Variable calendar_service : CalendarService B.

Let collect :=
  ConversationNodes.collect_appointment_details_with_ai date_parser B
    calendar_service.
Let route := ConversationGraph.route date_parser B calendar_service.
Let process_message :=
  ConversationGraph.process_message date_parser B calendar_service.

(** A turn in which no handler raises. *)
Lemma process_message_returned (env : Env) (collab : Collaborators)
    (backend : B) (sessions : ConversationGraph.Sessions)
    (message session_id : string) (session' : ConversationGraph.Session)
    (backend' : B) :
  route env collab backend
    (ConversationGraph.mk_Session
       (add_user_message (now env) message
          (ConversationGraph.agent (current_session sessions session_id)))
       (ConversationGraph.intent_result (current_session sessions session_id)))
  = Returned (session', backend') ->
  fst (fst (process_message env collab backend sessions message session_id))
  = ConversationGraph.mk_Reply
      (match get_last_assistant_message (ConversationGraph.agent session') with
       | None | Some EmptyString =>
           "I'm here to help you book appointments. What would you like to do?"
       | Some text => text
       end)
      (conversation_state (ConversationGraph.agent session'))
      (available_slots (conversation_state (ConversationGraph.agent session')))
      (match state_of (ConversationGraph.agent session') with
       | CONFIRMING_BOOKING => true
       | _ => false
       end)
      (error_message (conversation_state (ConversationGraph.agent session'))) /\
  ConversationGraph.sessions_get session_id
    (snd (fst (process_message env collab backend sessions message
                 session_id)))
  = Some session' /\
  snd (process_message env collab backend sessions message session_id)
  = backend'.
Proof.
  unfold current_session, process_message, ConversationGraph.process_message,
    route.
  destruct (ConversationGraph.sessions_get session_id sessions)
    as [session|] eqn:Hget; cbv zeta.
  - rewrite Hget. intros ->. cbn [fst snd].
    split; [reflexivity|]. split; [apply sessions_get_set_same | reflexivity].
  - rewrite sessions_get_set_same. intros ->. cbn [fst snd].
    split; [reflexivity|]. split; [apply sessions_get_set_same | reflexivity].
Qed.

(** X26: without a language model, a message that holds one of the
    greeting words anywhere, also inside another word, is answered in
    the INITIAL state with the greeting and nothing else happens: the
    draft and the calendar stay as they were, whatever else the message
    asks for.  This holds for a new session and for a stored one that
    is in INITIAL. *)
Theorem greeting_words_win (env : Env) (collab : Collaborators) (backend : B)
    (sessions : ConversationGraph.Sessions) (message session_id : string) :
  state_of (ConversationGraph.agent (current_session sessions session_id))
  = INITIAL ->
  ai_intent collab = None ->
  Py.any_in
    ["hello"; "hi"; "hey"; "good morning"; "good afternoon"; "good evening"]
    (Py.lower message) = true ->
  let turn := process_message env collab backend sessions message session_id in
  ConversationGraph.reply_message (fst (fst turn))
  = ConversationNodes.greeting_text /\
  current_state (ConversationGraph.reply_state (fst (fst turn))) = INITIAL /\
  appointment_request (ConversationGraph.reply_state (fst (fst turn)))
  = draft_of (ConversationGraph.agent (current_session sessions session_id)) /\
  snd turn = backend.
Proof.
  intros Hst Hai Hgreet. cbv zeta.
  destruct message as [|c rest]; [discriminate Hgreet|].
  set (session := current_session sessions session_id) in *.
  destruct (process_message_returned env collab backend sessions
              (String c rest) session_id
              (ConversationGraph.mk_Session
                 (ConversationNodes.handle_greeting env
                    (add_user_message (now env) (String c rest)
                       (ConversationGraph.agent session)))
                 (Some (mk_IntentResult GREETING 80 [])))
              backend) as (Hreply & _ & Hbackend).
  - fold session. unfold route, ConversationGraph.route.
    cbn [ConversationGraph.agent].
    change (state_of (add_user_message (now env) (String c rest)
                        (ConversationGraph.agent session)))
      with (state_of (ConversationGraph.agent session)).
    rewrite Hst. unfold ConversationNodes.classify_intent.
    rewrite last_user_after_add, Hai.
    unfold ConversationNodes._classify_with_enhanced_rules. cbv zeta.
    rewrite Hgreet. reflexivity.
  - rewrite Hreply, Hbackend.
    cbn [ConversationGraph.reply_message ConversationGraph.reply_state
         ConversationGraph.agent].
    unfold ConversationNodes.handle_greeting.
    rewrite last_assistant_after_reply.
    split; [reflexivity|]. split; [reflexivity|]. split; reflexivity.
Qed.


(** X28: a time once collected is not parsed again.  Without an
    extraction result, a turn of detail collection on a draft that has
    a start, an end, a duration and a title leaves the draft exactly as
    it was, whatever the message says and whatever the date parser
    would read from it. *)
Theorem collected_time_is_frozen (env : Env) (backend : B)
    (state : AgentState) (user_message : string) (r : AppointmentRequest)
    (s e : datetime) :
  extraction env = None ->
  get_last_user_message state = Some user_message ->
  user_message <> EmptyString ->
  draft_of state = Some r ->
  start_date r = Some s ->
  end_date r = Some e ->
  Py.truthy_int (ar_duration_minutes r) = true ->
  Py.truthy_str (title r) = true ->
  draft_of (collect env backend state) = Some r.
Proof.
  intros Hex Hm Hne Hd Hs He Hdur Ht.
  unfold collect.
  rewrite (collect_draft date_parser B calendar_service env backend state
             user_message Hm Hne).
  rewrite Hex, Hd. f_equal.
  unfold ConversationNodes.merge_draft, ConversationNodes.merge_fields.
  cbn [ConversationNodes.apply_extraction].
  rewrite (ft_start_known date_parser user_message r) by congruence.
  rewrite (fd_fixed date_parser user_message r) by (left; exact Hdur).
  rewrite (dt_fixed user_message r Ht).
  apply de_end_known. congruence.
Qed.

End DialogueTurns.

Lemma greeting_words_win_witness :
  Py.any_in
    ["hello"; "hi"; "hey"; "good morning"; "good afternoon"; "good evening"]
    (Py.lower "Schedule this for tomorrow at 3 PM") = true /\
  ConversationGraph.reply_message
    (fst (fst (Examples.turn_on_mock [] "Schedule this for tomorrow at 3 PM"
                 "s1")))
  = ConversationNodes.greeting_text.
Proof.
  split; [reflexivity|].
  exact (proj1
           (greeting_words_win Examples.sample_parser MockCalendar.t
              (mock_calendar Examples.sample_parser) (Examples.noon_env None)
              Examples.no_ai Examples.seeded []
              "Schedule this for tomorrow at 3 PM" "s1"
              eq_refl eq_refl eq_refl)).
Defined.


Lemma collected_time_is_frozen_witness :
  get_last_user_message
    (Examples.session COLLECTING_DETAILS (Some Examples.free_hour) []
       "3-5 pm")
  = Some "3-5 pm" /\
  parse_time_range Examples.sample_parser "3-5 pm"
  = Some (Examples.at_ Examples.sunday 15 0, Examples.at_ Examples.sunday 17 0)
  /\
  draft_of
    (ConversationNodes.collect_appointment_details_with_ai
       Examples.sample_parser MockCalendar.t
       (mock_calendar Examples.sample_parser) (Examples.noon_env None)
       Examples.seeded
       (Examples.session COLLECTING_DETAILS (Some Examples.free_hour) []
          "3-5 pm"))
  = Some Examples.free_hour.
Proof.
  assert (Hne : "3-5 pm" <> EmptyString) by discriminate.
  split; [reflexivity|]. split; [reflexivity|].
  exact (collected_time_is_frozen Examples.sample_parser MockCalendar.t
           (mock_calendar Examples.sample_parser) (Examples.noon_env None)
           Examples.seeded
           (Examples.session COLLECTING_DETAILS (Some Examples.free_hour) []
              "3-5 pm")
           "3-5 pm" Examples.free_hour (Examples.at_ Examples.monday 15 0)
           (Examples.at_ Examples.monday 16 0)
           eq_refl eq_refl Hne eq_refl eq_refl eq_refl eq_refl eq_refl).
Defined.

(** ** Two turns on a backend *)

(** X29: a Google backend without credentials lets every request
    through and then refuses it.  For a draft with a start, a title and
    an end or duration, [check_availability] finds the time available
    and asks for confirmation; when the user then consents,
    [confirm_booking] gets the refusal of [book_appointment], reports
    "Google Calendar service not available" and returns to
    COLLECTING_DETAILS. *)
Theorem google_without_service_accepts_then_fails (date_parser : DateParser)
    (env env' : Env) (self : GoogleCalendar.t) (state : AgentState)
    (request : AppointmentRequest) (s e : datetime) (t : string)
    (user_message : string) :
  GoogleCalendar.service self = None ->
  draft_of state = Some request ->
  start_date request = Some s ->
  title request = Some t ->
  ConversationNodes.interval_end request s = Ok e ->
  affirmative user_message = true ->
  let checked :=
    ConversationNodes.check_availability date_parser GoogleCalendar.t
      google_calendar env self state in
  let confirmed :=
    ConversationNodes.confirm_booking date_parser GoogleCalendar.t
      google_calendar env' self
      (add_user_message (now env') user_message checked) in
  state_of checked = CONFIRMING_BOOKING /\
  state_of (fst confirmed) = COLLECTING_DETAILS /\
  get_last_assistant_message (fst confirmed)
  = Some "I'm sorry, there was an error booking your appointment: Google Calendar service not available. Would you like to try a different time?" /\
  snd confirmed = self.
Proof.
  intros Hsvc Hd Hs Ht He Hyes. cbv zeta.
  assert (Hchk : exists text,
            ConversationNodes.check_availability date_parser GoogleCalendar.t
              google_calendar env self state
            = update_state CONFIRMING_BOOKING
                (add_assistant_message (now env) text state)).
  { rewrite check_availability_unfold, Hd, Hs.
    unfold ConversationNodes.check_availability_try,
      ConversationNodes.single_slot_check.
    cbn [getattr_is_time_available google_calendar svc_is_time_available bind].
    rewrite He. cbn [bind]. unfold GoogleCalendar.is_time_available.
    rewrite Hsvc, Ht. cbn [title_lower]. eexists. reflexivity. }
  destruct Hchk as [text ->]. split; [reflexivity|].
  unfold ConversationNodes.confirm_booking.
  rewrite last_user_after_add.
  destruct user_message as [|c rest]; [discriminate Hyes|].
  unfold affirmative in Hyes. rewrite Hyes.
  unfold ConversationNodes.book_appointment.
  change (draft_of
            (add_user_message (now env') (String c rest)
               (update_state CONFIRMING_BOOKING
                  (add_assistant_message (now env) text state))))
    with (draft_of state).
  rewrite Hd, Hs. unfold ConversationNodes.commit_booking.
  rewrite He. cbn [bind google_calendar svc_book_appointment].
  unfold GoogleCalendar.book_appointment. rewrite Hsvc.
  cbn [bind success message fst snd].
  rewrite last_assistant_after_reply.
  split; [reflexivity|]. split; reflexivity.
Qed.

Lemma google_without_service_accepts_then_fails_witness :
  ConversationNodes.interval_end Examples.free_hour
    (Examples.at_ Examples.monday 15 0)
  = Ok (Examples.at_ Examples.monday 16 0) /\
  affirmative "yes please" = true /\
  state_of
    (ConversationNodes.check_availability Examples.sample_parser
       GoogleCalendar.t google_calendar (Examples.noon_env None)
       Examples.google_offline
       (Examples.session CHECKING_AVAILABILITY (Some Examples.free_hour) []
          "Monday at 3 pm"))
  = CONFIRMING_BOOKING.
Proof.
  split; [reflexivity|]. split; [reflexivity|].
  exact (proj1
           (google_without_service_accepts_then_fails Examples.sample_parser
              (Examples.noon_env None) (Examples.noon_env None)
              Examples.google_offline
              (Examples.session CHECKING_AVAILABILITY
                 (Some Examples.free_hour) [] "Monday at 3 pm")
              Examples.free_hour (Examples.at_ Examples.monday 15 0)
              (Examples.at_ Examples.monday 16 0) "Meeting" "yes please"
              eq_refl eq_refl eq_refl eq_refl eq_refl eq_refl)).
Defined.

(** X30: on the in-memory backend, choosing one of the offered slots
    and consenting books that slot.  When the offered slots come from an
    availability search of the calendar for a positive duration and the
    message selects one of them, [handle_slot_selection] asks for
    confirmation, and after a consenting reply [confirm_booking] ends in
    BOOKING_COMPLETE with an event of the draft's title stored over
    exactly the selected slot. *)
Theorem chosen_option_gets_booked (date_parser : DateParser) (env env' : Env)
    (self : MockCalendar.t) (state : AgentState)
    (user_message reply : string) (request : AppointmentRequest) (t : string)
    (k : nat) (s e : datetime) (d : Z) :
  get_last_user_message state = Some user_message ->
  user_message <> EmptyString ->
  draft_of state = Some request ->
  title request = Some t ->
  0 < d ->
  (forall slot,
     In slot (available_slots (conversation_state state)) ->
     In slot (resp_available_slots (MockCalendar.get_availability self s e d)))
  ->
  ConversationNodes.selection_loop (Py.lower user_message)
    (List.length (available_slots (conversation_state state))) 0 = Some k ->
  affirmative reply = true ->
  exists slot selected,
    nth_error (available_slots (conversation_state state)) k = Some slot /\
    ConversationNodes.handle_slot_selection date_parser MockCalendar.t
      (mock_calendar date_parser) env self state = Returned selected /\
    state_of selected = CONFIRMING_BOOKING /\
    let confirmed :=
      ConversationNodes.confirm_booking date_parser MockCalendar.t
        (mock_calendar date_parser) env' self
        (add_user_message (now env') reply selected) in
    state_of (fst confirmed) = BOOKING_COMPLETE /\
    exists ev,
      In ev (MockCalendar.values (snd confirmed)) /\
      ev_title ev = t /\
      ev_start_time ev = start_time slot /\ ev_end_time ev = end_time slot.
Proof.
  intros Hm Hne Hd Ht Hpos Hoffered Hsel Hyes.
  destruct (selection_loop_some _ _ _ _ Hsel) as (Hk & _).
  destruct (nth_error (available_slots (conversation_state state)) k)
    as [slot|] eqn:Hnth; [|apply nth_error_None in Hnth; lia].
  pose proof (Hoffered slot (nth_error_In _ _ Hnth)) as Hin.
  destruct (book_offered_slot date_parser self s e d slot (now_ts env') t
              (description request) (Some (attendees request)) Hpos Hin)
    as (Hok & ev & Hev & Hev_t & Hev_s & Hev_e).
  exists slot. eexists. split; [reflexivity|].
  unfold ConversationNodes.handle_slot_selection. rewrite Hm.
  destruct user_message as [|c rest]; [now elim Hne|].
  destruct (available_slots (conversation_state state)) as [|x l] eqn:Hslots;
    [cbn in Hk; lia|].
  cbn [Py.truthy_list negb]. rewrite Hsel.
  unfold ConversationNodes.getitem. rewrite Hnth, Hd.
  cbn [title with_end_date with_start_date]. rewrite Ht. cbn [title_lower].
  split; [reflexivity|]. split; [reflexivity|]. cbv zeta.
  unfold ConversationNodes.confirm_booking. rewrite last_user_after_add.
  destruct reply as [|c' rest']; [discriminate Hyes|].
  unfold affirmative in Hyes. rewrite Hyes.
  unfold ConversationNodes.book_appointment.
  cbn [draft_of add_user_message update_state add_assistant_message
       set_appointment_request conversation_state appointment_request
       start_date with_end_date with_start_date].
  unfold ConversationNodes.commit_booking, ConversationNodes.interval_end.
  cbn [end_date with_end_date with_start_date bind mock_calendar
       svc_book_appointment title description attendees].
  rewrite Ht.
  destruct (MockCalendar.book_appointment date_parser self (now_ts env')
              (Some t) (start_time slot) (end_time slot) (description request)
              (Some (attendees request))) as [resp self'] eqn:Hbook.
  cbn [fst snd] in Hok, Hev. rewrite Hok. cbn [fst snd].
  split; [reflexivity|]. exists ev. repeat split; assumption.
Qed.

Lemma chosen_option_gets_booked_witness :
  ConversationNodes.selection_loop (Py.lower "Option 2") 3 0 = Some 1%nat /\
  affirmative "Yes" = true /\
  exists selected,
    ConversationNodes.handle_slot_selection Examples.sample_parser
      MockCalendar.t (mock_calendar Examples.sample_parser)
      (Examples.noon_env None) Examples.seeded
      (Examples.session SUGGESTING_SLOTS (Some Examples.free_hour)
         Examples.offered_monday "Option 2")
    = Returned selected /\
    exists ev,
      In ev
        (MockCalendar.values
           (snd (ConversationNodes.confirm_booking Examples.sample_parser
                   MockCalendar.t (mock_calendar Examples.sample_parser)
                   (Examples.noon_env None) Examples.seeded
                   (add_user_message (now (Examples.noon_env None)) "Yes"
                      selected)))) /\
      ev_start_time ev = Examples.at_ Examples.monday 11 0.
Proof.
  assert (Hne : "Option 2" <> EmptyString) by discriminate.
  assert (H0 : 0 < 60) by reflexivity.
  assert (Hoffered : forall slot,
            In slot Examples.offered_monday ->
            In slot
              (resp_available_slots
                 (MockCalendar.get_availability Examples.seeded
                    (Examples.at_ Examples.monday 9 0)
                    (Examples.at_ Examples.monday 13 0) 60))).
  { intros slot [<-|[<-|[<-|[]]]]; vm_compute; tauto. }
  split; [reflexivity|]. split; [reflexivity|].
  destruct (chosen_option_gets_booked Examples.sample_parser
              (Examples.noon_env None) (Examples.noon_env None)
              Examples.seeded
              (Examples.session SUGGESTING_SLOTS (Some Examples.free_hour)
                 Examples.offered_monday "Option 2")
              "Option 2" "Yes" Examples.free_hour "Meeting" 1
              (Examples.at_ Examples.monday 9 0)
              (Examples.at_ Examples.monday 13 0) 60
              eq_refl Hne eq_refl eq_refl H0 Hoffered eq_refl eq_refl)
    as (slot & selected & Hnth & Hsel & _ & _ & ev & Hev & _ & Hstart & _).
  exists selected. split; [exact Hsel|]. exists ev. split; [exact Hev|].
  rewrite Hstart. cbn in Hnth. injection Hnth as <-. reflexivity.
Defined.
